(** * Face checkpoint store of sd-webui-faceswaplab

    A shallow embedding of [scripts/faceswaplab_utils/face_checkpoints_utils.py]
    and the properties of its checkpoint store: name sanitisation, path
    resolution, the collision policy of the build workflow, the two-format
    load, and the directory listing.

    Conventions of the model.
    - Python [str] values are [string]s of bytes (UTF-8).  Every character
      the code looks at ([/], [.], [_], space, letters, digits, the two
      extensions) is ASCII, a non-ASCII code point is a run of bytes that are
      all at least 128, and byte order is code point order, so removing
      characters, slicing after the removal, and comparing names agree with
      the code point view.
    - [os.path] is [posixpath]: the separator is [/].
    - The file system is a finite map from path strings to nodes; paths are
      compared as strings, as the program builds every path with the same
      [os.path.join].
    - Python exceptions are values of [exn]; a computation maps a [world] to
      an [outcome] and the [world] it leaves, also when it raises.
    - The model stops at the edge of the libraries the program calls.
      Array data is opaque and the conversions of [torch] and [numpy] are
      taken as exact, so no statement here is about the numbers of a tensor.
      Of the directories above the managed directory the model keeps no
      nodes: statements about [os.makedirs] say what is above, or leave it
      open.  [glob] is modelled for a directory whose path holds none of
      its wildcard characters; statements about the listing say so. *)

From stdpp Require Import gmap strings list fin_maps sorting pretty.
From Stdlib Require Import Ascii.

(** [simpl] unfolds an append whose first argument starts with a character. *)
Arguments String.append !_ _ / : simpl nomatch.

(** ** Python string operations *)

Module PyStr.

(** [c in s] for a one-character [c]. *)
Fixpoint mem (c : ascii) (s : string) : bool :=
  match s with
  | "" => false
  | String d s' => Ascii.eqb c d || mem c s'
  end.

(** [all(p(c) for c in s)]. *)
Fixpoint all (p : ascii → bool) (s : string) : bool :=
  match s with
  | "" => true
  | String c s' => p c && all p s'
  end.

(** [s.startswith(pre)]. *)
Fixpoint startswith (s pre : string) {struct pre} : bool :=
  match pre, s with
  | "", _ => true
  | String a pre', String b s' => Ascii.eqb a b && startswith s' pre'
  | String _ _, "" => false
  end.

(** [s.endswith(suf)]: some tail of [s] is [suf]. *)
Fixpoint endswith (s suf : string) : bool :=
  String.eqb s suf ||
  match s with
  | "" => false
  | String _ s' => endswith s' suf
  end.

(** [s[:n]]. *)
Fixpoint take (n : nat) (s : string) : string :=
  match n, s with
  | S k, String c s' => String c (take k s')
  | _, _ => ""
  end.

(** [re.sub("[^...]+", "", s)] for a character class [keep]: deleting every
    maximal run of characters outside the class deletes exactly the
    characters outside the class. *)
Fixpoint re_sub_delete (keep : ascii → bool) (s : string) : string :=
  match s with
  | "" => ""
  | String c s' =>
      if keep c then String c (re_sub_delete keep s') else re_sub_delete keep s'
  end.

(** [sub in s] for a non-empty [sub]. *)
Fixpoint contains (s sub : string) : bool :=
  startswith s sub ||
  match s with
  | "" => false
  | String _ s' => contains s' sub
  end.

(** [s.replace(old, new)] for a non-empty [old]: the occurrences are found
    from the left and do not overlap; [skip] counts the characters of a
    matched occurrence still to be passed over. *)
Fixpoint replace_from (old new s : string) (skip : nat) : string :=
  match s with
  | "" => ""
  | String c s' =>
      match skip with
      | S k => replace_from old new s' k
      | O =>
          if startswith s old
          then new +:+ replace_from old new s' (String.length old - 1)
          else String c (replace_from old new s' 0)
      end
  end.

Definition replace (s old new : string) : string := replace_from old new s 0.

End PyStr.

(** ** [sanitize_name] *)

Definition in_range (lo hi c : ascii) : bool :=
  (N_of_ascii lo <=? N_of_ascii c)%N && (N_of_ascii c <=? N_of_ascii hi)%N.

(** The class [[A-Za-z0-9_. ]] of the pattern in [sanitize_name]. *)
Definition name_class (c : ascii) : bool :=
  in_range "A" "Z" c || in_range "a" "z" c || in_range "0" "9" c
  || Ascii.eqb c "_" || Ascii.eqb c "." || Ascii.eqb c " ".

(** The class [[A-Za-z0-9_.]], the characters of a sanitised name. *)
Definition stem_class (c : ascii) : bool :=
  in_range "A" "Z" c || in_range "a" "z" c || in_range "0" "9" c
  || Ascii.eqb c "_" || Ascii.eqb c ".".

Definition sanitize_name (name : string) : string :=
  let name := PyStr.re_sub_delete name_class name in
  let name := PyStr.replace name " " "_" in
  PyStr.take 255 name.

(** ** Exceptions, outcomes and the log *)

Inductive exn :=
| KeyError (key : string)
| IndexError
| UnboundLocalError (var : string)
| FileNotFoundError (path : string)
| FileExistsError (path : string)
| IsADirectoryError (path : string)
| UnpicklingError (path : string)
| SafetensorError (path : string)
| UnidentifiedImageError (path : string)
| NotImplementedError (msg : string)
| CollaboratorError (who : string).

(** What a call does: it returns, it raises, or (for the model of an unbounded
    [while]) the fuel given to it did not suffice. [OutOfFuel] is no Python
    exception: no [except] clause catches it. *)
Inductive outcome (A : Type) :=
| Returned (a : A)
| Raised (e : exn)
| OutOfFuel.
Arguments Returned {A} a.
Arguments Raised {A} e.
Arguments OutOfFuel {A}.

Inductive level := DEBUG | INFO | WARNING | ERROR.

(** [PostProcessingOptions(face_restorer_name=..., restorer_visibility=...)]. *)
Record PostProcessingOptions := {
  face_restorer_name : string;
  restorer_visibility : Z;
}.

(** ** [posixpath] *)

Definition os_path_sep : ascii := "/"%char.

(** What [os.path.join] puts in front of a relative second argument. *)
Definition dir_prefix (a : string) : string :=
  if String.eqb a "" || PyStr.endswith a "/" then a else a +:+ "/".

Definition os_path_join (a b : string) : string :=
  if PyStr.startswith b "/" then b else dir_prefix a +:+ b.

(** [os.path.basename(p)]: what follows the last separator. *)
Fixpoint os_path_basename (p : string) : string :=
  match p with
  | "" => ""
  | String c p' =>
      if PyStr.mem os_path_sep p' then os_path_basename p'
      else if Ascii.eqb c os_path_sep then p' else p
  end.

(** [s] without its prefix [pre], when it has it. *)
Fixpoint strip_prefix (pre s : string) : option string :=
  match pre, s with
  | "", _ => Some s
  | String a pre', String b s' =>
      if Ascii.eqb a b then strip_prefix pre' s' else None
  | String _ _, "" => None
  end.

(** The name of [p] as an entry of the directory [dir], when [p] is one:
    a non-empty name without separator, joined to [dir]. *)
Definition entry_name (dir p : string) : option string :=
  match strip_prefix (dir_prefix dir) p with
  | Some n =>
      if String.eqb n "" || PyStr.mem os_path_sep n then None else Some n
  | None => None
  end.

(** [fnmatch] of an entry name against the pattern ["*" + suffix], with
    [glob]'s rule that a pattern not starting with a dot matches no name
    starting with a dot. *)
Definition glob_match_star (suffix n : string) : bool :=
  PyStr.endswith n suffix && negb (PyStr.startswith n ".").

(** [glob.has_magic(s)]: [s] holds one of the wildcard characters [*], [?]
    and [[], which make [glob] read a path as a pattern. *)
Definition glob_has_magic (s : string) : bool :=
  PyStr.mem "*" s || PyStr.mem "?" s || PyStr.mem "[" s.

(** ** Computations

    A computation over a state [S]: the outcome and the state left behind.
    The state survives a raise, as on a real disk. *)

Definition comp (S A : Type) : Type := S → outcome A * S.

Definition ret {S A} (a : A) : comp S A := λ w, (Returned a, w).

Definition raise {S A} (e : exn) : comp S A := λ w, (Raised e, w).

Definition bind {S A B} (m : comp S A) (k : A → comp S B) : comp S B :=
  λ w,
    match m w with
    | (Returned a, w') => k a w'
    | (Raised e, w') => (Raised e, w')
    | (OutOfFuel, w') => (OutOfFuel, w')
    end.

(** [try: body except Exception as e: handler(e)]. *)
Definition try_except {S A} (body : comp S A) (handler : exn → comp S A)
  : comp S A :=
  λ w,
    match body w with
    | (Raised e, w') => handler e w'
    | r => r
    end.

(** The result of a collaborator that does not touch the state. *)
Definition lift {S A} (o : outcome A) : comp S A := λ w, (o, w).

Definition out_of_fuel {S A} : comp S A := λ w, (OutOfFuel, w).

Declare Scope py_scope.
Delimit Scope py_scope with py.
Notation "'let*' x ':=' m 'in' k" := (bind m (λ x, k))
  (at level 10, x name, m at level 100, k at level 200,
   format "'[v' 'let*'  x  ':='  m  'in' '/' k ']'") : py_scope.
Notation "m ';;' k" := (bind m (λ _, k))
  (at level 100, k at level 200, right associativity) : py_scope.

(** ** The data model *)

Section Model.

(** Numeric array data ([numpy.ndarray], also of dimension 0) and decoded
    images ([PIL.Image.Image]). *)
Context {ndarray PILImage : Type}.

(** [torch.Tensor]: [torch.tensor(a)] holds the numbers of [a], and
    [t.numpy()] gives them back. *)
Inductive tensor := Tensor (data : ndarray).

Definition torch_tensor (a : ndarray) : tensor := Tensor a.

Definition numpy (t : tensor) : ndarray := let 'Tensor a := t in a.

(** What a file holds: a safetensors container (a flat mapping of names to
    tensors), a dill blob of a face mapping, an image, or something else. *)
Inductive content :=
| Safetensors (tensors : gmap string tensor)
| Pickle (obj : gmap string ndarray)
| Picture (img : PILImage)
| Blob (bytes : string).

Inductive node :=
| Dir
| File (c : content).

(** The nodes of the file system by path, and the records of [logger]. *)
Record world := World {
  files : gmap string node;
  log : list (level * string);
}.

(** The services of the host application and the external collaborators.
    Collaborators may raise; they do not write files. *)
Record Host := {
  scripts_basedir : string;
  opts_data : gmap string bool;
  get_models : gmap string node → outcome (list string);
  swapper_get_faces_from_img_files :
    list string → gmap string node → outcome (list (gmap string ndarray));
  swapper_blend_faces :
    list (gmap string ndarray) → outcome (option (gmap string ndarray));
  swapper_get_faces : ndarray → outcome (list (gmap string ndarray));
  swapper_swap_face :
    gmap string ndarray → list (gmap string ndarray) → gmap string ndarray →
    PILImage → string → bool → outcome PILImage;
  (** [swapper.get_or_default(faces, index, default)]. *)
  swapper_get_or_default :
    list (gmap string ndarray) → nat → option (gmap string ndarray) →
    option (gmap string ndarray);
  imgutils_pil_to_cv2 : PILImage → outcome ndarray;
  enhance_image : PILImage → PostProcessingOptions → outcome PILImage;
  (** [x == 0] on a scalar. *)
  eq_zero : ndarray → bool;
}.

End Model.

Arguments tensor : clear implicits.
Arguments content : clear implicits.
Arguments node : clear implicits.
Arguments world : clear implicits.
Arguments Host : clear implicits.

(** An insightface [Face] is a [dict]; the store reads three of its keys. *)
Abbreviation Face := (gmap string).
Abbreviation py nd img := (comp (world nd img)).

(** ** The file system and the logger *)

Section OS.

Context {ndarray PILImage : Type}.
Local Abbreviation Py := (py ndarray PILImage).
Local Open Scope py_scope.

(** [logger.debug/info/warning/error(msg, ...)]: the record keeps the level
    and the format string. *)
Definition logger (l : level) (msg : string) : Py unit :=
  λ w, (Returned (), World (files w) (log w ++ [(l, msg)])).

Definition os_path_exists (p : string) : Py bool :=
  λ w, (Returned (match files w !! p with Some _ => true | None => false end), w).

(** [os.makedirs(p, exist_ok=True)], as far as the node of [p] goes. *)
Definition os_makedirs (p : string) : Py unit :=
  λ w,
    match files w !! p with
    | Some (File _) => (Raised (FileExistsError p), w)
    | Some Dir => (Returned (), w)
    | None => (Returned (), World (<[p := Dir]> (files w)) (log w))
    end.

(** Opening [p] for reading and taking what it holds. *)
Definition read_file (p : string) : Py (content ndarray PILImage) :=
  λ w,
    match files w !! p with
    | Some (File c) => (Returned c, w)
    | Some Dir => (Raised (IsADirectoryError p), w)
    | None => (Raised (FileNotFoundError p), w)
    end.

(** Creating or replacing the file [p]. *)
Definition write_file (p : string) (c : content ndarray PILImage) : Py unit :=
  λ w,
    match files w !! p with
    | Some Dir => (Raised (IsADirectoryError p), w)
    | _ => (Returned (), World (<[p := File c]> (files w)) (log w))
    end.

(** The entries of the directory [dir], in the order of the map. *)
Definition listdir (dir : string) (fs : gmap string (node ndarray PILImage))
  : list string :=
  omap (entry_name dir) (map_to_list fs).*1.

(** [glob.glob(os.path.join(dir, "*" + suffix))] for a [dir] without
    wildcard characters ([glob_has_magic dir = false]). *)
Definition glob_star (dir suffix : string) : Py (list string) :=
  λ w,
    (Returned
       (os_path_join dir <$> filter (λ n, glob_match_star suffix n = true)
                                    (listdir dir (files w))), w).

(** A collaborator that reads the file system. *)
Definition reading {A} (f : gmap string (node ndarray PILImage) → outcome A)
  : Py A :=
  λ w, (f (files w), w).

(** [l[i]]. *)
Definition index {A} (l : list A) (i : nat) : Py A :=
  match l !! i with
  | Some x => ret x
  | None => raise IndexError
  end.

(** [d[k]]. *)
Definition getitem {V} (d : gmap string V) (k : string) : Py V :=
  match d !! k with
  | Some v => ret v
  | None => raise (KeyError k)
  end.

(** [Image.open(p)] and [img.save(p)]. *)
Definition Image_open (p : string) : Py PILImage :=
  let* c := read_file p in
  match c with
  | Picture img => ret img
  | _ => raise (UnidentifiedImageError p)
  end.

Definition Image_save (img : PILImage) (p : string) : Py unit :=
  write_file p (Picture img).

End OS.

(** ** The checkpoint store *)

Section Store.

Context {ndarray PILImage : Type}.
Variable host : Host ndarray PILImage.
Local Abbreviation Py := (py ndarray PILImage).
Local Open Scope py_scope.

(** The path of the managed directory, [get_checkpoint_path] without its
    [makedirs]. *)
Definition checkpoint_dir : string :=
  os_path_join
    (os_path_join (os_path_join (scripts_basedir host) "models") "faceswaplab")
    "faces".

Definition get_checkpoint_path : Py string :=
  let checkpoint_path := checkpoint_dir in
  os_makedirs checkpoint_path ;;
  ret checkpoint_path.

(** The [for ext in [...]] loop of [matching_checkpoint]. *)
Fixpoint probe_extensions (name : string) (exts : list string)
  : Py (option string) :=
  match exts with
  | [] => ret None
  | ext :: exts' =>
      let* dir := get_checkpoint_path in
      let full_path := os_path_join dir (name +:+ ext) in
      let* found := os_path_exists full_path in
      if found then ret (Some full_path) else probe_extensions name exts'
  end.

Definition matching_checkpoint (name : string) : Py (option string) :=
  if PyStr.mem os_path_sep name then ret (Some name)
  else if negb (PyStr.endswith name ".safetensors" || PyStr.endswith name ".pkl")
  then probe_extensions name [".safetensors"; ".pkl"]
  else
    let* dir := get_checkpoint_path in
    ret (Some (os_path_join dir name)).

(** [safetensors.torch.save_file(tensors, filename)]. *)
Definition save_file (tensors : gmap string (tensor ndarray)) (filename : string)
  : Py unit :=
  write_file filename (Safetensors tensors).

Definition save_face (face : Face ndarray) (filename : string) : Py unit :=
  try_except
    (let* embedding := getitem face "embedding" in
     let* gender := getitem face "gender" in
     let* age := getitem face "age" in
     let tensors : gmap string (tensor ndarray) :=
       <["age" := torch_tensor age]>
         (<["gender" := torch_tensor gender]>
            {["embedding" := torch_tensor embedding]}) in
     save_file tensors filename)
    (λ e,
       logger ERROR "Failed to save checkpoint %s" ;;
       raise e).

(** [safe_open(filename, framework="pt", device="cpu")]. *)
Definition safe_open (filename : string) : Py (gmap string (tensor ndarray)) :=
  let* c := read_file filename in
  match c with
  | Safetensors f => ret f
  | _ => raise (SafetensorError filename)
  end.

(** [f.get_tensor(k)]. *)
Definition get_tensor (filename : string) (f : gmap string (tensor ndarray))
    (k : string) : Py (tensor ndarray) :=
  match f !! k with
  | Some t => ret t
  | None => raise (SafetensorError filename)
  end.

(** The [for k in f.keys()] loop of [load_face]. *)
Fixpoint load_keys (filename : string) (f : gmap string (tensor ndarray))
    (keys : list string) (face : Face ndarray) : Py (Face ndarray) :=
  match keys with
  | [] => ret face
  | k :: keys' =>
      logger DEBUG "load key %s" ;;
      let* t := get_tensor filename f k in
      load_keys filename f keys' (<[k := numpy t]> face)
  end.

(** [Face(pickle.load(file))] on the opened [file]. *)
Definition pickle_load (filename : string) (file : content ndarray PILImage)
  : Py (Face ndarray) :=
  match file with
  | Pickle obj => ret obj
  | _ => raise (UnpicklingError filename)
  end.

Definition load_face (name : string) : Py (option (Face ndarray)) :=
  let* filename := matching_checkpoint name in
  match filename with
  | None => ret None
  | Some filename =>
      if PyStr.endswith filename ".pkl" then
        logger WARNING
          "Pkl files for faces are deprecated to enhance safety, they will be unsupported in future versions." ;;
        logger WARNING "The file will be converted to .safetensors" ;;
        logger WARNING
          "You can also use this script https://gist.github.com/glucauze/4a3c458541f2278ad801f6625e5b9d3d" ;;
        let* file := read_file filename in
        logger INFO "Load pkl" ;;
        let* face := pickle_load filename file in
        logger WARNING
          "Convert to safetensors, you can remove the pkl version once you have ensured that the safetensor is working" ;;
        save_face face (PyStr.replace filename ".pkl" ".safetensors") ;;
        ret (Some face)
      else if PyStr.endswith filename ".safetensors" then
        let* f := safe_open filename in
        let* face := load_keys filename f (map_to_list f).*1 ∅ in
        ret (Some face)
      else
        raise (NotImplementedError
                 "Unknown file type, face extraction not implemented")
  end.

Definition get_face_checkpoints : Py (list string) :=
  let* dir := get_checkpoint_path in
  let* faces := glob_star dir ".safetensors" in
  let* dir := get_checkpoint_path in
  let* more := glob_star dir ".pkl" in
  let faces := (faces ++ more)%list in
  ret ("None" :: (os_path_basename <$> merge_sort String.le faces)).

End Store.

(** ** The build workflow *)

Section Workflow.

Context {ndarray PILImage : Type}.
Variable host : Host ndarray PILImage.
Local Abbreviation Py := (py ndarray PILImage).
Local Open Scope py_scope.

(** The candidate file names of the collision policy: [name.safetensors],
    then [name_1.safetensors], [name_2.safetensors], ... *)
Definition candidate (name : string) (n : nat) : string :=
  match n with
  | O => name +:+ ".safetensors"
  | S _ => name +:+ "_" +:+ pretty n +:+ ".safetensors"
  end.

(** [while os.path.exists(file_path): ...] of [build_face_checkpoint_and_save],
    run for at most [fuel] tests of the condition. *)
Fixpoint probe_free_path (fuel : nat) (name file_path : string)
    (file_number : nat) : Py string :=
  match fuel with
  | O => out_of_fuel
  | S fuel' =>
      let* taken := os_path_exists file_path in
      if taken then
        let* dir := get_checkpoint_path host in
        let file_path :=
          os_path_join dir
            (name +:+ "_" +:+ pretty file_number +:+ ".safetensors") in
        probe_free_path fuel' name file_path (file_number + 1)%nat
      else ret file_path
  end.

(** [bool(blended_face)]: [None] and the empty mapping are false. *)
Definition truthy (face : option (Face ndarray)) : bool :=
  match face with
  | Some d => (0 <? size d)%nat
  | None => false
  end.

(** Lines 70 to 105 of [build_face_checkpoint_and_save]: the reference
    portrait for the gender of the blended face, and the preview rendered on
    it.  [preview_image] is bound in the [else] branch only: the result is
    [None] when the name is left unbound. *)
Definition render_preview (blended_face : Face ndarray)
  : Py (option PILImage) :=
  let preview_path :=
    os_path_join
      (os_path_join (os_path_join (scripts_basedir host) "extensions")
         "sd-webui-faceswaplab")
      "references" in
  let* gender := getitem blended_face "gender" in
  let* reference_preview_img :=
    if eq_zero host gender
    then Image_open (os_path_join preview_path "woman.png")
    else Image_open (os_path_join preview_path "man.png") in
  logger DEBUG "Face %s" ;;
  let* cv2_img := lift (imgutils_pil_to_cv2 host reference_preview_img) in
  let* detected := lift (swapper_get_faces host cv2_img) in
  let target_face := swapper_get_or_default host detected 0 None in
  match target_face with
  | None =>
      logger ERROR
        "Failed to open reference image, cannot create preview : That should not happen unless you deleted the references folder or change the detection threshold." ;;
      ret None
  | Some target_face =>
      let* models := reading (get_models host) in
      let* model := index models 0 in
      let upscaled_swapper :=
        default false (opts_data host !! "faceswaplab_upscaled_swapper") in
      let* result :=
        lift (swapper_swap_face host blended_face [target_face]
                blended_face reference_preview_img model upscaled_swapper) in
      let* preview_image :=
        lift (enhance_image host result
                {| face_restorer_name := "CodeFormer";
                   restorer_visibility := 1 |}) in
      ret (Some preview_image)
  end.

(** Lines 107 to 114: the path the checkpoint is written to. *)
Definition select_file_path (fuel : nat) (name : string) (overwrite : bool)
  : Py string :=
  let* dir := get_checkpoint_path host in
  let file_path := os_path_join dir (name +:+ ".safetensors") in
  if negb overwrite
  then probe_free_path fuel name file_path 1
  else ret file_path.

(** Lines 115 to 124: the checkpoint, its preview next to it, and the load
    that checks the checkpoint. *)
Definition persist (blended_face : Face ndarray)
    (preview_image : option PILImage) (file_path : string)
  : Py (option PILImage) :=
  save_face blended_face file_path ;;
  let* preview_image :=
    match preview_image with
    | Some img => ret img
    | None => raise (UnboundLocalError "preview_image")
    end in
  Image_save preview_image (file_path +:+ ".png") ;;
  try_except
    (let* data := load_face host file_path in
     logger DEBUG "%s")
    (λ e, logger ERROR "Error loading checkpoint, after creation %s") ;;
  ret (Some preview_image).

(** The name the files get: [default_name] for an empty sanitised name. *)
Definition checkpoint_name (name : string) : string :=
  let name := sanitize_name name in
  if String.eqb name "" then "default_name" else name.

Definition build_face_checkpoint_and_save (fuel : nat)
    (batch_files : option (list string)) (name : string) (overwrite : bool)
  : Py (option PILImage) :=
  try_except
    (let batch_files := default [] batch_files in
     logger INFO "Build %s %s" ;;
     let* faces := reading (swapper_get_faces_from_img_files host batch_files) in
     let* blended_face := lift (swapper_blend_faces host faces) in
     match blended_face with
     | Some blended_face' =>
         if truthy blended_face then
           let* preview_image := render_preview blended_face' in
           let* file_path :=
             select_file_path fuel (checkpoint_name name) overwrite in
           persist blended_face' preview_image file_path
         else
           logger ERROR "No face found" ;;
           ret None
     | None =>
         logger ERROR "No face found" ;;
         ret None
     end)
    (λ e,
       logger ERROR "Failed to build checkpoint %s" ;;
       ret None).

End Workflow.

(** ** Vocabulary of the statements *)

Section Vocabulary.

Context {ndarray PILImage : Type}.
Variable host : Host ndarray PILImage.

(** The managed directory can be had: its path is not taken by a file, so
    that the [makedirs] of [get_checkpoint_path] does not raise. *)
Definition dir_usable (w : world ndarray PILImage) : Prop :=
  ∀ c, files w !! checkpoint_dir host ≠ Some (File c).

(** [a] is a directory above [p]: [p] is [a], a separator, and more. *)
Definition above (a p : string) : Prop := ∃ rest, p = a +:+ "/" +:+ rest.

(** Neither the path of the managed directory nor that of a directory above
    it is taken by a file: [os.makedirs] has nothing in its way. *)
Definition dir_makeable (w : world ndarray PILImage) : Prop :=
  ∀ a c, a = checkpoint_dir host ∨ above a (checkpoint_dir host) →
         files w !! a ≠ Some (File c).

(** The world once the managed directory is there. *)
Definition with_dir (w : world ndarray PILImage) : world ndarray PILImage :=
  match files w !! checkpoint_dir host with
  | None => World (<[checkpoint_dir host := Dir]> (files w)) (log w)
  | Some _ => w
  end.

(** [p] is the managed directory or lies directly in it. *)
Definition in_managed_dir (p : string) : Prop :=
  p = checkpoint_dir host ∨
  ∃ base, PyStr.mem os_path_sep base = false ∧
          p = checkpoint_dir host +:+ "/" +:+ base.

(** What [save_face] writes for a descriptor with these three values. *)
Definition checkpoint_tensors (embedding gender age : ndarray)
  : gmap string (tensor ndarray) :=
  <["age" := torch_tensor age]>
    (<["gender" := torch_tensor gender]>
       {["embedding" := torch_tensor embedding]}).

(** The records [load_face] logs before it reads a legacy file. *)
Definition deprecation_warnings : list (level * string) :=
  [(WARNING,
    "Pkl files for faces are deprecated to enhance safety, they will be unsupported in future versions.");
   (WARNING, "The file will be converted to .safetensors");
   (WARNING,
    "You can also use this script https://gist.github.com/glucauze/4a3c458541f2278ad801f6625e5b9d3d")].

(** The records [load_face] logs on a legacy file, in order. *)
Definition legacy_log : list (level * string) :=
  deprecation_warnings ++
  [(INFO, "Load pkl");
   (WARNING,
    "Convert to safetensors, you can remove the pkl version once you have ensured that the safetensor is working")].

(** Some node has the path [p]. *)
Definition present (fs : gmap string (node ndarray PILImage)) (p : string)
  : bool :=
  match fs !! p with
  | Some _ => true
  | None => false
  end.

(** A computation that only reads the files and appends to the log: what it
    does is what it does on an empty log, with the records appended. *)
Definition reads_only {A} (m : py ndarray PILImage A) : Prop :=
  ∀ w,
    m w = ((m (World (files w) [])).1,
           World (files w) (log w ++ log (m (World (files w) [])).2)).

(** The reference portrait [render_preview] opens for a gender. *)
Definition reference_path (gender : ndarray) : string :=
  os_path_join
    (os_path_join
       (os_path_join (os_path_join (scripts_basedir host) "extensions")
          "sd-webui-faceswaplab")
       "references")
    (if eq_zero host gender then "woman.png" else "man.png").

(** The descriptor [load_face] reads from what [save_face] wrote. *)
Definition persisted_face (embedding gender age : ndarray) : Face ndarray :=
  <["age" := age]> (<["gender" := gender]> {["embedding" := embedding]}).

(** The [n]-th path the collision policy tries for [name]. *)
Definition candidate_path (name : string) (n : nat) : string :=
  checkpoint_dir host +:+ "/" +:+ candidate name n.

(** [j] is the first candidate for [name] that no node has. *)
Definition first_free (fs : gmap string (node ndarray PILImage))
    (name : string) (j : nat) : Prop :=
  (∀ i, i < j → is_Some (fs !! candidate_path name i)) ∧
  fs !! candidate_path name j = None.

(** [n] is an entry of the managed directory that [get_face_checkpoints]
    lists: a name ending in [.safetensors] or [.pkl] and not starting with a
    dot. *)
Definition listed (fs : gmap string (node ndarray PILImage)) (n : string)
  : Prop :=
  is_Some (fs !! (checkpoint_dir host +:+ "/" +:+ n)) ∧
  n ≠ "" ∧ PyStr.mem os_path_sep n = false ∧
  PyStr.startswith n "." = false ∧
  (PyStr.endswith n ".safetensors" = true ∨ PyStr.endswith n ".pkl" = true).

(** Path resolution in the words of the specification: a name with a path
    separator is returned as it is; a name that carries a recognised
    extension is the managed directory joined with it; any other name is
    probed in the managed directory with the current extension, then the
    legacy one, and the first that exists is returned, or nothing. *)
Definition resolve_path (fs : gmap string (node ndarray PILImage))
    (name : string) : option string :=
  let current := os_path_join (checkpoint_dir host) (name +:+ ".safetensors") in
  let legacy := os_path_join (checkpoint_dir host) (name +:+ ".pkl") in
  if PyStr.mem os_path_sep name then Some name
  else if PyStr.endswith name ".safetensors" || PyStr.endswith name ".pkl"
  then Some (os_path_join (checkpoint_dir host) name)
  else if present fs current then Some current
  else if present fs legacy then Some legacy
  else None.

End Vocabulary.

(** ** A small installation to run the model on *)

Module Demo.

(** Arrays are lists of integers and images are their captions. *)
Definition face : Face (list Z) :=
  <["bbox" := [10; 20; 110; 140]%Z]>
    (<["age" := [30%Z]]>
       (<["gender" := [0%Z]]> {["embedding" := [3; -1; 4]%Z]})).

Definition host : Host (list Z) string := {|
  scripts_basedir := "/sd";
  opts_data := ∅;
  get_models := λ _, Returned ["inswapper_128.onnx"];
  swapper_get_faces_from_img_files := λ batch _, Returned ((λ _, face) <$> batch);
  swapper_blend_faces := λ faces, Returned (head faces);
  swapper_get_faces := λ _, Returned [face];
  swapper_get_or_default := λ l i d, from_option Some d (l !! i);
  swapper_swap_face := λ _ _ _ img _ _, Returned img;
  imgutils_pil_to_cv2 := λ _, Returned [];
  enhance_image := λ img _, Returned img;
  eq_zero := λ a, bool_decide (a = [0%Z]);
|}.

(** The reference portraits, and two checkpoints named [alpha]. *)
Definition world0 : world (list Z) string := {|
  files :=
    <["/sd/extensions/sd-webui-faceswaplab/references/woman.png" := File (Picture "woman")]>
      (<["/sd/extensions/sd-webui-faceswaplab/references/man.png" := File (Picture "man")]>
         (<["/sd/models/faceswaplab/faces/alpha.safetensors" := File (Blob "a")]>
            (<["/sd/models/faceswaplab/faces/alpha_1.safetensors" := File (Blob "b")]>
               (<["/sd/models/faceswaplab/faces" := Dir]> ∅))));
  log := [];
|}.

(** A legacy checkpoint [old.pkl] that holds [face], bounding box included. *)
Definition legacy_world : world (list Z) string := {|
  files :=
    <["/sd/models/faceswaplab/faces/old.pkl" := File (Pickle face)]>
      (<["/sd/models/faceswaplab/faces" := Dir]> ∅);
  log := [];
|}.

(** [world0] with a directory where the preview of [beta] would go. *)
Definition blocked_preview_world : world (list Z) string := {|
  files :=
    <["/sd/models/faceswaplab/faces/beta.safetensors.png" := Dir]>
      (files world0);
  log := [];
|}.

(** A managed directory with [b.pkl], [a.safetensors] and [c.safetensors]. *)
Definition listing_world : world (list Z) string := {|
  files :=
    <["/sd/models/faceswaplab/faces/b.pkl" := File (Pickle face)]>
      (<["/sd/models/faceswaplab/faces/a.safetensors" := File (Blob "a")]>
         (<["/sd/models/faceswaplab/faces/c.safetensors" := File (Blob "c")]>
            (<["/sd/models/faceswaplab/faces" := Dir]> ∅)));
  log := [];
|}.

End Demo.

(** ** Further scenes for the small installation *)

Module Scenes.

(** The path of the managed directory is taken by a regular file. *)
Definition blocked_world : world (list Z) string := {|
  files := {["/sd/models/faceswaplab/faces" := File (Blob "not a directory")]};
  log := [];
|}.

(** A fresh installation: nothing on disk. *)
Definition fresh_world : world (list Z) string := {|
  files := ∅;
  log := [];
|}.

(** A descriptor without [age]. *)
Definition ageless_face : Face (list Z) :=
  <["gender" := [0%Z]]> {["embedding" := [3; -1; 4]%Z]}.

(** A legacy checkpoint that holds the descriptor without [age]. *)
Definition ageless_legacy_world : world (list Z) string := {|
  files :=
    <["/sd/models/faceswaplab/faces/old.pkl" := File (Pickle ageless_face)]>
      (<["/sd/models/faceswaplab/faces" := Dir]> ∅);
  log := [];
|}.

(** A legacy checkpoint whose file name holds [.pkl] twice. *)
Definition archive_world : world (list Z) string := {|
  files :=
    <["/data/old.pkl.bak.pkl" := File (Pickle Demo.face)]> {["/data" := Dir]};
  log := [];
|}.

(** The detector finds no face on the reference portrait. *)
Definition blind_host : Host (list Z) string := {|
  scripts_basedir := "/sd";
  opts_data := ∅;
  get_models := λ _, Returned ["inswapper_128.onnx"];
  swapper_get_faces_from_img_files :=
    λ batch _, Returned ((λ _, Demo.face) <$> batch);
  swapper_blend_faces := λ faces, Returned (head faces);
  swapper_get_faces := λ _, Returned [];
  swapper_get_or_default := λ l i d, from_option Some d (l !! i);
  swapper_swap_face := λ _ _ _ img _ _, Returned img;
  imgutils_pil_to_cv2 := λ _, Returned [];
  enhance_image := λ img _, Returned img;
  eq_zero := λ a, bool_decide (a = [0%Z]);
|}.

(** The blend gives the descriptor without [gender]. *)
Definition genderless_host : Host (list Z) string := {|
  scripts_basedir := "/sd";
  opts_data := ∅;
  get_models := λ _, Returned ["inswapper_128.onnx"];
  swapper_get_faces_from_img_files := λ batch _, Returned [];
  swapper_blend_faces := λ faces, Returned (Some {["embedding" := [3; -1; 4]%Z]});
  swapper_get_faces := λ _, Returned [];
  swapper_get_or_default := λ l i d, from_option Some d (l !! i);
  swapper_swap_face := λ _ _ _ img _ _, Returned img;
  imgutils_pil_to_cv2 := λ _, Returned [];
  enhance_image := λ img _, Returned img;
  eq_zero := λ a, bool_decide (a = [0%Z]);
|}.

(** The managed directory with a checkpoint whose name starts with a dot. *)
Definition hidden_world : world (list Z) string := {|
  files :=
    <["/sd/models/faceswaplab/faces/.hidden.safetensors" := File (Blob "h")]>
      (<["/sd/models/faceswaplab/faces" := Dir]> ∅);
  log := [];
|}.

End Scenes.

(** * Properties *)

(** ** Facts about the string operations *)

Module PyStrFacts.

Lemma mem_app c a b : PyStr.mem c (a +:+ b) = PyStr.mem c a || PyStr.mem c b.
Proof.
  induction a as [|d a IH]; simpl; [done|].
  rewrite IH. by rewrite orb_assoc.
Qed.

Lemma all_app p a b : PyStr.all p (a +:+ b) = PyStr.all p a && PyStr.all p b.
Proof.
  induction a as [|d a IH]; simpl; [done|].
  rewrite IH. by rewrite andb_assoc.
Qed.

Lemma all_not_mem p c s :
  PyStr.all p s = true → p c = false → PyStr.mem c s = false.
Proof.
  intros Hall Hc. induction s as [|d s IH]; simpl in *; [done|].
  apply andb_prop in Hall as [Hd Hs].
  rewrite IH by done. rewrite orb_false_r.
  destruct (Ascii.eqb_spec c d) as [->|]; [by rewrite Hd in Hc|done].
Qed.

Lemma length_app a b :
  String.length (a +:+ b) = String.length a + String.length b.
Proof. induction a as [|d a IH]; simpl; [done|by rewrite IH]. Qed.

Lemma app_nil_r a : a +:+ "" = a.
Proof. induction a as [|d a IH]; simpl; [done|by rewrite IH]. Qed.

Lemma app_assoc a b c : (a +:+ b) +:+ c = a +:+ (b +:+ c).
Proof. induction a as [|d a IH]; simpl; [done|by rewrite IH]. Qed.

Lemma endswith_unfold s suf :
  PyStr.endswith s suf
  = String.eqb s suf
    || match s with "" => false | String _ s' => PyStr.endswith s' suf end.
Proof. by destruct s. Qed.

Lemma endswith_refl s : PyStr.endswith s s = true.
Proof. by rewrite endswith_unfold, String.eqb_refl. Qed.

Lemma endswith_app p suf : PyStr.endswith (p +:+ suf) suf = true.
Proof.
  induction p as [|c p IH].
  - apply endswith_refl.
  - change (String c p +:+ suf) with (String c (p +:+ suf)).
    rewrite endswith_unfold, IH. apply orb_true_r.
Qed.

Lemma endswith_inv s suf :
  PyStr.endswith s suf = true → ∃ p, s = p +:+ suf.
Proof.
  induction s as [|c s IH]; rewrite endswith_unfold.
  - rewrite orb_false_r. intros ->%String.eqb_eq. by exists "".
  - intros [->%String.eqb_eq | [p ->]%IH]%orb_prop.
    + by exists "".
    + by exists (String c p).
Qed.

Lemma endswith_iff s suf :
  PyStr.endswith s suf = true ↔ ∃ p, s = p +:+ suf.
Proof.
  split; [apply endswith_inv|]. intros [p ->]. apply endswith_app.
Qed.

Lemma take_length n s : String.length (PyStr.take n s) ≤ n.
Proof.
  revert s. induction n as [|n IH]; intros [|c s]; simpl; try lia.
  specialize (IH s). lia.
Qed.

Lemma take_all p n s :
  PyStr.all p s = true → PyStr.all p (PyStr.take n s) = true.
Proof.
  revert s. induction n as [|n IH]; intros [|c s]; simpl; try done.
  intros [-> ?]%andb_prop. simpl. by apply IH.
Qed.

Lemma take_ge n s : String.length s ≤ n → PyStr.take n s = s.
Proof.
  revert s. induction n as [|n IH]; intros [|c s]; simpl; try done; try lia.
  intros ?. rewrite IH; [done|lia].
Qed.

Lemma re_sub_delete_all keep s :
  PyStr.all keep (PyStr.re_sub_delete keep s) = true.
Proof.
  induction s as [|c s IH]; simpl; [done|].
  destruct (keep c) eqn:Hc; simpl; [by rewrite Hc|done].
Qed.

Lemma re_sub_delete_app keep a b :
  PyStr.re_sub_delete keep (a +:+ b)
  = PyStr.re_sub_delete keep a +:+ PyStr.re_sub_delete keep b.
Proof.
  induction a as [|c a IH]; simpl; [done|].
  destruct (keep c); simpl; by rewrite IH.
Qed.

(** Replacing a one-character [old] works character by character. *)
Lemma replace_char_cons o new c s :
  PyStr.replace (String c s) (String o "") new
  = (if Ascii.eqb o c then new else String c "")
    +:+ PyStr.replace s (String o "") new.
Proof.
  unfold PyStr.replace. simpl.
  rewrite andb_comm.
  replace (PyStr.startswith s "") with true by (by destruct s).
  by destruct (Ascii.eqb o c).
Qed.

Lemma replace_char_app o new a b :
  PyStr.replace (a +:+ b) (String o "") new
  = PyStr.replace a (String o "") new +:+ PyStr.replace b (String o "") new.
Proof.
  induction a as [|c a IH]; [done|].
  change (String c a +:+ b) with (String c (a +:+ b)).
  by rewrite !replace_char_cons, IH, app_assoc.
Qed.

Lemma replace_space_all s :
  PyStr.all name_class s = true →
  PyStr.all stem_class (PyStr.replace s " " "_") = true.
Proof.
  induction s as [|c s IH]; [done|].
  simpl. intros [Hc Hs]%andb_prop. rewrite replace_char_cons.
  rewrite all_app, IH by done. rewrite andb_true_r.
  destruct (Ascii.eqb_spec " " c) as [<-|Hne]; [done|]. simpl.
  rewrite andb_true_r. unfold name_class in Hc. fold (stem_class c) in Hc.
  apply orb_prop in Hc as [?|Hsp]; [done|].
  apply Ascii.eqb_eq in Hsp. congruence.
Qed.

Lemma contains_unfold s sub :
  PyStr.contains s sub
  = PyStr.startswith s sub
    || match s with "" => false | String _ s' => PyStr.contains s' sub end.
Proof. by destruct s. Qed.

(** An occurrence of [.pkl] that starts inside [x] in [x.pkl] lies in [x]. *)
Lemma startswith_before_pkl x :
  x ≠ "" →
  PyStr.startswith (x +:+ ".pkl") ".pkl" = PyStr.startswith x ".pkl".
Proof.
  intros Hx. by destruct x as [|c1 [|c2 [|c3 [|c4 x]]]]; [|reflexivity..].
Qed.

(** When [.pkl] occurs in a path as its extension only, [replace] changes
    the extension. *)
Lemma replace_pkl_suffix stem :
  PyStr.contains stem ".pkl" = false →
  PyStr.replace (stem +:+ ".pkl") ".pkl" ".safetensors"
  = stem +:+ ".safetensors".
Proof.
  unfold PyStr.replace. induction stem as [|c stem IH]; [done|].
  rewrite contains_unfold. intros [Hhere Hlater]%orb_false_elim.
  change (String c stem +:+ ".pkl") with (String c (stem +:+ ".pkl")).
  cbn [PyStr.replace_from].
  change (String c (stem +:+ ".pkl")) with (String c stem +:+ ".pkl").
  rewrite startswith_before_pkl, Hhere by done.
  by rewrite IH.
Qed.

End PyStrFacts.

(** ** [sanitize_name] *)

Example sanitize_name_ex1 :
  sanitize_name "My Face (v2)/../x.y" = "My_Face_v2..x.y".
Proof. reflexivity. Qed.

Lemma sanitize_name_stem_class name :
  PyStr.all stem_class (sanitize_name name) = true.
Proof.
  unfold sanitize_name.
  apply PyStrFacts.take_all, PyStrFacts.replace_space_all,
    PyStrFacts.re_sub_delete_all.
Qed.

Lemma sanitize_name_no_sep name :
  PyStr.mem os_path_sep (sanitize_name name) = false.
Proof.
  apply PyStrFacts.all_not_mem with stem_class; [|done].
  apply sanitize_name_stem_class.
Qed.

(** C3. [sanitize_name] is a total function of its argument; its result
    consists of characters of [[A-Za-z0-9_.]] only, is at most 255 characters
    long and holds no space, and every space of the input is replaced by an
    underscore: around any space of the input, the result is the first 255
    characters of the cleaned text before it, an underscore, and the cleaned
    text after it. *)
Theorem sanitize_name_spec (name : string) :
  let clean s := PyStr.replace (PyStr.re_sub_delete name_class s) " " "_" in
  PyStr.all stem_class (sanitize_name name) = true ∧
  String.length (sanitize_name name) ≤ 255 ∧
  PyStr.mem " " (sanitize_name name) = false ∧
  ∀ pre post,
    name = pre +:+ " " +:+ post →
    sanitize_name name = PyStr.take 255 (clean pre +:+ "_" +:+ clean post).
Proof.
  intros clean. split_and!.
  - apply sanitize_name_stem_class.
  - apply PyStrFacts.take_length.
  - apply PyStrFacts.all_not_mem with stem_class; [|done].
    apply sanitize_name_stem_class.
  - intros pre post ->. unfold sanitize_name, clean.
    f_equal.
    by rewrite !PyStrFacts.re_sub_delete_app, !PyStrFacts.replace_char_app.
Qed.

(** ** Paths *)

Module PathFacts.

Import PyStrFacts.

Lemma app_inj_r a b c : a +:+ c = b +:+ c → a = b.
Proof.
  intros Heq.
  assert (String.length a = String.length b) as Hlen.
  { apply (f_equal String.length) in Heq. rewrite !length_app in Heq. lia. }
  revert b Heq Hlen. induction a as [|x a IH]; intros [|y b]; simpl; try done.
  intros [= -> Heq] [= Hlen]. f_equal. by apply IH.
Qed.

Lemma app_eq_length x y a b :
  String.length x = String.length y → x +:+ a = y +:+ b → a = b.
Proof.
  revert y. induction x as [|c x IH]; intros [|d y]; simpl; try done.
  intros [= Hlen] [= _ Heq]. by eapply IH.
Qed.

(** Strings that end in different words of one length differ. *)
Lemma app_ne_suffix x y a b :
  String.length a = String.length b → a ≠ b → x +:+ a ≠ y +:+ b.
Proof.
  intros Hlen Hne Heq. apply Hne, (app_eq_length x y); [|done].
  apply (f_equal String.length) in Heq. rewrite !length_app in Heq. lia.
Qed.

Lemma eqb_length_ne a b :
  String.length a ≠ String.length b → String.eqb a b = false.
Proof. intros Hne. apply String.eqb_neq. by intros ->. Qed.

(** A suffix no longer than the last component is looked for in it. *)
Lemma endswith_app_long p a suf :
  String.length suf ≤ String.length a →
  PyStr.endswith (p +:+ a) suf = PyStr.endswith a suf.
Proof.
  intros Hlen. induction p as [|c p IH]; [done|].
  change (String c p +:+ a) with (String c (p +:+ a)).
  rewrite endswith_unfold, IH, eqb_length_ne; [done|].
  simpl. rewrite length_app. lia.
Qed.

Lemma startswith_no_sep b :
  PyStr.mem os_path_sep b = false → PyStr.startswith b "/" = false.
Proof.
  destruct b as [|c b]; [done|]. simpl. intros [Hc _]%orb_false_elim.
  unfold os_path_sep in Hc. by rewrite Hc.
Qed.

Lemma dir_prefix_app y t :
  1 ≤ String.length t → PyStr.endswith t "/" = false →
  dir_prefix (y +:+ t) = (y +:+ t) +:+ "/".
Proof.
  intros Hlen Hend. unfold dir_prefix.
  rewrite endswith_app_long, Hend by done.
  rewrite eqb_length_ne; [done|]. rewrite length_app. simpl. lia.
Qed.

Section Dir.

Context {ndarray PILImage : Type}.
Variable host : Host ndarray PILImage.
Local Abbreviation dir := (checkpoint_dir host).

Lemma checkpoint_dir_prefix : dir_prefix dir = dir +:+ "/".
Proof.
  unfold checkpoint_dir.
  unfold os_path_join at 1. simpl PyStr.startswith. cbv iota.
  apply dir_prefix_app; [simpl; lia|done].
Qed.

Lemma checkpoint_dir_length : 5 ≤ String.length dir.
Proof.
  unfold checkpoint_dir. unfold os_path_join at 1. simpl PyStr.startswith.
  cbv iota. rewrite length_app. simpl. lia.
Qed.

(** Joining a name without separator to the managed directory. *)
Lemma join_child b :
  PyStr.mem os_path_sep b = false →
  os_path_join dir b = dir +:+ "/" +:+ b.
Proof.
  intros Hb. unfold os_path_join.
  by rewrite startswith_no_sep, checkpoint_dir_prefix, app_assoc.
Qed.

Lemma child_ne_dir b : dir +:+ "/" +:+ b ≠ dir.
Proof.
  intros Heq. apply (f_equal String.length) in Heq.
  rewrite !length_app in Heq. simpl in Heq. lia.
Qed.

(** The managed directory is called [faces]. *)
Lemma dir_ne_current stem : dir ≠ stem +:+ ".safetensors".
Proof.
  unfold checkpoint_dir. unfold os_path_join at 1. simpl PyStr.startswith.
  cbv iota.
  change (stem +:+ ".safetensors") with (stem +:+ (".safete" +:+ "nsors")).
  rewrite <-app_assoc. by apply app_ne_suffix.
Qed.

Lemma child_has_sep b : PyStr.mem os_path_sep (dir +:+ "/" +:+ b) = true.
Proof. rewrite !mem_app. simpl. apply orb_true_r. Qed.

Lemma child_inj b b' : dir +:+ "/" +:+ b = dir +:+ "/" +:+ b' → b = b'.
Proof. by intros ?%String.app_inj%String.app_inj. Qed.

Lemma child_endswith b suf :
  String.length suf ≤ String.length b →
  PyStr.endswith (dir +:+ "/" +:+ b) suf = PyStr.endswith b suf.
Proof.
  intros Hlen. rewrite <-app_assoc. by apply endswith_app_long.
Qed.

End Dir.

End PathFacts.

(** ** Running computations *)

Lemma bind_returned {S A B} (m : comp S A) (k : A → comp S B) w a w' :
  m w = (Returned a, w') → bind m k w = k a w'.
Proof. unfold bind. by intros ->. Qed.

Lemma bind_raised {S A B} (m : comp S A) (k : A → comp S B) w e w' :
  m w = (Raised e, w') → bind m k w = (Raised e, w').
Proof. unfold bind. by intros ->. Qed.

Lemma bind_out_of_fuel {S A B} (m : comp S A) (k : A → comp S B) w w' :
  m w = (OutOfFuel, w') → bind m k w = (OutOfFuel, w').
Proof. unfold bind. by intros ->. Qed.

(** ** The managed directory *)

Section DirFacts.

Context {ndarray PILImage : Type}.
Variable host : Host ndarray PILImage.
Local Abbreviation dir := (checkpoint_dir host).
Implicit Types w : world ndarray PILImage.

Lemma with_dir_lookup_ne w p :
  p ≠ dir → files (with_dir host w) !! p = files w !! p.
Proof.
  intros Hp. unfold with_dir. destruct (files w !! dir); [done|].
  simpl. by rewrite lookup_insert_ne.
Qed.

Lemma with_dir_lookup_dir w :
  dir_usable host w → files (with_dir host w) !! dir = Some Dir.
Proof.
  intros Hok. unfold with_dir.
  destruct (files w !! dir) as [[|c]|] eqn:Hd; simpl.
  - done.
  - by destruct (Hok c).
  - by rewrite lookup_insert_eq.
Qed.

Lemma with_dir_log w : log (with_dir host w) = log w.
Proof. unfold with_dir. by destruct (files w !! dir). Qed.

Lemma with_dir_usable w : dir_usable host w → dir_usable host (with_dir host w).
Proof. intros Hok c. by rewrite with_dir_lookup_dir. Qed.

Lemma with_dir_idemp w : with_dir host (with_dir host w) = with_dir host w.
Proof.
  unfold with_dir at 1. destruct (files (with_dir host w) !! dir) eqn:Hd; [done|].
  unfold with_dir in Hd. destruct (files w !! dir) eqn:Hw; simpl in Hd.
  - congruence.
  - by rewrite lookup_insert_eq in Hd.
Qed.

Lemma get_checkpoint_path_usable w :
  dir_usable host w →
  get_checkpoint_path host w = (Returned dir, with_dir host w).
Proof.
  intros Hok. unfold get_checkpoint_path, bind, os_makedirs, with_dir, ret.
  destruct (files w !! dir) as [[|c]|] eqn:Hd; [done| |done].
  by destruct (Hok c).
Qed.

Lemma get_checkpoint_path_blocked w c :
  files w !! dir = Some (File c) →
  get_checkpoint_path host w = (Raised (FileExistsError dir), w).
Proof.
  intros Hd. unfold get_checkpoint_path, bind, os_makedirs. by rewrite Hd.
Qed.

(** A direct child of the managed directory exists after [makedirs] exactly
    when it did before. *)
Lemma exists_child_with_dir w b :
  os_path_exists (dir +:+ "/" +:+ b) (with_dir host w)
  = (Returned (match files w !! (dir +:+ "/" +:+ b) with
               | Some _ => true
               | None => false
               end), with_dir host w).
Proof.
  unfold os_path_exists.
  by rewrite with_dir_lookup_ne by apply PathFacts.child_ne_dir.
Qed.

End DirFacts.

(** ** [matching_checkpoint] *)

Section Resolution.

Context {ndarray PILImage : Type}.
Variable host : Host ndarray PILImage.
Local Abbreviation dir := (checkpoint_dir host).
Implicit Types w : world ndarray PILImage.

Lemma matching_checkpoint_verbatim name w :
  PyStr.mem os_path_sep name = true →
  matching_checkpoint host name w = (Returned (Some name), w).
Proof. intros Hsep. unfold matching_checkpoint. by rewrite Hsep. Qed.

Lemma matching_checkpoint_with_ext name w :
  dir_usable host w →
  PyStr.mem os_path_sep name = false →
  PyStr.endswith name ".safetensors" || PyStr.endswith name ".pkl" = true →
  matching_checkpoint host name w
  = (Returned (Some (dir +:+ "/" +:+ name)), with_dir host w).
Proof.
  intros Hok Hsep Hext. unfold matching_checkpoint. rewrite Hsep, Hext. simpl.
  rewrite (bind_returned _ _ _ _ _ (get_checkpoint_path_usable host w Hok)).
  by rewrite PathFacts.join_child.
Qed.

Lemma matching_checkpoint_probe name w :
  dir_usable host w →
  PyStr.mem os_path_sep name = false →
  PyStr.endswith name ".safetensors" || PyStr.endswith name ".pkl" = false →
  matching_checkpoint host name w
  = (Returned
       (match files w !! (dir +:+ "/" +:+ name +:+ ".safetensors") with
        | Some _ => Some (dir +:+ "/" +:+ name +:+ ".safetensors")
        | None =>
            match files w !! (dir +:+ "/" +:+ name +:+ ".pkl") with
            | Some _ => Some (dir +:+ "/" +:+ name +:+ ".pkl")
            | None => None
            end
        end), with_dir host w).
Proof.
  intros Hok Hsep Hext. unfold matching_checkpoint. rewrite Hsep, Hext.
  cbn [negb probe_extensions].
  rewrite (bind_returned _ _ _ _ _ (get_checkpoint_path_usable host w Hok)).
  rewrite PathFacts.join_child by (by rewrite PyStrFacts.mem_app, Hsep).
  rewrite (bind_returned _ _ _ _ _ (exists_child_with_dir host w _)).
  destruct (files w !! _) eqn:Hst; [done|].
  rewrite (bind_returned _ _ _ _ _
             (get_checkpoint_path_usable host _ (with_dir_usable host w Hok))).
  rewrite with_dir_idemp.
  rewrite PathFacts.join_child by (by rewrite PyStrFacts.mem_app, Hsep).
  rewrite (bind_returned _ _ _ _ _ (exists_child_with_dir host w _)).
  by destruct (files w !! (dir +:+ "/" +:+ name +:+ ".pkl")).
Qed.

(** C2. [matching_checkpoint] resolves a name as the specification says: a
    name with a path separator is returned as it is, whether or not such a
    file exists; otherwise a name ending in [.safetensors] or [.pkl] gives the
    managed directory joined with the name; otherwise the managed directory
    is probed for [name.safetensors], then [name.pkl], the first that exists
    is returned, and [None] when neither exists.  The managed directory is
    needed (its [makedirs] must not raise) in all but the first case. *)
Theorem matching_checkpoint_spec (name : string) w :
  dir_usable host w ∨ PyStr.mem os_path_sep name = true →
  (matching_checkpoint host name w).1
  = Returned (resolve_path host (files w) name).
Proof.
  unfold resolve_path, present.
  destruct (PyStr.mem os_path_sep name) eqn:Hsep.
  { intros _. by rewrite matching_checkpoint_verbatim. }
  intros [Hok|?]; [|done].
  rewrite !PathFacts.join_child by (by rewrite ?PyStrFacts.mem_app, Hsep).
  destruct (_ || _) eqn:Hext.
  - by rewrite matching_checkpoint_with_ext.
  - rewrite matching_checkpoint_probe by done. cbn [fst].
    destruct (files w !! (dir +:+ "/" +:+ name +:+ ".safetensors")); [done|].
    by destruct (files w !! (dir +:+ "/" +:+ name +:+ ".pkl")).
Qed.

End Resolution.

(** ** [save_face] and [load_face] *)

Section Loading.

Context {ndarray PILImage : Type}.
Variable host : Host ndarray PILImage.
Local Abbreviation dir := (checkpoint_dir host).
Implicit Types w : world ndarray PILImage.
Implicit Types face : Face ndarray.

Lemma with_dir_lookup_Some w p x :
  files w !! p = Some x → files (with_dir host w) !! p = Some x.
Proof.
  intros Hp. unfold with_dir. destruct (files w !! dir) eqn:Hd; [done|].
  simpl. rewrite lookup_insert_ne; [done|]. intros <-. congruence.
Qed.

(** [get_checkpoint_path] either raises and leaves the world as it is, or
    returns the managed directory, which is there afterwards. *)
Lemma get_checkpoint_path_cases w :
  get_checkpoint_path host w = (Raised (FileExistsError dir), w) ∨
  get_checkpoint_path host w = (Returned dir, with_dir host w).
Proof.
  unfold get_checkpoint_path, bind, os_makedirs, with_dir, ret.
  destruct (files w !! dir) as [[|c]|]; auto.
Qed.

(** Resolving a name leaves the world as it is, up to the managed directory. *)
Lemma matching_checkpoint_world name w r w' :
  matching_checkpoint host name w = (r, w') →
  w' = w ∨ w' = with_dir host w.
Proof.
  unfold matching_checkpoint.
  destruct (PyStr.mem os_path_sep name); [intros [= _ <-]; by left|].
  destruct (negb _); cbn [probe_extensions]; unfold bind, os_path_exists, ret;
    intros H.
  - destruct (get_checkpoint_path_cases w) as [E|E]; rewrite E in H;
      [injection H as _ <-; by left|].
    destruct (files (with_dir host w) !! _); [injection H as _ <-; by right|].
    destruct (get_checkpoint_path_cases (with_dir host w)) as [E'|E'];
      rewrite E' in H; [injection H as _ <-; by right|].
    rewrite with_dir_idemp in H.
    destruct (files (with_dir host w) !! _); injection H as _ <-; by right.
  - destruct (get_checkpoint_path_cases w) as [E|E]; rewrite E in H;
      injection H as _ <-; auto.
Qed.

Lemma save_face_returns face filename w embedding gender age :
  face !! "embedding" = Some embedding →
  face !! "gender" = Some gender →
  face !! "age" = Some age →
  files w !! filename ≠ Some Dir →
  save_face face filename w
  = (Returned (),
     World (<[filename := File (Safetensors
                                  (checkpoint_tensors embedding gender age))]>
              (files w))
           (log w)).
Proof.
  intros He Hg Ha Hdir.
  unfold save_face, try_except, getitem. rewrite He, Hg, Ha.
  unfold bind, ret, save_file, write_file.
  by destruct (files w !! filename) as [[|c]|].
Qed.

(** [save_face] returns, or raises a [KeyError] or an [IsADirectoryError];
    when it does not return, the files are as before. *)
Lemma save_face_cases face filename w :
  (∃ embedding gender age,
      face !! "embedding" = Some embedding ∧ face !! "gender" = Some gender ∧
      face !! "age" = Some age ∧ files w !! filename ≠ Some Dir) ∨
  (∃ e, (save_face face filename w).1 = Raised e ∧
        files (save_face face filename w).2 = files w ∧
        (∀ msg, e ≠ NotImplementedError msg)).
Proof.
  unfold save_face, try_except, getitem, bind, ret, raise, save_file,
    write_file, logger.
  destruct (face !! "embedding") as [e|]; [|right; by eexists].
  destruct (face !! "gender") as [g|]; [|right; by eexists].
  destruct (face !! "age") as [a|]; [|right; by eexists].
  destruct (files w !! filename) as [[|c]|] eqn:Hf.
  - right. by eexists.
  - left. by exists e, g, a.
  - left. by exists e, g, a.
Qed.

(** The loop over the keys of a container reads every tensor back. *)
Lemma load_keys_spec filename (f : gmap string (tensor ndarray))
    (l : list (string * tensor ndarray)) face w :
  NoDup l.*1 →
  (∀ k t, (k, t) ∈ l → f !! k = Some t) →
  load_keys filename f l.*1 face w
  = (Returned (list_to_map (prod_map id numpy <$> l) ∪ face),
     World (files w) (log w ++ replicate (length l) (DEBUG, "load key %s"))).
Proof.
  revert face w. induction l as [|[k t] l IH]; intros face w Hnd Hin.
  - simpl. rewrite (left_id_L ∅ (∪)), app_nil_r. by destruct w.
  - apply NoDup_cons in Hnd as [Hk Hnd]. simpl.
    unfold bind at 1, logger at 1. unfold bind at 1, get_tensor at 1.
    rewrite (Hin k t) by left. unfold ret at 1.
    rewrite IH; [|done|intros; apply Hin; by right]. simpl.
    rewrite <-app_assoc. simpl. f_equal.
    rewrite <-insert_union_l, <-insert_union_r; [done|].
    apply not_elem_of_list_to_map_1. by rewrite <-list_fmap_compose.
Qed.

Lemma load_keys_all filename (f : gmap string (tensor ndarray)) w :
  load_keys filename f (map_to_list f).*1 ∅ w
  = (Returned (numpy <$> f),
     World (files w) (log w ++ replicate (size f) (DEBUG, "load key %s"))).
Proof.
  rewrite load_keys_spec.
  - rewrite (right_id_L ∅ (∪)), list_to_map_fmap, list_to_map_to_list.
    by rewrite length_map_to_list.
  - apply NoDup_fst_map_to_list.
  - intros k t. apply elem_of_map_to_list.
Qed.

Lemma matching_checkpoint_has_sep name w p w' :
  matching_checkpoint host name w = (Returned (Some p), w') →
  PyStr.mem os_path_sep p = true.
Proof.
  unfold matching_checkpoint.
  destruct (PyStr.mem os_path_sep name) eqn:Hsep; [by intros [= <- _]|].
  assert (∀ ext, PyStr.mem os_path_sep ext = false →
            PyStr.mem os_path_sep (os_path_join dir (name +:+ ext)) = true)
    as Hjoin.
  { intros ext Hext. rewrite PathFacts.join_child.
    - apply PathFacts.child_has_sep.
    - by rewrite PyStrFacts.mem_app, Hsep. }
  destruct (negb _); cbn [probe_extensions]; unfold bind, os_path_exists, ret;
    intros H.
  - destruct (get_checkpoint_path_cases w) as [E|E]; rewrite E in H; [done|].
    destruct (files (with_dir host w) !! _);
      [injection H as <- _; by apply Hjoin|].
    destruct (get_checkpoint_path_cases (with_dir host w)) as [E'|E'];
      rewrite E' in H; [done|].
    rewrite with_dir_idemp in H.
    destruct (files (with_dir host w) !! _); [|done].
    injection H as <- _; by apply Hjoin.
  - destruct (get_checkpoint_path_cases w) as [E|E]; rewrite E in H; [done|].
    injection H as <- _. rewrite <-(PyStrFacts.app_nil_r name). by apply Hjoin.
Qed.

Lemma endswith_current_not_legacy s :
  PyStr.endswith s ".safetensors" = true → PyStr.endswith s ".pkl" = false.
Proof.
  intros [p ->]%PyStrFacts.endswith_inv.
  rewrite PathFacts.endswith_app_long; [done|]. simpl. lia.
Qed.

(** The current-format branch of [load_face]. *)
Lemma load_face_current name w filename w2 f :
  matching_checkpoint host name w = (Returned (Some filename), w2) →
  PyStr.endswith filename ".safetensors" = true →
  files w2 !! filename = Some (File (Safetensors f)) →
  load_face host name w
  = (Returned (Some (numpy <$> f)),
     World (files w2) (log w2 ++ replicate (size f) (DEBUG, "load key %s"))).
Proof.
  intros Hres Hext Hfile. unfold load_face.
  rewrite (bind_returned _ _ _ _ _ Hres).
  rewrite (endswith_current_not_legacy _ Hext), Hext.
  unfold bind at 1, safe_open at 1, bind at 1, read_file at 1.
  rewrite Hfile. unfold ret at 1.
  unfold bind. by rewrite load_keys_all.
Qed.

(** The legacy branch of [load_face]. *)
Lemma load_face_legacy name w filename w2 face embedding gender age :
  matching_checkpoint host name w = (Returned (Some filename), w2) →
  PyStr.endswith filename ".pkl" = true →
  files w2 !! filename = Some (File (Pickle face)) →
  face !! "embedding" = Some embedding →
  face !! "gender" = Some gender →
  face !! "age" = Some age →
  files w2 !! PyStr.replace filename ".pkl" ".safetensors" ≠ Some Dir →
  load_face host name w
  = (Returned (Some face),
     World (<[PyStr.replace filename ".pkl" ".safetensors" :=
                File (Safetensors (checkpoint_tensors embedding gender age))]>
              (files w2))
           (log w2 ++ legacy_log)).
Proof.
  intros Hres Hext Hfile He Hg Ha Hdir. unfold load_face.
  rewrite (bind_returned _ _ _ _ _ Hres). rewrite Hext.
  unfold bind, logger, read_file, pickle_load, ret. cbn [files log].
  rewrite Hfile.
  rewrite (save_face_returns _ _ _ embedding gender age) by done.
  cbn [files log]. by rewrite <-!app_assoc.
Qed.

Lemma matching_checkpoint_raises name w e w' :
  matching_checkpoint host name w = (Raised e, w') →
  e = FileExistsError dir.
Proof.
  unfold matching_checkpoint.
  destruct (PyStr.mem os_path_sep name); [done|].
  destruct (negb _); cbn [probe_extensions]; unfold bind, os_path_exists, ret;
    intros H.
  - destruct (get_checkpoint_path_cases w) as [E|E]; rewrite E in H;
      [by injection H as <- _|].
    destruct (files (with_dir host w) !! _); [done|].
    destruct (get_checkpoint_path_cases (with_dir host w)) as [E'|E'];
      rewrite E' in H; [by injection H as <- _|].
    rewrite with_dir_idemp in H.
    by destruct (files (with_dir host w) !! _).
  - destruct (get_checkpoint_path_cases w) as [E|E]; rewrite E in H;
      [by injection H as <- _|done].
Qed.

Lemma matching_checkpoint_fuel name w w' :
  matching_checkpoint host name w ≠ (OutOfFuel, w').
Proof.
  unfold matching_checkpoint.
  destruct (PyStr.mem os_path_sep name); [done|].
  destruct (negb _); cbn [probe_extensions]; unfold bind, os_path_exists, ret;
    intros H.
  - destruct (get_checkpoint_path_cases w) as [E|E]; rewrite E in H; [done|].
    destruct (files (with_dir host w) !! _); [done|].
    destruct (get_checkpoint_path_cases (with_dir host w)) as [E'|E'];
      rewrite E' in H; [done|].
    rewrite with_dir_idemp in H.
    by destruct (files (with_dir host w) !! _).
  - by destruct (get_checkpoint_path_cases w) as [E|E]; rewrite E in H.
Qed.

(** On a legacy path [load_face] returns a descriptor or raises something
    other than [NotImplementedError]. *)
Lemma load_face_legacy_outcome name w filename w2 :
  matching_checkpoint host name w = (Returned (Some filename), w2) →
  PyStr.endswith filename ".pkl" = true →
  (load_face host name w).1 ≠ Returned None ∧
  ∀ msg, (load_face host name w).1 ≠ Raised (NotImplementedError msg).
Proof.
  intros Hres Hext. unfold load_face.
  rewrite (bind_returned _ _ _ _ _ Hres). rewrite Hext.
  unfold bind, logger, read_file, pickle_load, ret, raise. cbn [files log].
  destruct (files w2 !! filename) as [[|[f|obj|img|raw]]|]; try done.
  match goal with
  | |- context [save_face obj ?t ?w0] =>
      destruct (save_face_cases obj t w0)
        as [(e & g & a & He & Hg & Ha & Hd)|(e & He & _ & Hne)];
      [rewrite (save_face_returns _ _ _ e g a) by done; done|];
      destruct (save_face obj t w0) as [[?|?|] ?]; simpl in He; try done
  end.
  injection He as ->. split; [done|]. intros msg [= ->]. by eapply Hne.
Qed.

(** On a current-format path [load_face] returns a descriptor or raises
    something other than [NotImplementedError]. *)
Lemma load_face_current_outcome name w filename w2 :
  matching_checkpoint host name w = (Returned (Some filename), w2) →
  PyStr.endswith filename ".safetensors" = true →
  (load_face host name w).1 ≠ Returned None ∧
  ∀ msg, (load_face host name w).1 ≠ Raised (NotImplementedError msg).
Proof.
  intros Hres Hext.
  destruct (files w2 !! filename) as [[|[f|obj|img|raw]]|] eqn:Hfile;
    [| by rewrite (load_face_current _ _ _ _ f Hres Hext Hfile) | ..];
    unfold load_face;
    rewrite (bind_returned _ _ _ _ _ Hres);
    rewrite (endswith_current_not_legacy _ Hext), Hext;
    unfold bind, safe_open, bind, read_file, raise; by rewrite Hfile.
Qed.

(** What [load_face] does with each result of [matching_checkpoint]:
    [None] gives [None], and a path with neither extension the
    unsupported-format error; nothing else gives either. *)
Lemma load_face_by_resolution (name : string) w :
  ((load_face host name w).1 = Returned None ↔
   (matching_checkpoint host name w).1 = Returned None) ∧
  ((∃ msg, (load_face host name w).1 = Raised (NotImplementedError msg)) ↔
   ∃ p, (matching_checkpoint host name w).1 = Returned (Some p) ∧
        PyStr.endswith p ".safetensors" = false ∧
        PyStr.endswith p ".pkl" = false).
Proof.
  destruct (matching_checkpoint host name w) as [[[p|]|e|] w2] eqn:Hres;
    cbn [fst].
  - destruct (PyStr.endswith p ".pkl") eqn:Hpkl.
    { destruct (load_face_legacy_outcome _ _ _ _ Hres Hpkl) as [Hn Hu].
      split; split; try done.
      - intros [msg Hm]. by destruct (Hu msg).
      - intros (q & [= <-] & _ & ?). congruence. }
    destruct (PyStr.endswith p ".safetensors") eqn:Hst.
    { destruct (load_face_current_outcome _ _ _ _ Hres Hst) as [Hn Hu].
      split; split; try done.
      - intros [msg Hm]. by destruct (Hu msg).
      - intros (q & [= <-] & ? & _). congruence. }
    unfold load_face. rewrite (bind_returned _ _ _ _ _ Hres).
    rewrite Hpkl, Hst. unfold raise. cbn [fst].
    split; split; try done.
    + intros _. by exists p.
    + intros _. by eexists.
  - unfold load_face. rewrite (bind_returned _ _ _ _ _ Hres). unfold ret.
    cbn [fst]. split; split; try done.
    + by intros [msg ?].
    + by intros (q & ? & _).
  - unfold load_face. rewrite (bind_raised _ _ _ _ _ Hres). cbn [fst].
    apply matching_checkpoint_raises in Hres as ->.
    split; split; try done.
    + by intros [msg ?].
    + by intros (q & ? & _).
  - by apply matching_checkpoint_fuel in Hres.
Qed.

(** The paths of the managed directory that resolution gives carry one of
    the two extensions: a resolved path with neither is a name with a
    separator, returned as it is. *)
Lemma resolve_path_other_extension (name : string) w p :
  resolve_path host (files w) name = Some p →
  PyStr.endswith p ".safetensors" = false →
  PyStr.endswith p ".pkl" = false →
  PyStr.mem os_path_sep name = true ∧ p = name.
Proof.
  assert (∀ q suf, PyStr.endswith (dir +:+ "/" +:+ q +:+ suf) suf = true)
    as Hend.
  { intros q suf. rewrite <-!PyStrFacts.app_assoc.
    apply PyStrFacts.endswith_app. }
  unfold resolve_path, present.
  destruct (PyStr.mem os_path_sep name) eqn:Hsep; [by intros [= ->]|].
  rewrite !PathFacts.join_child by (by rewrite ?PyStrFacts.mem_app, Hsep).
  destruct (_ || _) eqn:Hext.
  - intros [= <-] Hst Hpkl.
    apply orb_prop in Hext as [Hn|Hn];
      destruct (PyStrFacts.endswith_inv _ _ Hn) as [q ->].
    + by pose proof (eq_trans (eq_sym (Hend q ".safetensors")) Hst).
    + by pose proof (eq_trans (eq_sym (Hend q ".pkl")) Hpkl).
  - destruct (files w !! _).
    { intros [= <-] Hst _.
      by pose proof (eq_trans (eq_sym (Hend name ".safetensors")) Hst). }
    destruct (files w !! _); [|done].
    intros [= <-] _ Hpkl.
    by pose proof (eq_trans (eq_sym (Hend name ".pkl")) Hpkl).
Qed.

(** C6, as the code has it. [load_face] returns [None], without raising,
    exactly when path resolution gives nothing: the name has no separator,
    carries neither extension, and neither [name.safetensors] nor
    [name.pkl] is in the managed directory.  It raises
    [NotImplementedError], the unsupported-format error, exactly when the
    name resolves to a path that ends neither in [.safetensors] nor in
    [.pkl], which is when the name has a separator and neither extension.
    The managed directory is needed (its [makedirs] must not raise) for a
    name without separator. *)
Theorem load_face_absent_unsupported (name : string) w :
  dir_usable host w ∨ PyStr.mem os_path_sep name = true →
  ((load_face host name w).1 = Returned None ↔
   resolve_path host (files w) name = None) ∧
  (resolve_path host (files w) name = None ↔
   PyStr.mem os_path_sep name = false ∧
   PyStr.endswith name ".safetensors" || PyStr.endswith name ".pkl" = false ∧
   files w !! (dir +:+ "/" +:+ name +:+ ".safetensors") = None ∧
   files w !! (dir +:+ "/" +:+ name +:+ ".pkl") = None) ∧
  ((∃ msg, (load_face host name w).1 = Raised (NotImplementedError msg)) ↔
   ∃ p, resolve_path host (files w) name = Some p ∧
        PyStr.endswith p ".safetensors" = false ∧
        PyStr.endswith p ".pkl" = false) ∧
  ((∃ p, resolve_path host (files w) name = Some p ∧
         PyStr.endswith p ".safetensors" = false ∧
         PyStr.endswith p ".pkl" = false) ↔
   PyStr.mem os_path_sep name = true ∧
   PyStr.endswith name ".safetensors" = false ∧
   PyStr.endswith name ".pkl" = false).
Proof.
  intros Hok.
  assert ((matching_checkpoint host name w).1
          = Returned (resolve_path host (files w) name)) as Hres.
  { unfold resolve_path, present.
    destruct (PyStr.mem os_path_sep name) eqn:Hsep.
    { by rewrite matching_checkpoint_verbatim. }
    destruct Hok as [Hok|?]; [|done].
    rewrite !PathFacts.join_child by (by rewrite ?PyStrFacts.mem_app, Hsep).
    destruct (_ || _) eqn:Hext.
    - by rewrite matching_checkpoint_with_ext.
    - rewrite matching_checkpoint_probe by done. cbn [fst].
      destruct (files w !! (dir +:+ "/" +:+ name +:+ ".safetensors")); [done|].
      by destruct (files w !! (dir +:+ "/" +:+ name +:+ ".pkl")). }
  destruct (load_face_by_resolution name w) as [Hnone Hnie].
  rewrite Hres in Hnone, Hnie.
  split_and!.
  - rewrite Hnone. split; [by intros [= ->]|by intros ->].
  - unfold resolve_path, present.
    destruct (PyStr.mem os_path_sep name) eqn:Hsep.
    { split; [done|by intros [? _]]. }
    rewrite !PathFacts.join_child by (by rewrite ?PyStrFacts.mem_app, Hsep).
    destruct (_ || _) eqn:Hext.
    { split; [done|by intros (_ & ? & _)]. }
    destruct (files w !! (dir +:+ "/" +:+ name +:+ ".safetensors")).
    { split; [done|by intros (_ & _ & ? & _)]. }
    destruct (files w !! (dir +:+ "/" +:+ name +:+ ".pkl")).
    { split; [done|by intros (_ & _ & _ & ?)]. }
    done.
  - rewrite Hnie. split.
    + intros (p & [= Hp] & ? & ?). by exists p.
    + intros (p & Hp & ? & ?). exists p. by rewrite Hp.
  - split.
    + intros (p & Hp & Hst & Hpkl).
      destruct (resolve_path_other_extension _ _ _ Hp Hst Hpkl) as [? ->].
      done.
    + intros (Hsep & Hst & Hpkl). exists name.
      unfold resolve_path. by rewrite Hsep.
Qed.

Lemma loaded_fields (embedding gender age : ndarray) :
  numpy <$> checkpoint_tensors embedding gender age
  = <["age" := age]> (<["gender" := gender]> {["embedding" := embedding]}).
Proof.
  unfold checkpoint_tensors. by rewrite !fmap_insert, map_fmap_singleton.
Qed.

Lemma loaded_dom (embedding gender age : ndarray) :
  dom (<["age" := age]> (<["gender" := gender]>
         ({["embedding" := embedding]} : Face ndarray)))
  = ({["embedding"; "age"; "gender"]} : gset string).
Proof. rewrite !dom_insert_L, dom_singleton_L. set_solver. Qed.

(** C5, as the code has it. A name that resolves to a legacy file holding a
    descriptor with the three fields, in whose path [.pkl] occurs as the
    extension only: [load_face] logs the deprecation warnings, writes the
    current-format file with the same stem, and returns the legacy
    descriptor as it was pickled.  Loading the migrated file gives a
    descriptor with exactly the three persisted fields, on which the two
    agree. *)
Theorem load_face_legacy_migrates (name stem : string) w face
    embedding gender age :
  (matching_checkpoint host name w).1 = Returned (Some (stem +:+ ".pkl")) →
  PyStr.contains stem ".pkl" = false →
  files w !! (stem +:+ ".pkl") = Some (File (Pickle face)) →
  face !! "embedding" = Some embedding →
  face !! "gender" = Some gender →
  face !! "age" = Some age →
  files w !! (stem +:+ ".safetensors") ≠ Some Dir →
  let r := load_face host name w in
  r.1 = Returned (Some face) ∧
  log r.2 = log w ++ legacy_log ∧
  files r.2 !! (stem +:+ ".safetensors")
  = Some (File (Safetensors (checkpoint_tensors embedding gender age))) ∧
  ∃ migrated,
    (load_face host (stem +:+ ".safetensors") r.2).1
    = Returned (Some migrated) ∧
    dom migrated = {["embedding"; "age"; "gender"]} ∧
    migrated !! "embedding" = face !! "embedding" ∧
    migrated !! "age" = face !! "age" ∧
    migrated !! "gender" = face !! "gender".
Proof.
  intros Hres Hstem Hfile He Hg Ha Hdir.
  destruct (matching_checkpoint host name w) as [o w2] eqn:Hm.
  cbn [fst] in Hres. subst o.
  pose proof (matching_checkpoint_has_sep _ _ _ _ Hm) as Hsep.
  assert (files w2 !! (stem +:+ ".pkl") = Some (File (Pickle face))
          ∧ files w2 !! (stem +:+ ".safetensors") ≠ Some Dir
          ∧ log w2 = log w) as (Hfile2 & Hdir2 & Hlog).
  { destruct (matching_checkpoint_world _ _ _ _ Hm) as [-> | ->]; [done|].
    split_and!.
    - by apply with_dir_lookup_Some.
    - rewrite with_dir_lookup_ne; [done|].
      intros Heq. by apply (PathFacts.dir_ne_current host stem).
    - apply with_dir_log. }
  intros r. subst r.
  rewrite (load_face_legacy _ _ _ _ face embedding gender age Hm);
    [|apply PyStrFacts.endswith_app|done..
     |by rewrite PyStrFacts.replace_pkl_suffix].
  rewrite PyStrFacts.replace_pkl_suffix by done. cbn [fst snd files log].
  split_and!; [done|by rewrite Hlog|apply lookup_insert_eq|].
  set (w3 := World _ _).
  assert (matching_checkpoint host (stem +:+ ".safetensors") w3
          = (Returned (Some (stem +:+ ".safetensors")), w3)) as Hm3.
  { apply matching_checkpoint_verbatim.
    rewrite PyStrFacts.mem_app in Hsep |- *.
    apply orb_prop in Hsep as [->|?]; done. }
  rewrite (load_face_current _ _ _ _ (checkpoint_tensors embedding gender age)
             Hm3); [|apply PyStrFacts.endswith_app|apply lookup_insert_eq].
  cbn [fst]. eexists. split; [done|].
  rewrite loaded_fields, loaded_dom, He, Hg, Ha. by simplify_map_eq.
Qed.

End Loading.

(** ** [get_face_checkpoints] *)

Module ListingFacts.

Import PyStrFacts.

Lemma strip_prefix_Some pre s n :
  strip_prefix pre s = Some n ↔ s = pre +:+ n.
Proof.
  revert s. induction pre as [|a pre IH]; intros s; simpl.
  - split; [by intros [= ->]|by intros ->].
  - destruct s as [|b s]; [done|].
    destruct (Ascii.eqb_spec a b) as [->|Hne].
    + rewrite IH. split; [by intros ->|by intros [= ->]].
    + split; [done|]. intros [= ? _]. congruence.
Qed.

Lemma entry_name_Some dir p n :
  entry_name dir p = Some n ↔
  p = dir_prefix dir +:+ n ∧ n ≠ "" ∧ PyStr.mem os_path_sep n = false.
Proof.
  unfold entry_name.
  destruct (strip_prefix (dir_prefix dir) p) as [m|] eqn:Hs.
  - apply strip_prefix_Some in Hs as ->.
    destruct (String.eqb_spec m "") as [->|Hne]; simpl.
    + split; [done|]. by intros (<-%String.app_inj & ? & _).
    + destruct (PyStr.mem os_path_sep m) eqn:Hm.
      * split; [done|]. intros (->%String.app_inj & _ & ?). congruence.
      * split; [by intros [= <-]|]. by intros (->%String.app_inj & _).
  - split; [done|]. intros (-> & _).
    assert (strip_prefix (dir_prefix dir) (dir_prefix dir +:+ n) = Some n)
      by (by apply strip_prefix_Some).
    congruence.
Qed.

Lemma basename_child x n :
  PyStr.mem os_path_sep n = false → os_path_basename (x +:+ "/" +:+ n) = n.
Proof.
  intros Hn. induction x as [|c x IH]; simpl.
  - by rewrite Hn.
  - by rewrite mem_app, orb_true_r.
Qed.

Lemma compare_app p a b : String.compare (p +:+ a) (p +:+ b) = String.compare a b.
Proof.
  induction p as [|c p IH]; simpl; [done|].
  unfold Ascii.compare. by rewrite N.compare_refl.
Qed.

Lemma le_app p a b : String.le (p +:+ a) (p +:+ b) ↔ String.le a b.
Proof. unfold String.le, String.leb. by rewrite compare_app. Qed.

Lemma StronglySorted_fmap_elem_of {A B} (f : A → B) (R1 : relation A)
    (R2 : relation B) l :
  (∀ x y, x ∈ l → y ∈ l → R1 x y → R2 (f x) (f y)) →
  StronglySorted R1 l → StronglySorted R2 (f <$> l).
Proof.
  intros Hf Hl. induction Hl as [|x l Hl IH Hx]; csimpl; constructor.
  - apply IH. intros y z ??. apply Hf; by right.
  - rewrite Forall_fmap. rewrite Forall_forall in Hx |- *.
    intros y Hy. apply Hf; [by left|by right|by apply Hx].
Qed.

Section Listing.

Context {ndarray PILImage : Type}.
Variable host : Host ndarray PILImage.
Local Abbreviation dir := (checkpoint_dir host).
Implicit Types w : world ndarray PILImage.
Implicit Types fs : gmap string (node ndarray PILImage).

Lemma elem_of_listdir fs n :
  n ∈ listdir dir fs ↔
  is_Some (fs !! (dir +:+ "/" +:+ n)) ∧ n ≠ "" ∧ PyStr.mem os_path_sep n = false.
Proof.
  unfold listdir. rewrite list_elem_of_omap. split.
  - intros (p & Hp & (-> & ? & ?)%entry_name_Some).
    rewrite PathFacts.checkpoint_dir_prefix, app_assoc in Hp.
    apply list_elem_of_fmap in Hp as ([q x] & -> & Hq%elem_of_map_to_list).
    split; [by exists x|done].
  - intros ([x Hx] & ? & ?). exists (dir +:+ "/" +:+ n). split.
    + apply list_elem_of_fmap. exists (dir +:+ "/" +:+ n, x).
      split; [done|]. by apply elem_of_map_to_list.
    + apply entry_name_Some.
      by rewrite PathFacts.checkpoint_dir_prefix, app_assoc.
Qed.

Lemma NoDup_listdir fs : NoDup (listdir dir fs).
Proof.
  unfold listdir. generalize (NoDup_fst_map_to_list fs).
  induction 1 as [|p l Hp Hl IH]; csimpl; [constructor|].
  destruct (entry_name dir p) as [n|] eqn:Hn; [|done].
  constructor; [|done].
  intros (q & Hq & Hqn)%list_elem_of_omap.
  apply entry_name_Some in Hn as (-> & _). apply entry_name_Some in Hqn as (-> & _).
  done.
Qed.

(** The names [glob] finds for the two extensions, before the sort. *)
Lemma elem_of_globbed fs n :
  n ∈ filter (λ n, glob_match_star ".safetensors" n = true) (listdir dir fs)
      ++ filter (λ n, glob_match_star ".pkl" n = true) (listdir dir fs) ↔
  listed host fs n.
Proof.
  rewrite elem_of_app, !list_elem_of_filter, !elem_of_listdir.
  unfold listed, glob_match_star. rewrite !andb_true_iff, !negb_true_iff.
  tauto.
Qed.

Lemma NoDup_globbed fs :
  NoDup (filter (λ n, glob_match_star ".safetensors" n = true) (listdir dir fs)
         ++ filter (λ n, glob_match_star ".pkl" n = true) (listdir dir fs)).
Proof.
  apply NoDup_app. split_and!; [apply NoDup_filter, NoDup_listdir| |
                               apply NoDup_filter, NoDup_listdir].
  intros n [[Hst _]%andb_prop _]%list_elem_of_filter
    [[Hpkl _]%andb_prop _]%list_elem_of_filter.
  apply endswith_current_not_legacy in Hst. congruence.
Qed.

Lemma listed_with_dir w n :
  listed host (files (with_dir host w)) n ↔ listed host (files w) n.
Proof.
  unfold listed.
  by rewrite with_dir_lookup_ne by apply PathFacts.child_ne_dir.
Qed.

(** The listing is ["None"] followed by the listed names, each once, in
    lexicographic order. *)
Lemma get_face_checkpoints_listing w :
  dir_usable host w →
  ∃ names,
    (get_face_checkpoints host w).1 = Returned ("None" :: names) ∧
    Sorted String.le names ∧ NoDup names ∧
    ∀ n, n ∈ names ↔ listed host (files w) n.
Proof.
  intros Hok. unfold get_face_checkpoints.
  rewrite (bind_returned _ _ _ _ _ (get_checkpoint_path_usable host w Hok)).
  unfold bind at 1, glob_star at 1.
  rewrite (bind_returned _ _ _ _ _
             (get_checkpoint_path_usable host _ (with_dir_usable host w Hok))).
  rewrite with_dir_idemp. unfold bind, glob_star, ret. cbn [fst].
  set (fs := files (with_dir host w)). rewrite <-fmap_app.
  set (ns := _ ++ _).
  assert (∀ n, n ∈ ns → os_path_join dir n = dir +:+ "/" +:+ n) as Hjoin.
  { intros n (_ & _ & ? & _)%elem_of_globbed. by apply PathFacts.join_child. }
  assert (os_path_join dir <$> ns = (λ n, dir +:+ "/" +:+ n) <$> ns) as ->.
  { apply Forall_fmap_ext, Forall_forall. intros n Hn. by apply Hjoin. }
  set (paths := (λ n, dir +:+ "/" +:+ n) <$> ns).
  assert (∀ p, p ∈ merge_sort String.le paths →
               ∃ n, p = dir +:+ "/" +:+ n ∧ PyStr.mem os_path_sep n = false)
    as Hpaths.
  { intros p. rewrite merge_sort_Permutation.
    intros (n & -> & (_ & _ & ? & _)%elem_of_globbed)%list_elem_of_fmap.
    by exists n. }
  assert (os_path_basename <$> merge_sort String.le paths ≡ₚ ns) as Hperm.
  { rewrite merge_sort_Permutation. unfold paths.
    rewrite <-list_fmap_compose.
    rewrite <-(list_fmap_id ns) at 2.
    apply reflexive_eq, Forall_fmap_ext, Forall_forall.
    intros n (_ & _ & ? & _)%elem_of_globbed. simpl.
    by apply basename_child. }
  eexists. split; [done|]. split_and!.
  - apply StronglySorted_Sorted.
    apply (StronglySorted_fmap_elem_of _ String.le);
      [|apply (StronglySorted_merge_sort _)].
    intros p q (n & -> & Hn)%Hpaths (m & -> & Hm)%Hpaths Hle.
    rewrite !basename_child by done.
    rewrite <-!app_assoc in Hle. by apply le_app in Hle.
  - rewrite Hperm. apply NoDup_globbed.
  - intros n. rewrite Hperm. unfold ns. rewrite elem_of_globbed.
    apply listed_with_dir.
Qed.

End Listing.

End ListingFacts.

(** ** The collision policy *)

Module CandidateFacts.

Import PyStrFacts.

(** No digit is the separator. *)
Lemma pretty_N_char_no_sep n : Ascii.eqb os_path_sep (pretty_N_char n) = false.
Proof.
  destruct n as [|p]; [done|].
  do 4 (try destruct p as [p|p|]); reflexivity.
Qed.

Lemma pretty_N_go_no_sep x s :
  PyStr.mem os_path_sep s = false →
  PyStr.mem os_path_sep (pretty_N_go x s) = false.
Proof.
  revert s. induction (N.lt_wf_0 x) as [x _ IH]; intros s Hs.
  destruct (decide (x = 0)%N) as [->|Hx]; [by rewrite pretty_N_go_0|].
  rewrite pretty_N_go_step by lia. apply IH.
  - apply N.div_lt; lia.
  - cbn [PyStr.mem]. by rewrite Hs, pretty_N_char_no_sep.
Qed.

Lemma pretty_nat_no_sep (n : nat) : PyStr.mem os_path_sep (pretty n) = false.
Proof.
  unfold pretty, pretty_nat, pretty, pretty_N.
  case_decide; [done|]. by apply pretty_N_go_no_sep.
Qed.

Section Candidates.

Context {ndarray PILImage : Type}.
Variable host : Host ndarray PILImage.

Lemma candidate_no_sep name n :
  PyStr.mem os_path_sep name = false →
  PyStr.mem os_path_sep (candidate name n) = false.
Proof.
  intros Hname. destruct n as [|n]; unfold candidate.
  - by rewrite mem_app, Hname.
  - by rewrite !mem_app, Hname, pretty_nat_no_sep.
Qed.

Lemma candidate_inj name i j : candidate name i = candidate name j → i = j.
Proof.
  destruct i as [|i], j as [|j]; unfold candidate; try done.
  - by intros ?%String.app_inj.
  - by intros ?%String.app_inj.
  - intros Heq%String.app_inj. simpl in Heq. injection Heq as Heq.
    by apply PathFacts.app_inj_r, pretty_nat_inj in Heq.
Qed.

Lemma candidate_current name n :
  PyStr.endswith (candidate name n) ".safetensors" = true.
Proof.
  destruct n; unfold candidate; rewrite <-?app_assoc; apply endswith_app.
Qed.

Lemma checkpoint_name_no_sep name :
  PyStr.mem os_path_sep (checkpoint_name name) = false.
Proof.
  unfold checkpoint_name. destruct (String.eqb _ ""); [done|].
  apply sanitize_name_no_sep.
Qed.

End Candidates.

End CandidateFacts.

Section Selection.

Context {ndarray PILImage : Type}.
Variable host : Host ndarray PILImage.
Local Abbreviation dir := (checkpoint_dir host).
Local Abbreviation path := (candidate_path host).
Implicit Types w : world ndarray PILImage.
Implicit Types fs : gmap string (node ndarray PILImage).

Lemma join_candidate name n :
  PyStr.mem os_path_sep name = false →
  os_path_join dir (candidate name n) = path name n.
Proof.
  intros Hname. apply PathFacts.join_child.
  by apply CandidateFacts.candidate_no_sep.
Qed.

Lemma path_inj name i j : path name i = path name j → i = j.
Proof.
  intros Heq%PathFacts.child_inj. by apply CandidateFacts.candidate_inj in Heq.
Qed.

(** Only as many candidates as there are nodes can all be taken. *)
Lemma taken_bound fs name n :
  (∀ i, i < n → is_Some (fs !! path name i)) → n ≤ size fs.
Proof.
  intros Htaken.
  assert (length (path name <$> seq 0 n) ≤ length (map_to_list fs).*1) as Hlen;
    [|by rewrite !length_fmap, length_seq, length_map_to_list in Hlen].
  apply submseteq_length, NoDup_submseteq.
  - apply NoDup_fmap_2_strong; [|apply NoDup_seq].
    intros i j _ _. apply path_inj.
  - intros p (i & -> & Hi%elem_of_seq)%list_elem_of_fmap.
    destruct (Htaken i) as [x Hx]; [lia|].
    apply list_elem_of_fmap. exists (path name i, x).
    split; [done|]. by apply elem_of_map_to_list.
Qed.

(** Some candidate is free, and the first such is found among the first
    [size fs + 1]. *)
Lemma first_free_exists fs name :
  ∃ j, j ≤ size fs ∧ first_free host fs name j.
Proof.
  assert (∀ n, (∃ j, j < n ∧ first_free host fs name j) ∨
               (∀ i, i < n → is_Some (fs !! path name i))) as Hsearch.
  { induction n as [|n [(j & ? & ?)|IH]].
    - right. intros; lia.
    - left. exists j. split; [lia|done].
    - destruct (fs !! path name n) as [x|] eqn:Hn.
      + right. intros i Hi. destruct (decide (i = n)) as [->|]; [by exists x|].
        apply IH. lia.
      + left. exists n. split; [lia|]. by split. }
  destruct (Hsearch (S (size fs))) as [(j & ? & ?)|Hall].
  - exists j. split; [lia|done].
  - apply taken_bound in Hall. lia.
Qed.

Lemma first_free_unique fs name i j :
  first_free host fs name i → first_free host fs name j → i = j.
Proof.
  intros [Hi Hfi] [Hj Hfj].
  destruct (Nat.lt_trichotomy i j) as [Hlt|[->|Hlt]]; [|done|].
  - destruct (Hj i Hlt) as [? ?]. congruence.
  - destruct (Hi j Hlt) as [? ?]. congruence.
Qed.

(** The loop, started on candidate [k] with the candidates from [k] to
    [k + j - 1] taken and candidate [k + j] free, stops on candidate
    [k + j] after [j + 1] tests. *)
Lemma probe_free_path_found fuel name k j w :
  dir_usable host w →
  PyStr.mem os_path_sep name = false →
  (∀ i, k ≤ i < k + j → is_Some (files w !! path name i)) →
  files w !! path name (k + j) = None →
  j < fuel →
  probe_free_path host fuel name (path name k) (S k) (with_dir host w)
  = (Returned (path name (k + j)), with_dir host w).
Proof.
  intros Hok Hname. revert k fuel.
  induction j as [|j IH]; intros k fuel Htaken Hfree Hfuel;
    (destruct fuel as [|fuel]; [lia|]); cbn [probe_free_path];
    unfold candidate_path at 1.
  - rewrite Nat.add_0_r in Hfree |- *.
    rewrite (bind_returned _ _ _ _ _ (exists_child_with_dir host w _)).
    unfold candidate_path in Hfree. by rewrite Hfree.
  - rewrite (bind_returned _ _ _ _ _ (exists_child_with_dir host w _)).
    destruct (Htaken k) as [x Hx]; [lia|].
    unfold candidate_path in Hx. rewrite Hx.
    rewrite (bind_returned _ _ _ _ _
               (get_checkpoint_path_usable host _ (with_dir_usable host w Hok))).
    rewrite with_dir_idemp.
    change (name +:+ "_" +:+ pretty (S k) +:+ ".safetensors")
      with (candidate name (S k)).
    rewrite join_candidate by done. rewrite Nat.add_1_r.
    rewrite IH; [by rewrite Nat.add_succ_comm| | |lia].
    + intros i Hi. apply Htaken. lia.
    + by rewrite Nat.add_succ_comm.
Qed.

(** However the loop ends, it leaves the world as it is, and what it
    returns is a candidate path. *)
Lemma probe_free_path_any fuel name k w r w' :
  PyStr.mem os_path_sep name = false →
  probe_free_path host fuel name (path name k) (S k) (with_dir host w)
  = (r, w') →
  w' = with_dir host w ∧ ∀ p, r = Returned p → ∃ j, p = path name j.
Proof.
  intros Hname. revert k.
  induction fuel as [|fuel IH]; intros k; cbn [probe_free_path].
  - intros [= <- <-]. by split.
  - unfold bind at 1, os_path_exists at 1.
    destruct (files (with_dir host w) !! _).
    + unfold bind at 1.
      destruct (get_checkpoint_path_cases host (with_dir host w)) as [-> | ->].
      { intros [= <- <-]. by split. }
      rewrite with_dir_idemp.
      change (name +:+ "_" +:+ pretty (S k) +:+ ".safetensors")
        with (candidate name (S k)).
      rewrite join_candidate by done. rewrite Nat.add_1_r. apply IH.
    + intros [= <- <-]. split; [done|]. intros p [= <-]. by exists k.
Qed.

Lemma select_file_path_overwrite fuel name w :
  dir_usable host w →
  PyStr.mem os_path_sep name = false →
  select_file_path host fuel name true w
  = (Returned (path name 0), with_dir host w).
Proof.
  intros Hok Hname. unfold select_file_path.
  rewrite (bind_returned _ _ _ _ _ (get_checkpoint_path_usable host w Hok)).
  cbn [negb].
  change (name +:+ ".safetensors") with (candidate name 0).
  by rewrite join_candidate.
Qed.

Lemma select_file_path_unique fuel name w j :
  dir_usable host w →
  PyStr.mem os_path_sep name = false →
  first_free host (files w) name j →
  j < fuel →
  select_file_path host fuel name false w
  = (Returned (path name j), with_dir host w).
Proof.
  intros Hok Hname [Htaken Hfree] Hfuel. unfold select_file_path.
  rewrite (bind_returned _ _ _ _ _ (get_checkpoint_path_usable host w Hok)).
  cbn [negb].
  change (name +:+ ".safetensors") with (candidate name 0).
  rewrite join_candidate by done.
  apply (probe_free_path_found fuel name 0 j); try done.
  intros i Hi. apply Htaken. lia.
Qed.

(** Whatever [select_file_path] does, it leaves the world as it is up to the
    managed directory, and what it returns is a candidate path. *)
Lemma select_file_path_any fuel name overwrite w r w' :
  PyStr.mem os_path_sep name = false →
  select_file_path host fuel name overwrite w = (r, w') →
  (w' = w ∨ w' = with_dir host w) ∧
  ∀ p, r = Returned p → ∃ j, p = path name j.
Proof.
  intros Hname. unfold select_file_path, bind.
  destruct (get_checkpoint_path_cases host w) as [-> | ->].
  { intros [= <- <-]. split; [by left|done]. }
  change (name +:+ ".safetensors") with (candidate name 0).
  rewrite join_candidate by done.
  destruct overwrite; cbn [negb].
  - intros [= <- <-]. split; [by right|]. intros p [= <-]. by exists 0.
  - intros [-> Hp]%probe_free_path_any; [|done]. split; [by right|done].
Qed.

End Selection.

(** ** Computations that only read *)

Section ReadsOnly.

Context {ndarray PILImage : Type}.
Local Abbreviation Py := (py ndarray PILImage).
Implicit Types w : world ndarray PILImage.

Lemma reads_only_files {A} (m : Py A) w :
  reads_only m → files (m w).2 = files w.
Proof. intros Hm. by rewrite Hm. Qed.

(** The outcome of a computation that only reads depends on the files only. *)
Lemma reads_only_outcome {A} (m : Py A) w w' :
  reads_only m → files w = files w' → (m w).1 = (m w').1.
Proof. intros Hm Hfs. rewrite (Hm w), (Hm w'). cbn [fst]. by rewrite Hfs. Qed.

Lemma reads_only_ret {A} (a : A) : reads_only (ret a : Py A).
Proof. intros [fs l]. unfold ret. cbn. by rewrite app_nil_r. Qed.

Lemma reads_only_raise {A} e : reads_only (raise e : Py A).
Proof. intros [fs l]. unfold raise. cbn. by rewrite app_nil_r. Qed.

Lemma reads_only_lift {A} (o : outcome A) : reads_only (lift o : Py A).
Proof. intros [fs l]. unfold lift. cbn. by rewrite app_nil_r. Qed.

Lemma reads_only_reading {A} f : reads_only (reading f : Py A).
Proof. intros [fs l]. unfold reading. cbn. by rewrite app_nil_r. Qed.

Lemma reads_only_logger lv msg : reads_only (logger lv msg : Py unit).
Proof. by intros [fs l]. Qed.

Lemma reads_only_getitem {V} (d : gmap string V) k :
  reads_only (getitem d k : Py V).
Proof.
  unfold getitem. destruct (d !! k); [apply reads_only_ret|apply reads_only_raise].
Qed.

Lemma reads_only_index {A} (l : list A) i : reads_only (index l i : Py A).
Proof.
  unfold index. destruct (l !! i); [apply reads_only_ret|apply reads_only_raise].
Qed.

Lemma reads_only_read_file p : reads_only (read_file p : Py _).
Proof.
  intros [fs l]. unfold read_file. cbn.
  destruct (fs !! p) as [[|c]|]; cbn; by rewrite app_nil_r.
Qed.

Lemma reads_only_bind {A B} (m : Py A) (k : A → Py B) :
  reads_only m → (∀ a, reads_only (k a)) → reads_only (bind m k).
Proof.
  intros Hm Hk w. unfold bind. rewrite (Hm w), (Hm (World (files w) [])).
  cbn [files log app].
  destruct (m (World (files w) [])) as [[a|e|] [fs' l']]; cbn [fst snd log].
  - rewrite (Hk a (World _ (log w ++ l'))), (Hk a (World _ l')).
    cbn [files log fst snd]. by rewrite app_assoc.
  - done.
  - done.
Qed.

Lemma reads_only_Image_open p : reads_only (Image_open p : Py PILImage).
Proof.
  apply reads_only_bind; [apply reads_only_read_file|].
  intros [| | |]; first [apply reads_only_ret|apply reads_only_raise].
Qed.

End ReadsOnly.

Create HintDb reads discriminated.

#[export] Hint Resolve reads_only_ret reads_only_raise reads_only_lift
  reads_only_reading reads_only_logger reads_only_getitem reads_only_index
  reads_only_read_file reads_only_Image_open : reads.

Ltac reads_only_step :=
  first
    [ apply reads_only_bind; [|intros ?]
    | match goal with
      | |- reads_only (if ?b then _ else _) => destruct b
      | |- reads_only (match ?x with _ => _ end) => destruct x
      end
    | solve [auto with reads] ].

Section PreviewFacts.

Context {ndarray PILImage : Type}.
Variable host : Host ndarray PILImage.

Lemma reads_only_render_preview (face : Face ndarray) :
  reads_only (render_preview host face).
Proof. unfold render_preview. repeat reads_only_step. Qed.

End PreviewFacts.

(** ** The build workflow *)

Lemma bind_inv {S A B} (m : comp S A) (k : A → comp S B) w r w' :
  bind m k w = (r, w') →
  (∃ a w1, m w = (Returned a, w1) ∧ k a w1 = (r, w')) ∨
  (∃ e, m w = (Raised e, w') ∧ r = Raised e) ∨
  (m w = (OutOfFuel, w') ∧ r = OutOfFuel).
Proof.
  unfold bind. destruct (m w) as [[a|e|] w1]; intros Heq.
  - left. by exists a, w1.
  - right. left. injection Heq as <- <-. by exists e.
  - right. right. by injection Heq as <- <-.
Qed.

Section Persist.

Context {ndarray PILImage : Type}.
Variable host : Host ndarray PILImage.
Implicit Types w : world ndarray PILImage.
Implicit Types face : Face ndarray.

Lemma png_ne p : p +:+ ".png" ≠ p.
Proof.
  intros Heq. apply (f_equal String.length) in Heq.
  rewrite PyStrFacts.length_app in Heq. simpl in Heq. lia.
Qed.

(** The load that checks a checkpoint just written returns and writes
    nothing. *)
Lemma load_check p w f :
  PyStr.mem os_path_sep p = true →
  PyStr.endswith p ".safetensors" = true →
  files w !! p = Some (File (Safetensors f)) →
  ∃ l,
    try_except
      (bind (load_face host p) (λ _, logger DEBUG "%s"))
      (λ _, logger ERROR "Error loading checkpoint, after creation %s") w
    = (Returned (), World (files w) l).
Proof.
  intros Hsep Hext Hfile. unfold try_except.
  pose proof (matching_checkpoint_verbatim host p w Hsep) as Hm.
  rewrite (bind_returned _ _ _ _ _
             (load_face_current host _ _ _ _ _ Hm Hext Hfile)).
  unfold logger. cbn [files log]. by eexists.
Qed.

(** What [persist] can do: fail to save and write nothing; save and then
    raise, leaving the checkpoint; or save both files and return the
    preview. *)
Lemma persist_cases face pv p w r w' :
  PyStr.mem os_path_sep p = true →
  PyStr.endswith p ".safetensors" = true →
  persist host face pv p w = (r, w') →
  ((∃ x, r = Raised x) ∧ files w' = files w ∧
   ¬ (∃ e g a, face !! "embedding" = Some e ∧ face !! "gender" = Some g ∧
               face !! "age" = Some a ∧ files w !! p ≠ Some Dir)) ∨
  (∃ e g a,
      face !! "embedding" = Some e ∧ face !! "gender" = Some g ∧
      face !! "age" = Some a ∧ files w !! p ≠ Some Dir ∧
      (((∃ x, r = Raised x) ∧
        files w'
        = <[p := File (Safetensors (checkpoint_tensors e g a))]> (files w)) ∨
       (∃ img,
           pv = Some img ∧ r = Returned (Some img) ∧
           files w'
           = <[p +:+ ".png" := File (Picture img)]>
               (<[p := File (Safetensors (checkpoint_tensors e g a))]>
                  (files w))))).
Proof.
  intros Hsep Hext Hp. unfold persist in Hp.
  destruct (save_face_cases face p w)
    as [(e & g & a & He & Hg & Ha & Hd)|(x & Hx & Hfs & _)].
  - right. exists e, g, a. split_and!; try done.
    rewrite (bind_returned _ _ _ _ _
               (save_face_returns _ _ _ _ _ _ He Hg Ha Hd)) in Hp.
    destruct pv as [img|].
    + unfold bind at 1, ret at 1 in Hp.
      apply bind_inv in Hp as [(u & w2 & Hs & Hp)|[(x & Hs & ->)|[Hs ->]]];
        unfold Image_save, write_file in Hs; cbn [files log] in Hs;
        destruct (_ !! (p +:+ ".png")) as [[|c]|] eqn:Hpng;
        simplify_eq; try (left; split; [by eexists|done]).
      all: right; exists img; (split; [done|]).
      all: match type of Hp with
           | bind (try_except _ _) _ ?w0 = _ =>
               destruct (load_check p w0 (checkpoint_tensors e g a) Hsep Hext)
                 as [l Hl];
               [cbn [files]; rewrite lookup_insert_ne by apply png_ne;
                apply lookup_insert_eq|]
           end.
      all: rewrite (bind_returned _ _ _ _ _ Hl) in Hp.
      all: unfold ret in Hp; by simplify_eq.
    + unfold bind at 1, raise in Hp. simplify_eq.
      left. split; [by eexists|done].
  - left. destruct (save_face face p w) as [[[]|y|] w1] eqn:Hs;
      simpl in Hx, Hfs; try done.
    injection Hx as ->. unfold bind in Hp. rewrite Hs in Hp. simplify_eq.
    split_and!; [by eexists|done|].
    intros (e & g & a & He & Hg & Ha & Hd).
    rewrite (save_face_returns _ _ _ _ _ _ He Hg Ha Hd) in Hs. done.
Qed.

End Persist.

Section Build.

Context {ndarray PILImage : Type}.
Variable host : Host ndarray PILImage.
Local Abbreviation dir := (checkpoint_dir host).
Local Abbreviation path := (candidate_path host).
Implicit Types w : world ndarray PILImage.
Implicit Types face : Face ndarray.

Lemma with_dir_files w1 w2 :
  files w1 = files w2 → files (with_dir host w1) = files (with_dir host w2).
Proof.
  intros Hfs. unfold with_dir. rewrite Hfs.
  by destruct (files w2 !! dir).
Qed.

Lemma select_file_path_returned fuel name overwrite w p w' :
  PyStr.mem os_path_sep name = false →
  select_file_path host fuel name overwrite w = (Returned p, w') →
  w' = with_dir host w ∧ ∃ j, p = path name j.
Proof.
  intros Hname. unfold select_file_path, bind.
  destruct (get_checkpoint_path_cases host w) as [-> | ->]; [done|].
  change (name +:+ ".safetensors") with (candidate name 0).
  rewrite join_candidate by done.
  destruct overwrite; cbn [negb].
  - intros [= <- <-]. split; [done|]. by exists 0.
  - intros [-> Hp]%probe_free_path_any; [|done]. split; [done|]. by apply Hp.
Qed.

Lemma path_has_sep name j : PyStr.mem os_path_sep (path name j) = true.
Proof. apply PathFacts.child_has_sep. Qed.

Lemma path_current name j :
  PyStr.endswith (path name j) ".safetensors" = true.
Proof.
  unfold candidate_path. destruct j; unfold candidate;
    rewrite <-?PyStrFacts.app_assoc; apply PyStrFacts.endswith_app.
Qed.

(** What the body of the [try] of [build_face_checkpoint_and_save] can do. *)
Lemma build_anatomy fuel batch_files name overwrite w r w' :
  build_face_checkpoint_and_save host fuel batch_files name overwrite w
  = (r, w') →
  ((r = Returned None ∨ r = OutOfFuel) ∧
   (files w' = files w ∨ files w' = files (with_dir host w))) ∨
  (∃ j e g a,
      r = Returned None ∧
      files w'
      = <[path (checkpoint_name name) j :=
            File (Safetensors (checkpoint_tensors e g a))]>
          (files (with_dir host w))) ∨
  (∃ j e g a img,
      r = Returned (Some img) ∧
      files w'
      = <[path (checkpoint_name name) j +:+ ".png" := File (Picture img)]>
          (<[path (checkpoint_name name) j :=
               File (Safetensors (checkpoint_tensors e g a))]>
             (files (with_dir host w)))).
Proof.
  unfold build_face_checkpoint_and_save, try_except.
  match goal with |- context [match ?b w with _ => _ end] => set (body := b) end.
  destruct (body w) as [o wb] eqn:Hb.
  assert (((o = Returned None ∨ (∃ x, o = Raised x) ∨ o = OutOfFuel) ∧
           (files wb = files w ∨ files wb = files (with_dir host w))) ∨
          (∃ j e g a,
              (∃ x, o = Raised x) ∧
              files wb
              = <[path (checkpoint_name name) j :=
                    File (Safetensors (checkpoint_tensors e g a))]>
                  (files (with_dir host w))) ∨
          (∃ j e g a img,
              o = Returned (Some img) ∧
              files wb
              = <[path (checkpoint_name name) j +:+ ".png"
                  := File (Picture img)]>
                  (<[path (checkpoint_name name) j :=
                       File (Safetensors (checkpoint_tensors e g a))]>
                     (files (with_dir host w))))) as Hbody.
  { subst body. unfold bind at 1, logger at 1 in Hb.
    apply bind_inv in Hb as [(faces & w1 & Hf & Hb)|[(x & Hf & ->)|[Hf ->]]];
      unfold reading in Hf; simplify_eq;
      [|left; split; [eauto|by left]..].
    apply bind_inv in Hb as [(bl & w1 & Hbl & Hb)|[(x & Hbl & ->)|[Hbl ->]]];
      unfold lift in Hbl; simplify_eq;
      [|left; split; [eauto|by left]..].
    destruct bl as [bf|]; [destruct (truthy (Some bf))|];
      [|unfold bind, logger, ret in Hb; simplify_eq;
        left; split; [eauto|by left]..].
    apply bind_inv in Hb as [(pv & w1 & Hpv & Hb)|[(x & Hpv & ->)|[Hpv ->]]];
      rewrite (reads_only_render_preview host bf) in Hpv; simplify_eq;
      [|left; split; [eauto|by left]..].
    apply bind_inv in Hb as [(p & w2 & Hsel & Hb)|[(x & Hsel & ->)|[Hsel ->]]];
      [|apply select_file_path_any in Hsel as [[-> | ->] _];
        [left; split; [eauto|by left]
        |left; split; [eauto|right; by apply with_dir_files]
        |apply CandidateFacts.checkpoint_name_no_sep]..].
    apply select_file_path_returned in Hsel as [-> [j ->]];
      [|apply CandidateFacts.checkpoint_name_no_sep].
    apply persist_cases in Hb; [|apply path_has_sep|apply path_current].
    match type of Hb with
    | context [files (with_dir host ?w0)] =>
        rewrite (with_dir_files w0 w) in Hb by done
    end.
    destruct Hb as [(Hx & -> & _)|(e & g & a & _ & _ & _ & _ & Hb)].
    - left. split; [eauto|by right].
    - destruct Hb as [[Hx ->]|(img & -> & -> & ->)].
      + right. left. by exists j, e, g, a.
      + right. right. by exists j, e, g, a, img. }
  destruct Hbody as [[Ho Hfs]|[(j & e & g & a & [x ->] & Hfs)
                              |(j & e & g & a & img & -> & Hfs)]].
  - destruct Ho as [-> |[[x ->]| ->]]; unfold bind, logger, ret;
      intros; simplify_eq; left; (split; [eauto|done]).
  - unfold bind, logger, ret. intros; simplify_eq.
    right. left. by exists j, e, g, a.
  - intros; simplify_eq. right. right. by exists j, e, g, a, img.
Qed.

(** A run of the workflow that reaches the save, with the path that
    [select_file_path] gives: the checkpoint is written there. *)
Lemma build_writes_at fuel batch_files name overwrite w faces face pv
    e g a j r w' :
  swapper_get_faces_from_img_files host (default [] batch_files) (files w)
  = Returned faces →
  swapper_blend_faces host faces = Returned (Some face) →
  truthy (Some face) = true →
  (render_preview host face w).1 = Returned pv →
  face !! "embedding" = Some e →
  face !! "gender" = Some g →
  face !! "age" = Some a →
  (∀ w0, files w0 = files w →
         select_file_path host fuel (checkpoint_name name) overwrite w0
         = (Returned (path (checkpoint_name name) j), with_dir host w0)) →
  files w !! path (checkpoint_name name) j ≠ Some Dir →
  build_face_checkpoint_and_save host fuel batch_files name overwrite w
  = (r, w') →
  (∃ res, r = Returned res) ∧
  files w' !! path (checkpoint_name name) j
  = Some (File (Safetensors (checkpoint_tensors e g a))).
Proof.
  intros H1 H2 Ht Hpv He Hg Ha Hsel Hnd.
  unfold build_face_checkpoint_and_save, try_except.
  match goal with |- context [match ?b w with _ => _ end] => set (body := b) end.
  destruct (body w) as [o wb] eqn:Hb. subst body.
  unfold bind at 1, logger at 1 in Hb.
  apply bind_inv in Hb as [(faces' & w1 & Hf & Hb)|[(x & Hf & ->)|[Hf ->]]];
    unfold reading in Hf; cbn [files] in Hf; rewrite H1 in Hf; simplify_eq.
  apply bind_inv in Hb as [(bl & w1 & Hbl & Hb)|[(x & Hbl & ->)|[Hbl ->]]];
    unfold lift in Hbl; rewrite H2 in Hbl; simplify_eq.
  rewrite Ht in Hb.
  rewrite (reads_only_outcome _ w (World (files w) []))
    in Hpv by (done || apply reads_only_render_preview).
  apply bind_inv in Hb as [(pv' & w1 & Hpv' & Hb)|[(x & Hpv' & ->)|[Hpv' ->]]];
    rewrite (reads_only_render_preview host face) in Hpv';
    cbn [files log] in Hpv'; simplify_eq; try congruence.
  match type of Hb with
  | bind _ _ ?w0 = _ => rewrite (bind_returned _ _ _ _ _ (Hsel w0 eq_refl)) in Hb
  end.
  apply persist_cases in Hb; [|apply path_has_sep|apply path_current].
  match type of Hb with
  | context [files (with_dir host ?w0)] =>
      rewrite !(with_dir_files w0 w) in Hb by done
  end.
  rewrite with_dir_lookup_ne in Hb by apply PathFacts.child_ne_dir.
  destruct Hb as [(_ & _ & Hno)|(e' & g' & a' & ? & ? & ? & _ & Hb)].
  { destruct Hno. by exists e, g, a. }
  simplify_eq.
  destruct Hb as [[[x ->] Hfs]|(img & _ & -> & Hfs)].
  - unfold bind, logger, ret. intros [= <- <-]. cbn [files].
    split; [by eexists|]. rewrite Hfs. apply lookup_insert_eq.
  - intros [= <- <-]. split; [by eexists|]. rewrite Hfs.
    rewrite lookup_insert_ne by apply png_ne. apply lookup_insert_eq.
Qed.

Lemma dir_usable_files w1 w2 :
  files w1 = files w2 → dir_usable host w2 → dir_usable host w1.
Proof. intros Hfs Hok c. rewrite Hfs. apply Hok. Qed.

(** C4. When overwrite is not requested and a blended face was obtained (and
    the run reaches the save: the preview stage does not raise, the face has
    its three fields, the managed directory is available), the workflow
    probes [name.safetensors], [name_1.safetensors], [name_2.safetensors],
    ... and writes the checkpoint to the first of these that no node has:
    there is a first free candidate, the run ends, and the checkpoint is at
    that candidate.  Any fuel above the number of nodes suffices for the
    loop. *)
Theorem build_probes_first_free fuel batch_files (name : string) w faces face
    pv e g a :
  swapper_get_faces_from_img_files host (default [] batch_files) (files w)
  = Returned faces →
  swapper_blend_faces host faces = Returned (Some face) →
  truthy (Some face) = true →
  (render_preview host face w).1 = Returned pv →
  face !! "embedding" = Some e →
  face !! "gender" = Some g →
  face !! "age" = Some a →
  dir_usable host w →
  size (files w) < fuel →
  ∃ j,
    first_free host (files w) (checkpoint_name name) j ∧
    (∃ res,
        (build_face_checkpoint_and_save host fuel batch_files name false w).1
        = Returned res) ∧
    files (build_face_checkpoint_and_save host fuel batch_files name false w).2
      !! path (checkpoint_name name) j
    = Some (File (Safetensors (checkpoint_tensors e g a))).
Proof.
  intros H1 H2 Ht Hpv He Hg Ha Hok Hfuel.
  destruct (first_free_exists host (files w) (checkpoint_name name))
    as (j & Hj & Hfree).
  exists j. split; [done|].
  destruct (build_face_checkpoint_and_save _ _ _ _ _ _) as [r w'] eqn:Hb.
  cbn [fst snd].
  eapply (build_writes_at _ _ _ _ _ _ _ _ _ _ _ j); try done.
  - intros w0 Hfs. apply select_file_path_unique.
    + by apply (dir_usable_files w0 w).
    + apply CandidateFacts.checkpoint_name_no_sep.
    + by rewrite Hfs.
    + lia.
  - destruct Hfree as [_ ->]. done.
Qed.

(** C9, as the code has it. The sanitised stem determines the file when
    overwrite is requested: the checkpoint goes to [name.safetensors],
    whatever file is there.  When overwrite is not requested, the numeric
    suffix [_1], [_2], ... is appended until a free name is found: the
    checkpoint goes to the first free candidate. *)
Theorem build_overwrite_or_suffix fuel batch_files (name : string) w faces
    face pv e g a :
  swapper_get_faces_from_img_files host (default [] batch_files) (files w)
  = Returned faces →
  swapper_blend_faces host faces = Returned (Some face) →
  truthy (Some face) = true →
  (render_preview host face w).1 = Returned pv →
  face !! "embedding" = Some e →
  face !! "gender" = Some g →
  face !! "age" = Some a →
  dir_usable host w →
  size (files w) < fuel →
  (files w !! path (checkpoint_name name) 0 ≠ Some Dir →
   files
     (build_face_checkpoint_and_save host fuel batch_files name true w).2
     !! path (checkpoint_name name) 0
   = Some (File (Safetensors (checkpoint_tensors e g a)))) ∧
  (∃ j,
      first_free host (files w) (checkpoint_name name) j ∧
      files
        (build_face_checkpoint_and_save host fuel batch_files name false w).2
        !! path (checkpoint_name name) j
      = Some (File (Safetensors (checkpoint_tensors e g a)))).
Proof.
  intros H1 H2 Ht Hpv He Hg Ha Hok Hfuel.
  pose proof (CandidateFacts.checkpoint_name_no_sep name) as Hname. split.
  - intros Hnd.
    destruct (build_face_checkpoint_and_save _ _ _ _ _ _) as [r w'] eqn:Hb.
    cbn [snd].
    eapply (build_writes_at _ _ _ _ _ _ _ _ _ _ _ 0); try done.
    intros w0 Hfs. apply select_file_path_overwrite; [|done].
    by apply (dir_usable_files w0 w).
  - destruct (first_free_exists host (files w) (checkpoint_name name))
      as (j & Hj & Hfree).
    exists j. split; [done|].
    destruct (build_face_checkpoint_and_save _ _ _ _ _ _) as [r w'] eqn:Hb.
    cbn [snd].
    eapply (build_writes_at _ _ _ _ _ _ _ _ _ _ _ j); try done.
    + intros w0 Hfs. apply select_file_path_unique; [|done| |lia].
      * by apply (dir_usable_files w0 w).
      * by rewrite Hfs.
    + destruct Hfree as [_ ->]. done.
Qed.

(** Without a usable blended face the workflow logs and returns [None]; the
    files are as before. *)
Lemma build_no_face fuel batch_files name overwrite w faces blended :
  swapper_get_faces_from_img_files host (default [] batch_files) (files w)
  = Returned faces →
  swapper_blend_faces host faces = Returned blended →
  truthy blended = false →
  build_face_checkpoint_and_save host fuel batch_files name overwrite w
  = (Returned None,
     World (files w)
           (log w ++ [(INFO, "Build %s %s"); (ERROR, "No face found")])).
Proof.
  intros H1 H2 Ht.
  unfold build_face_checkpoint_and_save, try_except, bind, logger, reading,
    lift, ret.
  cbn [files log]. rewrite H1, H2.
  destruct blended as [face|]; [rewrite Ht|]; cbn [files log];
    by rewrite <-app_assoc.
Qed.

(** C8, as the code has it. When the workflow returns [None], no preview
    image has been written: either no file has been created (at most the
    managed directory was made), or the checkpoint itself was written before
    a later step raised, and nothing else.  When [None] is returned because
    blending gives no usable face, nothing has been created. *)
Theorem build_none_writes fuel batch_files (name : string) overwrite w :
  (build_face_checkpoint_and_save host fuel batch_files name overwrite w).1
  = Returned None →
  (files
     (build_face_checkpoint_and_save host fuel batch_files name overwrite w).2
   = files w ∨
   files
     (build_face_checkpoint_and_save host fuel batch_files name overwrite w).2
   = files (with_dir host w) ∨
   ∃ j e g a,
     files
       (build_face_checkpoint_and_save host fuel batch_files name overwrite
          w).2
     = <[path (checkpoint_name name) j :=
           File (Safetensors (checkpoint_tensors e g a))]>
         (files (with_dir host w))) ∧
  (∀ faces blended,
      swapper_get_faces_from_img_files host (default [] batch_files) (files w)
      = Returned faces →
      swapper_blend_faces host faces = Returned blended →
      truthy blended = false →
      files
        (build_face_checkpoint_and_save host fuel batch_files name overwrite
           w).2
      = files w).
Proof.
  intros Hnone. split.
  - destruct (build_face_checkpoint_and_save _ _ _ _ _ _) as [r w'] eqn:Hb.
    cbn [fst snd] in *. subst r.
    apply build_anatomy in Hb
        as [[_ [?|?]]|[(j & e & g & a & _ & ?)|(j & e & g & a & img & ? & _)]];
      [by left|by right; left| |done].
    right. right. by exists j, e, g, a.
  - intros faces blended H1 H2 Ht.
    by rewrite (build_no_face _ _ _ _ _ _ _ H1 H2 Ht).
Qed.

(** A name without separator resolves, if at all, into the managed
    directory. *)
Lemma matching_checkpoint_managed name w p w' :
  PyStr.mem os_path_sep name = false →
  matching_checkpoint host name w = (Returned (Some p), w') →
  in_managed_dir host p.
Proof.
  intros Hsep. unfold matching_checkpoint. rewrite Hsep.
  assert (∀ ext, PyStr.mem os_path_sep ext = false →
            in_managed_dir host (os_path_join dir (name +:+ ext))) as Hjoin.
  { intros ext Hext. right. exists (name +:+ ext).
    assert (PyStr.mem os_path_sep (name +:+ ext) = false) as Hne
      by (by rewrite PyStrFacts.mem_app, Hsep).
    split; [done|]. by apply PathFacts.join_child. }
  destruct (negb _); cbn [probe_extensions]; unfold bind, os_path_exists, ret;
    intros H.
  - destruct (get_checkpoint_path_cases host w) as [E|E]; rewrite E in H;
      [done|].
    destruct (files (with_dir host w) !! _);
      [injection H as <- _; by apply Hjoin|].
    destruct (get_checkpoint_path_cases host (with_dir host w)) as [E'|E'];
      rewrite E' in H; [done|].
    rewrite with_dir_idemp in H.
    destruct (files (with_dir host w) !! _); [|done].
    injection H as <- _; by apply Hjoin.
  - destruct (get_checkpoint_path_cases host w) as [E|E]; rewrite E in H;
      [done|].
    injection H as <- _. rewrite <-(PyStrFacts.app_nil_r name). by apply Hjoin.
Qed.

Lemma path_managed name j :
  PyStr.mem os_path_sep name = false → in_managed_dir host (path name j).
Proof.
  intros Hname. right. exists (candidate name j).
  split; [by apply CandidateFacts.candidate_no_sep|done].
Qed.

Lemma png_managed name j :
  PyStr.mem os_path_sep name = false →
  in_managed_dir host (path name j +:+ ".png").
Proof.
  intros Hname. right. exists (candidate name j +:+ ".png"). split.
  - by rewrite PyStrFacts.mem_app, CandidateFacts.candidate_no_sep.
  - unfold candidate_path. by rewrite !PyStrFacts.app_assoc.
Qed.

(** C10. A sanitised name holds no path separator.  So it never takes the
    verbatim branch of [matching_checkpoint]: whatever path it resolves to
    lies in the managed directory.  And whatever the workflow creates or
    changes, the checkpoint and its preview, lies in the managed
    directory. *)
Theorem sanitized_name_in_managed_dir (name : string) :
  PyStr.mem os_path_sep (sanitize_name name) = false ∧
  (∀ w p,
      (matching_checkpoint host (sanitize_name name) w).1 = Returned (Some p) →
      in_managed_dir host p) ∧
  (∀ fuel batch_files overwrite w p,
      files
        (build_face_checkpoint_and_save host fuel batch_files name overwrite
           w).2 !! p
      ≠ files w !! p →
      in_managed_dir host p).
Proof.
  split_and!.
  - apply sanitize_name_no_sep.
  - intros w p Hres.
    destruct (matching_checkpoint host (sanitize_name name) w) as [r w'] eqn:Hm.
    cbn [fst] in Hres. subst r.
    eapply matching_checkpoint_managed; [apply sanitize_name_no_sep|done].
  - intros fuel batch_files overwrite w p.
    pose proof (CandidateFacts.checkpoint_name_no_sep name) as Hname.
    assert (∀ q, files (with_dir host w) !! q ≠ files w !! q →
                 in_managed_dir host q) as Hdir.
    { intros q Hq. left. destruct (decide (q = dir)) as [->|Hne]; [done|].
      by rewrite with_dir_lookup_ne in Hq. }
    destruct (build_face_checkpoint_and_save _ _ _ _ _ _) as [r w'] eqn:Hb.
    cbn [snd].
    apply build_anatomy in Hb
        as [[_ [-> | ->]]|[(j & e & g & a & _ & ->)
                          |(j & e & g & a & img & _ & ->)]].
    + done.
    + apply Hdir.
    + destruct (decide (p = path (checkpoint_name name) j)) as [->|Hne];
        [intros _; by apply path_managed|].
      rewrite lookup_insert_ne by done. apply Hdir.
    + destruct (decide (p = path (checkpoint_name name) j +:+ ".png"))
        as [->|Hne1]; [intros _; by apply png_managed|].
      destruct (decide (p = path (checkpoint_name name) j)) as [->|Hne2];
        [intros _; by apply path_managed|].
      rewrite !lookup_insert_ne by done. apply Hdir.
Qed.

End Build.

(** C7, as the code has it. With no wildcard character of [glob] in the
    path of the managed directory, [get_face_checkpoints] returns ["None"]
    followed by the names of the entries of the managed directory that end
    in [.safetensors] or [.pkl] and do not start with a dot, each once, the
    two extensions merged and the whole sorted lexicographically; for a
    directory with [b.pkl], [a.safetensors] and [c.safetensors] that is
    ["None"], [a.safetensors], [b.pkl], [c.safetensors]. *)
Theorem get_face_checkpoints_sorted_listing :
  (∀ (ndarray PILImage : Type) (host : Host ndarray PILImage)
     (w : world ndarray PILImage),
      glob_has_magic (checkpoint_dir host) = false →
      dir_usable host w →
      ∃ names,
        (get_face_checkpoints host w).1 = Returned ("None" :: names) ∧
        Sorted String.le names ∧ NoDup names ∧
        ∀ n, n ∈ names ↔ listed host (files w) n) ∧
  (get_face_checkpoints Demo.host Demo.listing_world).1
  = Returned ["None"; "a.safetensors"; "b.pkl"; "c.safetensors"].
Proof.
  split.
  - intros ndarray PILImage host w _ Hok.
    by apply ListingFacts.get_face_checkpoints_listing.
  - vm_compute. reflexivity.
Qed.

(** ** The statements at work on the small installation *)

Ltac run := vm_compute; first [reflexivity | discriminate | lia | eauto].

Lemma demo_dir_usable : dir_usable Demo.host Demo.world0.
Proof. intros c. run. Qed.

Lemma sanitize_name_spec_witness : sanitize_name "My Face" = "My_Face".
Proof.
  exact (proj2 (proj2 (proj2 (sanitize_name_spec "My Face"))) "My" "Face"
           eq_refl).
Defined.

Lemma matching_checkpoint_spec_witness :
  (matching_checkpoint Demo.host "alpha" Demo.world0).1
  = Returned (Some "/sd/models/faceswaplab/faces/alpha.safetensors").
Proof.
  exact (matching_checkpoint_spec Demo.host "alpha" Demo.world0
           (or_introl demo_dir_usable)).
Defined.

Lemma load_face_absent_unsupported_witness :
  (load_face Demo.host "nobody" Demo.world0).1 = Returned None ∧
  ∃ msg, (load_face Demo.host "/tmp/face.bin" Demo.world0).1
         = Raised (NotImplementedError msg).
Proof.
  split.
  - apply (proj1 (load_face_absent_unsupported Demo.host "nobody" Demo.world0
                    (or_introl demo_dir_usable))).
    run.
  - apply (proj1 (proj2 (proj2
             (load_face_absent_unsupported Demo.host "/tmp/face.bin"
                Demo.world0 (or_introl demo_dir_usable))))).
    exists "/tmp/face.bin". split_and!; run.
Defined.

Lemma demo_first_free_alpha :
  first_free Demo.host (files Demo.world0) (checkpoint_name "alpha") 2.
Proof.
  split; [|run]. intros [|[|i]] Hi; [run..|lia].
Qed.

Lemma build_probes_first_free_witness :
  (∃ res,
      (build_face_checkpoint_and_save Demo.host 10 (Some ["a.png"]) "alpha"
         false Demo.world0).1 = Returned res) ∧
  files
    (build_face_checkpoint_and_save Demo.host 10 (Some ["a.png"]) "alpha"
       false Demo.world0).2
    !! "/sd/models/faceswaplab/faces/alpha_2.safetensors"
  = Some (File (Safetensors
                  (checkpoint_tensors [3; -1; 4]%Z [0%Z] [30%Z]))).
Proof.
  destruct (build_probes_first_free Demo.host 10 (Some ["a.png"]) "alpha"
              Demo.world0 [Demo.face] Demo.face (Some "woman")
              [3; -1; 4]%Z [0%Z] [30%Z]
              ltac:(run) ltac:(run) ltac:(run) ltac:(run) ltac:(run)
              ltac:(run) ltac:(run) demo_dir_usable ltac:(run))
    as (j & Hfree & Hres & Hfile).
  rewrite (first_free_unique _ _ _ _ _ Hfree demo_first_free_alpha) in Hfile.
  split; [exact Hres|exact Hfile].
Defined.

Lemma build_overwrite_or_suffix_witness :
  files
    (build_face_checkpoint_and_save Demo.host 10 (Some ["a.png"]) "alpha"
       true Demo.world0).2
    !! "/sd/models/faceswaplab/faces/alpha.safetensors"
  = Some (File (Safetensors
                  (checkpoint_tensors [3; -1; 4]%Z [0%Z] [30%Z]))) ∧
  files
    (build_face_checkpoint_and_save Demo.host 10 (Some ["a.png"]) "alpha"
       false Demo.world0).2
    !! "/sd/models/faceswaplab/faces/alpha_2.safetensors"
  = Some (File (Safetensors
                  (checkpoint_tensors [3; -1; 4]%Z [0%Z] [30%Z]))).
Proof.
  destruct (build_overwrite_or_suffix Demo.host 10 (Some ["a.png"]) "alpha"
              Demo.world0 [Demo.face] Demo.face (Some "woman")
              [3; -1; 4]%Z [0%Z] [30%Z]
              ltac:(run) ltac:(run) ltac:(run) ltac:(run) ltac:(run)
              ltac:(run) ltac:(run) demo_dir_usable ltac:(run))
    as (Hover & j & Hfree & Hfile).
  rewrite (first_free_unique _ _ _ _ _ Hfree demo_first_free_alpha) in Hfile.
  split; [apply Hover; run|exact Hfile].
Defined.

Lemma load_face_legacy_migrates_witness :
  (load_face Demo.host "old" Demo.legacy_world).1 = Returned (Some Demo.face) ∧
  log (load_face Demo.host "old" Demo.legacy_world).2 = legacy_log ∧
  files (load_face Demo.host "old" Demo.legacy_world).2
    !! "/sd/models/faceswaplab/faces/old.safetensors"
  = Some (File (Safetensors
                  (checkpoint_tensors [3; -1; 4]%Z [0%Z] [30%Z]))) ∧
  ∃ migrated,
    (load_face Demo.host "/sd/models/faceswaplab/faces/old.safetensors"
       (load_face Demo.host "old" Demo.legacy_world).2).1
    = Returned (Some migrated) ∧
    dom migrated = {["embedding"; "age"; "gender"]} ∧
    migrated !! "embedding" = Demo.face !! "embedding" ∧
    migrated !! "age" = Demo.face !! "age" ∧
    migrated !! "gender" = Demo.face !! "gender".
Proof.
  apply (load_face_legacy_migrates Demo.host "old"
           "/sd/models/faceswaplab/faces/old" Demo.legacy_world Demo.face
           [3; -1; 4]%Z [0%Z] [30%Z]); run.
Defined.

Lemma get_face_checkpoints_sorted_listing_witness :
  ∃ names,
    (get_face_checkpoints Demo.host Demo.listing_world).1
    = Returned ("None" :: names) ∧
    Sorted String.le names ∧ NoDup names ∧
    ∀ n, n ∈ names ↔ listed Demo.host (files Demo.listing_world) n.
Proof.
  apply (proj1 get_face_checkpoints_sorted_listing); [run|]. intros c. run.
Defined.

Lemma build_none_writes_witness :
  files (build_face_checkpoint_and_save Demo.host 10 None "alpha" false
           Demo.world0).2
  = files Demo.world0.
Proof.
  apply (proj2 (build_none_writes Demo.host 10 None "alpha" false Demo.world0
                  ltac:(run)) [] None); run.
Defined.

Lemma sanitized_name_in_managed_dir_witness :
  in_managed_dir Demo.host "/sd/models/faceswaplab/faces/alpha.safetensors".
Proof.
  apply (proj1 (proj2 (sanitized_name_in_managed_dir Demo.host "al/pha"))
           Demo.world0). run.
Defined.

(** ** Where the specification and the code part *)

(** C5: the legacy load returns the pickled descriptor with its bounding
    box, which the migrated file does not hold. *)
Lemma load_face_legacy_differs_from_migrated :
  ∃ legacy migrated,
    (load_face Demo.host "old" Demo.legacy_world).1 = Returned (Some legacy) ∧
    (load_face Demo.host "old.safetensors"
       (load_face Demo.host "old" Demo.legacy_world).2).1
    = Returned (Some migrated) ∧
    legacy ≠ migrated.
Proof.
  exists Demo.face,
    (<["age" := [30%Z]]> (<["gender" := [0%Z]]> {["embedding" := [3; -1; 4]%Z]})).
  split_and!; [run..|].
  intros Heq. apply (f_equal (λ m : Face (list Z), m !! "bbox")) in Heq.
  vm_compute in Heq. discriminate.
Qed.

(** C6: the name [ghost.pkl] resolves to a path at which no file is, and
    [load_face] does not return [None]: it raises [FileNotFoundError]. *)
Lemma load_face_no_file_raises :
  resolve_path Demo.host (files Demo.world0) "ghost.pkl"
  = Some "/sd/models/faceswaplab/faces/ghost.pkl" ∧
  files Demo.world0 !! "/sd/models/faceswaplab/faces/ghost.pkl" = None ∧
  (load_face Demo.host "ghost.pkl" Demo.world0).1
  = Raised (FileNotFoundError "/sd/models/faceswaplab/faces/ghost.pkl") ∧
  (load_face Demo.host "ghost.pkl" Demo.world0).1 ≠ Returned None.
Proof. split_and!; run. Qed.

(** C7: [b.pkl] is listed between the two current-format files. *)
Lemma get_face_checkpoints_not_by_extension :
  (get_face_checkpoints Demo.host Demo.listing_world).1
  ≠ Returned ["None"; "a.safetensors"; "c.safetensors"; "b.pkl"].
Proof. vm_compute. discriminate. Qed.

(** C8: the preview cannot be saved; the workflow returns [None] and the
    checkpoint written just before stays. *)
Lemma build_none_after_checkpoint_written :
  (build_face_checkpoint_and_save Demo.host 10 (Some ["a.png"]) "beta" false
     Demo.blocked_preview_world).1 = Returned None ∧
  files Demo.blocked_preview_world
    !! "/sd/models/faceswaplab/faces/beta.safetensors" = None ∧
  files
    (build_face_checkpoint_and_save Demo.host 10 (Some ["a.png"]) "beta" false
       Demo.blocked_preview_world).2
    !! "/sd/models/faceswaplab/faces/beta.safetensors"
  = Some (File (Safetensors
                  (checkpoint_tensors [3; -1; 4]%Z [0%Z] [30%Z]))).
Proof. split_and!; run. Qed.

(** C9: with overwrite the existing [alpha.safetensors] is replaced and no
    suffix is tried; without it the existing file stays and the checkpoint
    goes to [alpha_2.safetensors]. *)
Lemma build_overwrite_appends_no_suffix :
  (files
     (build_face_checkpoint_and_save Demo.host 10 (Some ["a.png"]) "alpha"
        true Demo.world0).2
     !! "/sd/models/faceswaplab/faces/alpha.safetensors"
   = Some (File (Safetensors
                   (checkpoint_tensors [3; -1; 4]%Z [0%Z] [30%Z]))) ∧
   files
     (build_face_checkpoint_and_save Demo.host 10 (Some ["a.png"]) "alpha"
        true Demo.world0).2
     !! "/sd/models/faceswaplab/faces/alpha_2.safetensors" = None) ∧
  (files
     (build_face_checkpoint_and_save Demo.host 10 (Some ["a.png"]) "alpha"
        false Demo.world0).2
     !! "/sd/models/faceswaplab/faces/alpha.safetensors"
   = Some (File (Blob "a")) ∧
   files
     (build_face_checkpoint_and_save Demo.host 10 (Some ["a.png"]) "alpha"
        false Demo.world0).2
     !! "/sd/models/faceswaplab/faces/alpha_2.safetensors"
   = Some (File (Safetensors
                   (checkpoint_tensors [3; -1; 4]%Z [0%Z] [30%Z])))).
Proof. split_and!; run. Qed.

(** * Further properties of the code *)

(** ** [sanitize_name] on names that are already clean *)

Module SanitizeFacts.

Import PyStrFacts.

Lemma stem_class_name_class c : stem_class c = true → name_class c = true.
Proof. unfold name_class. fold (stem_class c). by intros ->. Qed.

Lemma all_impl (p q : ascii → bool) s :
  (∀ c, p c = true → q c = true) →
  PyStr.all p s = true → PyStr.all q s = true.
Proof.
  intros Hpq. induction s as [|c s IH]; [done|]. simpl.
  intros [Hc Hs]%andb_prop. by rewrite (Hpq c Hc), IH.
Qed.

Lemma re_sub_delete_id keep s :
  PyStr.all keep s = true → PyStr.re_sub_delete keep s = s.
Proof.
  induction s as [|c s IH]; [done|]. simpl.
  intros [-> Hs]%andb_prop. by rewrite IH.
Qed.

Lemma replace_char_id o new s :
  PyStr.mem o s = false → PyStr.replace s (String o "") new = s.
Proof.
  induction s as [|c s IH]; [done|]. simpl.
  intros [Hc Hs]%orb_false_elim. by rewrite replace_char_cons, Hc, IH.
Qed.

Lemma sanitize_name_clean s :
  PyStr.all stem_class s = true → String.length s ≤ 255 →
  sanitize_name s = s.
Proof.
  intros Hall Hlen. unfold sanitize_name.
  rewrite re_sub_delete_id by (by eapply all_impl, Hall; apply stem_class_name_class).
  rewrite replace_char_id by (by apply all_not_mem with stem_class).
  by apply take_ge.
Qed.

Lemma checkpoint_name_nonempty name : checkpoint_name name ≠ "".
Proof.
  unfold checkpoint_name.
  by destruct (String.eqb_spec (sanitize_name name) "").
Qed.

End SanitizeFacts.

(** X1. The names [sanitize_name] leaves as they are are exactly the names of
    at most 255 characters, all in [[A-Za-z0-9_.]]. *)
Theorem sanitize_name_fixed_iff (name : string) :
  sanitize_name name = name ↔
  PyStr.all stem_class name = true ∧ String.length name ≤ 255.
Proof.
  split.
  - intros Heq. rewrite <-Heq. split.
    + apply sanitize_name_stem_class.
    + apply PyStrFacts.take_length.
  - intros [Hall Hlen]. by apply SanitizeFacts.sanitize_name_clean.
Qed.

(** X2. [sanitize_name] is idempotent: a sanitised name is not changed by
    sanitising it again. *)
Theorem sanitize_name_idempotent (name : string) :
  sanitize_name (sanitize_name name) = sanitize_name name.
Proof.
  apply SanitizeFacts.sanitize_name_clean.
  - apply sanitize_name_stem_class.
  - apply PyStrFacts.take_length.
Qed.

(** X3. The stem the workflow uses for its files is never empty, holds only
    characters of [[A-Za-z0-9_.]], so no path separator, and is at most 255
    characters long: an empty sanitised name becomes [default_name]. *)
Theorem checkpoint_name_wellformed (name : string) :
  checkpoint_name name ≠ "" ∧
  PyStr.all stem_class (checkpoint_name name) = true ∧
  PyStr.mem os_path_sep (checkpoint_name name) = false ∧
  String.length (checkpoint_name name) ≤ 255 ∧
  (sanitize_name name ≠ "" → checkpoint_name name = sanitize_name name).
Proof.
  unfold checkpoint_name.
  destruct (String.eqb_spec (sanitize_name name) "") as [Heq|Hne].
  - split_and!; [done|done|done|simpl; lia|by intros []].
  - split_and!; [done|apply sanitize_name_stem_class|apply sanitize_name_no_sep
                |apply PyStrFacts.take_length|done].
Qed.

(** ** The managed directory and path resolution *)

Section StoreExtras.

Context {ndarray PILImage : Type}.
Variable host : Host ndarray PILImage.
Local Abbreviation dir := (checkpoint_dir host).
Implicit Types w : world ndarray PILImage.
Implicit Types face : Face ndarray.

Lemma checkpoint_dir_eq :
  dir = dir_prefix (scripts_basedir host) +:+ "models/faceswaplab/faces".
Proof.
  unfold checkpoint_dir, os_path_join. simpl PyStr.startswith. cbv iota.
  rewrite PathFacts.dir_prefix_app by (simpl; lia || done).
  rewrite PathFacts.dir_prefix_app by (simpl; lia || done).
  by rewrite !PyStrFacts.app_assoc.
Qed.

Lemma dir_ne_legacy stem : dir ≠ stem +:+ ".pkl".
Proof.
  unfold checkpoint_dir. unfold os_path_join at 1. simpl PyStr.startswith.
  cbv iota.
  change (dir_prefix ?x +:+ "faces") with (dir_prefix x +:+ ("f" +:+ "aces")).
  rewrite <-PyStrFacts.app_assoc. by apply PathFacts.app_ne_suffix.
Qed.

(** The regular files are the same once the managed directory is there. *)
Lemma with_dir_lookup_File w p c :
  files (with_dir host w) !! p = Some (File c) ↔ files w !! p = Some (File c).
Proof.
  unfold with_dir. destruct (files w !! dir) eqn:Hd; [done|]. cbn [files].
  destruct (decide (dir = p)) as [<-|Hne].
  - by rewrite lookup_insert_eq, Hd.
  - by rewrite lookup_insert_ne.
Qed.

(** X4. With neither the path of the managed directory nor that of a
    directory above it taken by a file, [get_checkpoint_path] returns
    [basedir/models/faceswaplab/faces] and the directory is there
    afterwards.  No file is made, changed or removed, no path changes but
    that of the managed directory and those above it, the log is as before,
    and a second call changes nothing at all. *)
Theorem get_checkpoint_path_creates_once w :
  dir_makeable host w →
  dir = dir_prefix (scripts_basedir host) +:+ "models/faceswaplab/faces" ∧
  (get_checkpoint_path host w).1 = Returned dir ∧
  files (get_checkpoint_path host w).2 !! dir = Some Dir ∧
  (∀ p c, files (get_checkpoint_path host w).2 !! p = Some (File c) ↔
          files w !! p = Some (File c)) ∧
  (∀ p, p ≠ dir → ¬ above p dir →
        files (get_checkpoint_path host w).2 !! p = files w !! p) ∧
  log (get_checkpoint_path host w).2 = log w ∧
  get_checkpoint_path host (get_checkpoint_path host w).2
  = (Returned dir, (get_checkpoint_path host w).2).
Proof.
  intros Hmk.
  assert (dir_usable host w) as Hok.
  { intros c. apply Hmk. by left. }
  rewrite (get_checkpoint_path_usable host w Hok). cbn [fst snd].
  split_and!.
  - apply checkpoint_dir_eq.
  - done.
  - by apply with_dir_lookup_dir.
  - intros p c. apply with_dir_lookup_File.
  - intros p Hp _. by apply with_dir_lookup_ne.
  - apply with_dir_log.
  - rewrite get_checkpoint_path_usable by (by apply with_dir_usable).
    by rewrite with_dir_idemp.
Qed.

(** X5. With a regular file at the path of the managed directory, every
    operation that needs the directory raises [FileExistsError] and leaves
    the world as it is: [get_checkpoint_path], [get_face_checkpoints], and
    [matching_checkpoint] and [load_face] on a name without separator. *)
Theorem blocked_directory_raises w c (name : string) :
  files w !! dir = Some (File c) →
  PyStr.mem os_path_sep name = false →
  get_checkpoint_path host w = (Raised (FileExistsError dir), w) ∧
  get_face_checkpoints host w = (Raised (FileExistsError dir), w) ∧
  matching_checkpoint host name w = (Raised (FileExistsError dir), w) ∧
  load_face host name w = (Raised (FileExistsError dir), w).
Proof.
  intros Hfile Hsep.
  pose proof (get_checkpoint_path_blocked host w c Hfile) as Hgcp.
  assert (matching_checkpoint host name w = (Raised (FileExistsError dir), w))
    as Hm.
  { unfold matching_checkpoint. rewrite Hsep.
    destruct (negb _); cbn [probe_extensions];
      by rewrite (bind_raised _ _ _ _ _ Hgcp). }
  split_and!; [done| |done|].
  - unfold get_face_checkpoints. by rewrite (bind_raised _ _ _ _ _ Hgcp).
  - unfold load_face. by rewrite (bind_raised _ _ _ _ _ Hm).
Qed.

(** X6. What [matching_checkpoint] returns always holds a path separator,
    so that resolving it again, in any state of the disk, returns it as it
    is: resolution is idempotent. *)
Theorem matching_checkpoint_idempotent (name : string) w p :
  (matching_checkpoint host name w).1 = Returned (Some p) →
  PyStr.mem os_path_sep p = true ∧
  ∀ w', matching_checkpoint host p w' = (Returned (Some p), w').
Proof.
  intros Hres.
  destruct (matching_checkpoint host name w) as [r w2] eqn:Hm.
  cbn [fst] in Hres. subst r.
  pose proof (matching_checkpoint_has_sep host _ _ _ _ Hm) as Hsep.
  split; [done|]. intros w'. by apply matching_checkpoint_verbatim.
Qed.

(** X7. [matching_checkpoint] writes no file and logs nothing: the regular
    files are the same before and after, and no path changes but that of the
    managed directory and those above it, which its [makedirs] may make.  It
    raises only on a name without separator, and then leaves the world as
    it found it. *)
Theorem matching_checkpoint_effect (name : string) w :
  log (matching_checkpoint host name w).2 = log w ∧
  (∀ p c, files (matching_checkpoint host name w).2 !! p = Some (File c) ↔
          files w !! p = Some (File c)) ∧
  (∀ p, p ≠ dir → ¬ above p dir →
        files (matching_checkpoint host name w).2 !! p = files w !! p) ∧
  (∀ e, (matching_checkpoint host name w).1 = Raised e →
        PyStr.mem os_path_sep name = false ∧
        (matching_checkpoint host name w).2 = w).
Proof.
  destruct (matching_checkpoint host name w) as [r w2] eqn:Hm. cbn [fst snd].
  pose proof (matching_checkpoint_world host _ _ _ _ Hm) as Hw.
  split_and!.
  - destruct Hw as [-> | ->]; [done|apply with_dir_log].
  - intros p c. destruct Hw as [-> | ->]; [done|apply with_dir_lookup_File].
  - intros p Hp _. destruct Hw as [-> | ->]; [done|by apply with_dir_lookup_ne].
  - intros e ->.
    destruct (PyStr.mem os_path_sep name) eqn:Hsep.
    { by rewrite matching_checkpoint_verbatim in Hm. }
    split; [done|].
    destruct (files w !! dir) as [[|c]|] eqn:Hd.
    + assert (dir_usable host w) as Hok by (intros c; by rewrite Hd).
      destruct (PyStr.endswith name ".safetensors" || PyStr.endswith name ".pkl")
        eqn:Hext.
      * by rewrite matching_checkpoint_with_ext in Hm.
      * by rewrite matching_checkpoint_probe in Hm.
    + pose proof (get_checkpoint_path_blocked host w c Hd) as Hgcp.
      unfold matching_checkpoint in Hm. rewrite Hsep in Hm.
      destruct (negb _); cbn [probe_extensions] in Hm;
        rewrite (bind_raised _ _ _ _ _ Hgcp) in Hm; by injection Hm.
    + assert (dir_usable host w) as Hok by (intros c; by rewrite Hd).
      destruct (PyStr.endswith name ".safetensors" || PyStr.endswith name ".pkl")
        eqn:Hext.
      * by rewrite matching_checkpoint_with_ext in Hm.
      * by rewrite matching_checkpoint_probe in Hm.
Qed.

End StoreExtras.

(** ** Saving and loading: errors and repeated loads *)

Module ReplaceFacts.

Import PyStrFacts.

Lemma startswith_before_pkl_more x b :
  x ≠ "" →
  PyStr.startswith (x +:+ ".pkl" +:+ b) ".pkl" = PyStr.startswith x ".pkl".
Proof.
  intros Hx. by destruct x as [|c1 [|c2 [|c3 [|c4 x]]]]; [|reflexivity..].
Qed.

(** The first occurrence of [.pkl] is replaced and the replacement goes on
    after it. *)
Lemma replace_pkl_first a b :
  PyStr.contains a ".pkl" = false →
  PyStr.replace (a +:+ ".pkl" +:+ b) ".pkl" ".safetensors"
  = a +:+ ".safetensors" +:+ PyStr.replace b ".pkl" ".safetensors".
Proof.
  unfold PyStr.replace. induction a as [|c a IH]; [done|].
  rewrite contains_unfold. intros [Hhere Hlater]%orb_false_elim.
  change (String c a +:+ ".pkl" +:+ b) with (String c (a +:+ ".pkl" +:+ b)).
  cbn [PyStr.replace_from].
  change (String c (a +:+ ".pkl" +:+ b)) with (String c a +:+ ".pkl" +:+ b).
  rewrite startswith_before_pkl_more, Hhere by done.
  by rewrite IH.
Qed.

End ReplaceFacts.

Section LoadExtras.

Context {ndarray PILImage : Type}.
Variable host : Host ndarray PILImage.
Local Abbreviation dir := (checkpoint_dir host).
Implicit Types w : world ndarray PILImage.
Implicit Types face : Face ndarray.

(** The fields are read in the order [embedding], [gender], [age]; the
    first one that is missing ends the save. *)
Lemma save_face_first_missing face (filename : string) w :
  face !! "embedding" = None ∨ face !! "gender" = None ∨ face !! "age" = None →
  ∃ k,
    k ∈ ["embedding"; "gender"; "age"] ∧ face !! k = None ∧
    save_face face filename w
    = (Raised (KeyError k),
       World (files w) (log w ++ [(ERROR, "Failed to save checkpoint %s")])).
Proof.
  intros Hmiss.
  unfold save_face, try_except, getitem, bind, ret, raise, logger.
  destruct (face !! "embedding") as [e|] eqn:He;
    [|exists "embedding"; split_and!; [repeat constructor|done..]].
  destruct (face !! "gender") as [g|] eqn:Hg;
    [|exists "gender"; split_and!; [repeat constructor|done..]].
  destruct (face !! "age") as [a|] eqn:Ha;
    [|exists "age"; split_and!; [repeat constructor|done..]].
  by destruct Hmiss as [?|[?|?]].
Qed.

(** X8. A descriptor that lacks one of [embedding], [gender], [age] is not
    saved: [save_face] logs the failure, raises the [KeyError] of a missing
    field again, and writes nothing, whatever is at the path. *)
Theorem save_face_missing_key face (filename : string) w :
  face !! "embedding" = None ∨ face !! "gender" = None ∨ face !! "age" = None →
  ∃ k,
    k ∈ ["embedding"; "gender"; "age"] ∧ face !! k = None ∧
    (save_face face filename w).1 = Raised (KeyError k) ∧
    files (save_face face filename w).2 = files w ∧
    log (save_face face filename w).2
    = log w ++ [(ERROR, "Failed to save checkpoint %s")].
Proof.
  intros Hmiss.
  destruct (save_face_first_missing face filename w Hmiss)
    as (k & Hk & Hnone & ->).
  by exists k.
Qed.

(** X9. A name that resolves to a path with a recognised extension where no
    file is does not give [None]: [load_face] raises [FileNotFoundError],
    and writes nothing. *)
Theorem load_face_missing_file (name : string) w p :
  (matching_checkpoint host name w).1 = Returned (Some p) →
  PyStr.endswith p ".safetensors" || PyStr.endswith p ".pkl" = true →
  files w !! p = None →
  (load_face host name w).1 = Raised (FileNotFoundError p) ∧
  (files (load_face host name w).2 = files w ∨
   files (load_face host name w).2 = files (with_dir host w)).
Proof.
  intros Hres Hext Hfile.
  destruct (matching_checkpoint host name w) as [r w2] eqn:Hm.
  cbn [fst] in Hres. subst r.
  assert (files w2 !! p = None ∧
          (files w2 = files w ∨ files w2 = files (with_dir host w)))
    as [Hfile2 Hw2].
  { destruct (matching_checkpoint_world host _ _ _ _ Hm) as [-> | ->];
      [by split; [|left]|]. split; [|by right].
    rewrite with_dir_lookup_ne; [done|]. intros ->.
    apply orb_prop in Hext as [[q Hq]%PyStrFacts.endswith_inv
                              |[q Hq]%PyStrFacts.endswith_inv].
    - by apply (PathFacts.dir_ne_current host q).
    - by apply (dir_ne_legacy host q). }
  unfold load_face. rewrite (bind_returned _ _ _ _ _ Hm).
  destruct (PyStr.endswith p ".pkl") eqn:Hpkl.
  - unfold bind, logger, read_file. cbn [files log]. by rewrite Hfile2.
  - rewrite orb_false_r in Hext. rewrite Hext.
    unfold bind, safe_open, bind, read_file. by rewrite Hfile2.
Qed.

(** X10. [load_face] writes only when it migrates: on a name that does not
    resolve to a [.pkl] path it leaves every file as it is (the managed
    directory may have been made). *)
Theorem load_face_writes_only_legacy (name : string) w :
  (∀ p, (matching_checkpoint host name w).1 = Returned (Some p) →
        PyStr.endswith p ".pkl" = false) →
  files (load_face host name w).2 = files w ∨
  files (load_face host name w).2 = files (with_dir host w).
Proof.
  intros Hnot.
  destruct (matching_checkpoint host name w) as [r w2] eqn:Hm.
  cbn [fst] in Hnot.
  assert (files w2 = files w ∨ files w2 = files (with_dir host w)) as Hw2.
  { destruct (matching_checkpoint_world host _ _ _ _ Hm) as [-> | ->]; auto. }
  destruct r as [[p|]|e|].
  - specialize (Hnot p eq_refl).
    destruct (PyStr.endswith p ".safetensors") eqn:Hst.
    + destruct (files w2 !! p) as [[|[f|obj|img|raw]]|] eqn:Hfile;
        [| by rewrite (load_face_current host _ _ _ _ f Hm Hst Hfile) | ..];
        unfold load_face;
        rewrite (bind_returned _ _ _ _ _ Hm), Hnot, Hst;
        unfold bind, safe_open, bind, read_file, raise; by rewrite Hfile.
    + unfold load_face. by rewrite (bind_returned _ _ _ _ _ Hm), Hnot, Hst.
  - unfold load_face. by rewrite (bind_returned _ _ _ _ _ Hm).
  - unfold load_face. by rewrite (bind_raised _ _ _ _ _ Hm).
  - unfold load_face. by rewrite (bind_out_of_fuel _ _ _ _ Hm).
Qed.

(** X11. A legacy descriptor that lacks one of the three persisted fields
    cannot be loaded: the migration raises its [KeyError] out of
    [load_face], no descriptor is returned and no file is written. *)
Theorem load_face_legacy_missing_key (name : string) w p face :
  (matching_checkpoint host name w).1 = Returned (Some p) →
  PyStr.endswith p ".pkl" = true →
  files w !! p = Some (File (Pickle face)) →
  face !! "embedding" = None ∨ face !! "gender" = None ∨ face !! "age" = None →
  ∃ k,
    k ∈ ["embedding"; "gender"; "age"] ∧ face !! k = None ∧
    (load_face host name w).1 = Raised (KeyError k) ∧
    (files (load_face host name w).2 = files w ∨
     files (load_face host name w).2 = files (with_dir host w)).
Proof.
  intros Hres Hext Hfile Hmiss.
  destruct (matching_checkpoint host name w) as [r w2] eqn:Hm.
  cbn [fst] in Hres. subst r.
  assert (files w2 !! p = Some (File (Pickle face)) ∧
          (files w2 = files w ∨ files w2 = files (with_dir host w)))
    as [Hfile2 Hw2].
  { destruct (matching_checkpoint_world host _ _ _ _ Hm) as [-> | ->];
      [by split; [|left]|]. split; [|by right].
    by apply with_dir_lookup_Some. }
  destruct (load_face host name w) as [r w3] eqn:Hl.
  unfold load_face in Hl. rewrite (bind_returned _ _ _ _ _ Hm), Hext in Hl.
  unfold bind, logger, read_file, pickle_load, ret in Hl.
  cbn [files log] in Hl. rewrite Hfile2 in Hl.
  match type of Hl with
  | context [save_face face ?t ?w0] =>
      destruct (save_face_first_missing face t w0 Hmiss)
        as (k & Hk & Hnone & Hs);
      rewrite Hs in Hl
  end.
  injection Hl as <- <-. exists k. by split_and!.
Qed.

End LoadExtras.

Section MigrationExtras.

Context {ndarray PILImage : Type}.
Variable host : Host ndarray PILImage.
Local Abbreviation dir := (checkpoint_dir host).
Implicit Types w : world ndarray PILImage.
Implicit Types face : Face ndarray.

(** X12. The migration replaces every [.pkl] of the resolved path, not only
    the extension: for a legacy file [a.pklb.pkl], with no further [.pkl] in
    [a] and [b] and no separator in [b] (both files are in one directory),
    the current-format file is written to [a.safetensorsb.safetensors], and
    nothing is written at [a.pklb.safetensors], the path with the extension
    alone replaced. *)
Theorem load_face_legacy_replaces_all (name a b : string) w face e g u :
  (matching_checkpoint host name w).1
  = Returned (Some (a +:+ ".pkl" +:+ b +:+ ".pkl")) →
  PyStr.contains a ".pkl" = false →
  PyStr.contains b ".pkl" = false →
  PyStr.mem os_path_sep b = false →
  files w !! (a +:+ ".pkl" +:+ b +:+ ".pkl") = Some (File (Pickle face)) →
  face !! "embedding" = Some e →
  face !! "gender" = Some g →
  face !! "age" = Some u →
  files w !! (a +:+ ".safetensors" +:+ b +:+ ".safetensors") ≠ Some Dir →
  (load_face host name w).1 = Returned (Some face) ∧
  files (load_face host name w).2
    !! (a +:+ ".safetensors" +:+ b +:+ ".safetensors")
  = Some (File (Safetensors (checkpoint_tensors e g u))) ∧
  files (load_face host name w).2 !! (a +:+ ".pkl" +:+ b +:+ ".safetensors")
  = files w !! (a +:+ ".pkl" +:+ b +:+ ".safetensors").
Proof.
  intros Hres Ha Hb _ Hfile He Hg Hu Hdir.
  destruct (matching_checkpoint host name w) as [o w2] eqn:Hm.
  cbn [fst] in Hres. subst o.
  assert (PyStr.replace (a +:+ ".pkl" +:+ b +:+ ".pkl") ".pkl" ".safetensors"
          = a +:+ ".safetensors" +:+ b +:+ ".safetensors") as Hrep.
  { rewrite ReplaceFacts.replace_pkl_first by done.
    by rewrite PyStrFacts.replace_pkl_suffix. }
  assert (a +:+ ".safetensors" +:+ b +:+ ".safetensors" ≠ dir) as Hne1.
  { intros Heq. apply (PathFacts.dir_ne_current host (a +:+ ".safetensors" +:+ b)).
    by rewrite !PyStrFacts.app_assoc. }
  assert (a +:+ ".pkl" +:+ b +:+ ".safetensors" ≠ dir) as Hne2.
  { intros Heq. apply (PathFacts.dir_ne_current host (a +:+ ".pkl" +:+ b)).
    by rewrite !PyStrFacts.app_assoc. }
  assert (files w2 !! (a +:+ ".pkl" +:+ b +:+ ".pkl") = Some (File (Pickle face))
          ∧ files w2 !! (a +:+ ".safetensors" +:+ b +:+ ".safetensors")
            ≠ Some Dir
          ∧ files w2 !! (a +:+ ".pkl" +:+ b +:+ ".safetensors")
            = files w !! (a +:+ ".pkl" +:+ b +:+ ".safetensors"))
    as (Hfile2 & Hdir2 & Hsame).
  { destruct (matching_checkpoint_world host _ _ _ _ Hm) as [-> | ->]; [done|].
    split_and!.
    - by apply with_dir_lookup_Some.
    - by rewrite with_dir_lookup_ne.
    - by rewrite with_dir_lookup_ne. }
  rewrite (load_face_legacy host _ _ _ _ face e g u Hm);
    [| rewrite <-!PyStrFacts.app_assoc; apply PyStrFacts.endswith_app
     | done.. | by rewrite Hrep].
  rewrite Hrep. cbn [fst snd files].
  split_and!; [done|apply lookup_insert_eq|].
  rewrite lookup_insert_ne; [done|].
  intros Heq%String.app_inj. discriminate Heq.
Qed.

(** X13. A legacy checkpoint is read once, when [.pkl] occurs neither in
    the path of the managed directory nor in the name: a bare name that
    resolves to [name.pkl] because there is no [name.safetensors] gives the
    pickled descriptor at the first load, which writes [name.safetensors];
    the second load of the same name resolves to the migrated file and gives
    the three persisted fields only. *)
Theorem load_face_second_load_is_migrated (name : string) w face e g u :
  dir_usable host w →
  PyStr.mem os_path_sep name = false →
  PyStr.endswith name ".safetensors" || PyStr.endswith name ".pkl" = false →
  PyStr.contains (dir +:+ "/" +:+ name) ".pkl" = false →
  files w !! (dir +:+ "/" +:+ name +:+ ".safetensors") = None →
  files w !! (dir +:+ "/" +:+ name +:+ ".pkl") = Some (File (Pickle face)) →
  face !! "embedding" = Some e →
  face !! "gender" = Some g →
  face !! "age" = Some u →
  (load_face host name w).1 = Returned (Some face) ∧
  (load_face host name (load_face host name w).2).1
  = Returned (Some (persisted_face e g u)).
Proof.
  intros Hok Hsep Hext Hcont Hnone Hfile He Hg Hu.
  assert (matching_checkpoint host name w
          = (Returned (Some ((dir +:+ "/" +:+ name) +:+ ".pkl")),
             with_dir host w)) as Hm.
  { rewrite matching_checkpoint_probe by done. rewrite Hnone, Hfile.
    by rewrite !PyStrFacts.app_assoc. }
  assert (PyStr.replace ((dir +:+ "/" +:+ name) +:+ ".pkl") ".pkl" ".safetensors"
          = dir +:+ "/" +:+ name +:+ ".safetensors") as Hrep.
  { rewrite PyStrFacts.replace_pkl_suffix by done.
    by rewrite !PyStrFacts.app_assoc. }
  rewrite (load_face_legacy host _ _ _ _ face e g u Hm);
    [| apply PyStrFacts.endswith_app
     | rewrite PyStrFacts.app_assoc;
       by rewrite with_dir_lookup_ne by apply PathFacts.child_ne_dir
     | done..
     | rewrite Hrep;
       by rewrite with_dir_lookup_ne, Hnone by apply PathFacts.child_ne_dir].
  rewrite Hrep. cbn [fst snd]. split; [done|].
  set (w3 := World _ _).
  assert (dir_usable host w3) as Hok3.
  { intros c. unfold w3. cbn [files].
    rewrite lookup_insert_ne by apply PathFacts.child_ne_dir.
    by rewrite with_dir_lookup_dir. }
  assert (files w3 !! (dir +:+ "/" +:+ name +:+ ".safetensors")
          = Some (File (Safetensors (checkpoint_tensors e g u)))) as Hfile3
    by apply lookup_insert_eq.
  assert (matching_checkpoint host name w3
          = (Returned (Some (dir +:+ "/" +:+ name +:+ ".safetensors")),
             with_dir host w3)) as Hm3.
  { rewrite matching_checkpoint_probe by done. by rewrite Hfile3. }
  rewrite (load_face_current host _ _ _ _ (checkpoint_tensors e g u) Hm3).
  - cbn [fst]. by rewrite loaded_fields.
  - rewrite <-!PyStrFacts.app_assoc. apply PyStrFacts.endswith_app.
  - by apply with_dir_lookup_Some.
Qed.

End MigrationExtras.

(** ** The listing: empty directories and what is never listed *)

Section ListingExtras.

Context {ndarray PILImage : Type}.
Variable host : Host ndarray PILImage.
Local Abbreviation dir := (checkpoint_dir host).
Implicit Types w : world ndarray PILImage.

(** X14. With no wildcard character of [glob] in the path of the managed
    directory: when the directory holds no entry with one of the two
    extensions (a fresh installation, say), the listing is the sentinel
    alone. *)
Theorem get_face_checkpoints_empty w :
  glob_has_magic dir = false →
  dir_usable host w →
  (∀ n, ¬ listed host (files w) n) →
  (get_face_checkpoints host w).1 = Returned ["None"].
Proof.
  intros _ Hok Hnone.
  destruct (ListingFacts.get_face_checkpoints_listing host w Hok)
    as (names & -> & _ & _ & Hnames).
  destruct names as [|n names]; [done|].
  destruct (Hnone n). apply Hnames. by left.
Qed.

(** X15. Every listed name ends in [.safetensors] or [.pkl] and does not
    start with a dot: the sentinel ["None"] is never the name of a listed
    file, and neither preview images ([.png]) nor checkpoints with a
    leading dot are ever listed. *)
Theorem get_face_checkpoints_names w :
  dir_usable host w →
  ∃ names,
    (get_face_checkpoints host w).1 = Returned ("None" :: names) ∧
    ("None" ∉ names) ∧
    ∀ n, n ∈ names →
         (PyStr.endswith n ".safetensors" = true ∨
          PyStr.endswith n ".pkl" = true) ∧
         PyStr.endswith n ".png" = false ∧
         PyStr.startswith n "." = false.
Proof.
  intros Hok.
  destruct (ListingFacts.get_face_checkpoints_listing host w Hok)
    as (names & Hres & _ & _ & Hnames).
  exists names. split_and!; [done| |].
  - intros (_ & _ & _ & _ & [?|?])%Hnames; done.
  - intros n (_ & _ & _ & Hdot & Hext)%Hnames. split_and!; [done| |done].
    destruct Hext as [[q ->]%PyStrFacts.endswith_inv
                     |[q ->]%PyStrFacts.endswith_inv].
    + change ".safetensors" with (".safeten" +:+ "sors").
      rewrite <-PyStrFacts.app_assoc.
      rewrite PathFacts.endswith_app_long; [done|simpl; lia].
    + rewrite PathFacts.endswith_app_long; [done|simpl; lia].
Qed.

End ListingExtras.

(** ** The workflow: failures, what reaches the disk, and what follows *)

Section BuildExtras.

Context {ndarray PILImage : Type}.
Variable host : Host ndarray PILImage.
Local Abbreviation dir := (checkpoint_dir host).
Local Abbreviation path := (candidate_path host).
Implicit Types w : world ndarray PILImage.
Implicit Types face : Face ndarray.

(** X16. The workflow never raises: every exception, from a collaborator or
    from the store, is caught at its boundary. *)
Theorem build_never_raises fuel batch_files (name : string) overwrite w e :
  (build_face_checkpoint_and_save host fuel batch_files name overwrite w).1
  ≠ Raised e.
Proof.
  destruct (build_face_checkpoint_and_save _ _ _ _ _ _) as [r w'] eqn:Hb.
  cbn [fst].
  apply build_anatomy in Hb
      as [[[-> | ->] _]|[(j & ? & ? & ? & -> & _)|(j & ? & ? & ? & ? & -> & _)]];
    done.
Qed.

(** X17. When the workflow returns an image, both files are on disk: the
    checkpoint at one of the candidate paths of the name, and next to it, at
    that path with [.png] appended, the very image that is returned. *)
Theorem build_success_files fuel batch_files (name : string) overwrite w img :
  (build_face_checkpoint_and_save host fuel batch_files name overwrite w).1
  = Returned (Some img) →
  ∃ j e g a,
    files
      (build_face_checkpoint_and_save host fuel batch_files name overwrite w).2
      !! path (checkpoint_name name) j
    = Some (File (Safetensors (checkpoint_tensors e g a))) ∧
    files
      (build_face_checkpoint_and_save host fuel batch_files name overwrite w).2
      !! (path (checkpoint_name name) j +:+ ".png")
    = Some (File (Picture img)).
Proof.
  destruct (build_face_checkpoint_and_save _ _ _ _ _ _) as [r w'] eqn:Hb.
  cbn [fst snd]. intros ->.
  apply build_anatomy in Hb
      as [[[?|?] _]|[(j & ? & ? & ? & ? & _)|(j & e & g & a & ? & [= <-] & ->)]];
    try done.
  exists j, e, g, a. split.
  - rewrite lookup_insert_ne by apply png_ne. apply lookup_insert_eq.
  - apply lookup_insert_eq.
Qed.

(** X18. A blended face without [gender] makes the workflow fail before
    anything is written: the [KeyError] is caught, [None] is returned, and
    the files are as before. *)
Theorem build_missing_gender fuel batch_files (name : string) overwrite w
    faces face :
  swapper_get_faces_from_img_files host (default [] batch_files) (files w)
  = Returned faces →
  swapper_blend_faces host faces = Returned (Some face) →
  truthy (Some face) = true →
  face !! "gender" = None →
  build_face_checkpoint_and_save host fuel batch_files name overwrite w
  = (Returned None,
     World (files w)
           (log w ++ [(INFO, "Build %s %s");
                      (ERROR, "Failed to build checkpoint %s")])).
Proof.
  intros H1 H2 Ht Hg.
  unfold build_face_checkpoint_and_save, try_except, bind at 1 2 3, logger,
    reading, lift, ret.
  cbn [files log]. rewrite H1, H2, Ht.
  unfold render_preview, bind at 1 2, getitem. rewrite Hg.
  unfold raise, bind, ret. cbn [files log]. by rewrite <-app_assoc.
Qed.

(** X19. With the reference portrait of the gender missing (the references
    folder deleted, say), the workflow fails before anything is written:
    [None] is returned and the files are as before. *)
Theorem build_missing_reference fuel batch_files (name : string) overwrite w
    faces face g :
  swapper_get_faces_from_img_files host (default [] batch_files) (files w)
  = Returned faces →
  swapper_blend_faces host faces = Returned (Some face) →
  truthy (Some face) = true →
  face !! "gender" = Some g →
  files w !! reference_path host g = None →
  build_face_checkpoint_and_save host fuel batch_files name overwrite w
  = (Returned None,
     World (files w)
           (log w ++ [(INFO, "Build %s %s");
                      (ERROR, "Failed to build checkpoint %s")])).
Proof.
  intros H1 H2 Ht Hg Href.
  unfold build_face_checkpoint_and_save, try_except, bind at 1 2 3, logger,
    reading, lift, ret.
  cbn [files log]. rewrite H1, H2, Ht.
  unfold render_preview, bind at 1 2, getitem. rewrite Hg.
  unfold reference_path in Href. unfold ret at 1.
  destruct (eq_zero host g);
    unfold bind at 1, Image_open, bind at 1, read_file; cbn [files log];
    rewrite Href; unfold bind, ret; cbn [files log]; by rewrite <-app_assoc.
Qed.

(** The preview is left unbound exactly on this path of [render_preview]:
    the reference portrait opens, and no face is detected on it. *)
Lemma render_preview_no_target face w g img cv detected :
  face !! "gender" = Some g →
  files w !! reference_path host g = Some (File (Picture img)) →
  imgutils_pil_to_cv2 host img = Returned cv →
  swapper_get_faces host cv = Returned detected →
  swapper_get_or_default host detected 0 None = None →
  (render_preview host face w).1 = Returned None.
Proof.
  intros Hg Href Hcv Hdet Hnone.
  unfold render_preview, bind at 1 2, getitem. rewrite Hg.
  unfold reference_path in Href. unfold ret at 1.
  destruct (eq_zero host g);
    unfold bind at 1, Image_open, bind at 1, read_file; cbn [files log];
    rewrite Href; unfold ret at 1;
    unfold bind, logger, lift, ret; cbn [files log];
    by rewrite Hcv, Hdet, Hnone.
Qed.

(** A run that reaches the save: what [persist] does decides the result. *)
Lemma build_runs_persist fuel batch_files name overwrite w faces face pv j
    r w' :
  swapper_get_faces_from_img_files host (default [] batch_files) (files w)
  = Returned faces →
  swapper_blend_faces host faces = Returned (Some face) →
  truthy (Some face) = true →
  (render_preview host face w).1 = Returned pv →
  (∀ w0, files w0 = files w →
         select_file_path host fuel (checkpoint_name name) overwrite w0
         = (Returned (path (checkpoint_name name) j), with_dir host w0)) →
  build_face_checkpoint_and_save host fuel batch_files name overwrite w
  = (r, w') →
  ∃ w1 o wb,
    files w1 = files (with_dir host w) ∧
    persist host face pv (path (checkpoint_name name) j) w1 = (o, wb) ∧
    files w' = files wb ∧
    r = match o with
        | Returned res => Returned res
        | Raised _ => Returned None
        | OutOfFuel => OutOfFuel
        end.
Proof.
  intros H1 H2 Ht Hpv Hsel.
  unfold build_face_checkpoint_and_save, try_except.
  match goal with |- context [match ?b w with _ => _ end] => set (body := b) end.
  destruct (body w) as [o wb] eqn:Hb. subst body. intros Hbuild.
  unfold bind at 1, logger at 1 in Hb.
  apply bind_inv in Hb as [(faces' & w1 & Hf & Hb)|[(x & Hf & ->)|[Hf ->]]];
    unfold reading in Hf; cbn [files] in Hf; rewrite H1 in Hf; simplify_eq.
  apply bind_inv in Hb as [(bl & w1 & Hbl & Hb)|[(x & Hbl & ->)|[Hbl ->]]];
    unfold lift in Hbl; rewrite H2 in Hbl; simplify_eq.
  rewrite Ht in Hb.
  rewrite (reads_only_outcome _ w (World (files w) []))
    in Hpv by (done || apply reads_only_render_preview).
  apply bind_inv in Hb as [(pv' & w1 & Hpv' & Hb)|[(x & Hpv' & ->)|[Hpv' ->]]];
    rewrite (reads_only_render_preview host face) in Hpv';
    cbn [files log] in Hpv'; simplify_eq; try congruence.
  match type of Hb with
  | bind _ _ ?w0 = _ => rewrite (bind_returned _ _ _ _ _ (Hsel w0 eq_refl)) in Hb
  end.
  match type of Hb with
  | persist _ _ _ _ (with_dir host ?w0) = _ =>
      exists (with_dir host w0), o, wb;
      split; [by apply with_dir_files|]
  end.
  split; [congruence|].
  destruct o as [res|x|]; unfold bind, logger, ret in Hbuild;
    by simplify_eq.
Qed.

(** X20. When no face is detected on the reference portrait, the workflow
    logs that it cannot make the preview and goes on to save: the
    checkpoint is written at the first free candidate, then the preview,
    which was never made, cannot be saved, and [None] is returned although
    the checkpoint is on disk.  No preview file is written. *)
Theorem build_without_target_face fuel batch_files (name : string) w faces
    face e g a img cv detected :
  swapper_get_faces_from_img_files host (default [] batch_files) (files w)
  = Returned faces →
  swapper_blend_faces host faces = Returned (Some face) →
  truthy (Some face) = true →
  face !! "embedding" = Some e →
  face !! "gender" = Some g →
  face !! "age" = Some a →
  files w !! reference_path host g = Some (File (Picture img)) →
  imgutils_pil_to_cv2 host img = Returned cv →
  swapper_get_faces host cv = Returned detected →
  swapper_get_or_default host detected 0 None = None →
  dir_usable host w →
  size (files w) < fuel →
  ∃ j,
    first_free host (files w) (checkpoint_name name) j ∧
    (build_face_checkpoint_and_save host fuel batch_files name false w).1
    = Returned None ∧
    files (build_face_checkpoint_and_save host fuel batch_files name false w).2
    = <[path (checkpoint_name name) j :=
          File (Safetensors (checkpoint_tensors e g a))]>
        (files (with_dir host w)).
Proof.
  intros H1 H2 Ht He Hg Ha Href Hcv Hdet Hnone Hok Hfuel.
  destruct (first_free_exists host (files w) (checkpoint_name name))
    as (j & Hj & Hfree).
  exists j. split; [done|].
  destruct (build_face_checkpoint_and_save _ _ _ _ _ _) as [r w'] eqn:Hb.
  cbn [fst snd].
  eapply (build_runs_persist _ _ _ _ _ _ _ None j) in Hb; try done; cycle 1.
  { by eapply render_preview_no_target. }
  { intros w0 Hfs. apply select_file_path_unique.
    - by apply (dir_usable_files host w0 w).
    - apply CandidateFacts.checkpoint_name_no_sep.
    - by rewrite Hfs.
    - lia. }
  destruct Hb as (w1 & o & wb & Hw1 & Hp & -> & ->).
  apply persist_cases in Hp; [|apply path_has_sep|apply path_current].
  rewrite Hw1 in Hp.
  rewrite with_dir_lookup_ne in Hp by apply PathFacts.child_ne_dir.
  destruct Hfree as [_ Hfree]. rewrite Hfree in Hp.
  destruct Hp as [(_ & _ & Hno)|(e' & g' & a' & ? & ? & ? & _ & Hp)].
  { destruct Hno. by exists e, g, a. }
  simplify_eq.
  destruct Hp as [[[x ->] ->]|(img' & ? & _)]; [done|done].
Qed.

(** The loop returns a path that no node has. *)
Lemma probe_free_path_free fuel name k w p w' :
  PyStr.mem os_path_sep name = false →
  probe_free_path host fuel name (path name k) (S k) (with_dir host w)
  = (Returned p, w') →
  files (with_dir host w) !! p = None.
Proof.
  intros Hname. revert k.
  induction fuel as [|fuel IH]; intros k; cbn [probe_free_path]; [done|].
  unfold bind at 1, os_path_exists at 1.
  destruct (files (with_dir host w) !! path name k) eqn:Hk.
  - unfold bind at 1.
    destruct (get_checkpoint_path_cases host (with_dir host w)) as [-> | ->];
      [done|].
    rewrite with_dir_idemp.
    change (name +:+ "_" +:+ pretty (S k) +:+ ".safetensors")
      with (candidate name (S k)).
    rewrite join_candidate by done. rewrite Nat.add_1_r. apply IH.
  - by intros [= <- <-].
Qed.

Lemma select_file_path_free fuel name w p w' :
  PyStr.mem os_path_sep name = false →
  select_file_path host fuel name false w = (Returned p, w') →
  files w !! p = None.
Proof.
  intros Hname Hsel.
  destruct (select_file_path_returned host _ _ _ _ _ _ Hname Hsel) as [-> [j ->]].
  unfold select_file_path, bind in Hsel.
  destruct (get_checkpoint_path_cases host w) as [E | E]; rewrite E in Hsel;
    [done|].
  cbn [negb] in Hsel.
  change (name +:+ ".safetensors") with (candidate name 0) in Hsel.
  rewrite join_candidate in Hsel by done.
  apply probe_free_path_free in Hsel; [|done].
  by rewrite with_dir_lookup_ne in Hsel by apply PathFacts.child_ne_dir.
Qed.

(** What the workflow can do when overwrite is not requested: as
    [build_anatomy], with the candidate it writes to free beforehand. *)
Lemma build_anatomy_unique fuel batch_files name w r w' :
  build_face_checkpoint_and_save host fuel batch_files name false w
  = (r, w') →
  (files w' = files w ∨ files w' = files (with_dir host w)) ∨
  (∃ j c,
      files w !! path (checkpoint_name name) j = None ∧
      files w' = <[path (checkpoint_name name) j := c]>
                   (files (with_dir host w))) ∨
  (∃ j c c',
      files w !! path (checkpoint_name name) j = None ∧
      files w'
      = <[path (checkpoint_name name) j +:+ ".png" := c']>
          (<[path (checkpoint_name name) j := c]> (files (with_dir host w)))).
Proof.
  pose proof (CandidateFacts.checkpoint_name_no_sep name) as Hname.
  unfold build_face_checkpoint_and_save, try_except.
  match goal with |- context [match ?b w with _ => _ end] => set (body := b) end.
  destruct (body w) as [o wb] eqn:Hb. intros Hbuild.
  assert (files w' = files wb) as ->.
  { destruct o; unfold bind, logger, ret in Hbuild; by simplify_eq. }
  clear Hbuild. subst body. unfold bind at 1, logger at 1 in Hb.
  apply bind_inv in Hb as [(faces & w1 & Hf & Hb)|[(x & Hf & ->)|[Hf ->]]];
    unfold reading in Hf; simplify_eq; [|by left; left..].
  apply bind_inv in Hb as [(bl & w1 & Hbl & Hb)|[(x & Hbl & ->)|[Hbl ->]]];
    unfold lift in Hbl; simplify_eq; [|by left; left..].
  destruct bl as [bf|]; [destruct (truthy (Some bf))|];
    [|unfold bind, logger, ret in Hb; simplify_eq; by left; left..].
  apply bind_inv in Hb as [(pv & w1 & Hpv & Hb)|[(x & Hpv & ->)|[Hpv ->]]];
    rewrite (reads_only_render_preview host bf) in Hpv; simplify_eq;
    [|by left; left..].
  apply bind_inv in Hb as [(p & w2 & Hsel & Hb)|[(x & Hsel & ->)|[Hsel ->]]];
    [|apply select_file_path_any in Hsel as [[-> | ->] _];
      [by left; left|left; right; by apply with_dir_files|done]..].
  pose proof (select_file_path_free _ _ _ _ _ Hname Hsel) as Hfree.
  cbn [files] in Hfree.
  apply select_file_path_returned in Hsel as [-> [j ->]]; [|done].
  apply persist_cases in Hb; [|apply path_has_sep|apply path_current].
  match type of Hb with
  | context [files (with_dir host ?w0)] =>
      rewrite (with_dir_files host w0 w) in Hb by done
  end.
  destruct Hb as [(Hx & -> & _)|(e & g & a & _ & _ & _ & _ & Hb)].
  - by left; right.
  - destruct Hb as [[Hx ->]|(img & -> & -> & ->)].
    + right. left. by eexists j, _.
    + right. right. by eexists j, _, _.
Qed.

(** X21. When overwrite is not requested the workflow never replaces a
    checkpoint, nor anything else but possibly a preview image: whatever
    the collaborators do and however the run ends, every node that was
    there and does not end in [.png] is there afterwards, unchanged. *)
Theorem build_unique_keeps_existing fuel batch_files (name : string) w p x :
  files w !! p = Some x →
  PyStr.endswith p ".png" = false →
  files (build_face_checkpoint_and_save host fuel batch_files name false w).2
    !! p
  = Some x.
Proof.
  intros Hp Hpng.
  destruct (build_face_checkpoint_and_save _ _ _ _ _ _) as [r w'] eqn:Hb.
  cbn [snd].
  apply build_anatomy_unique in Hb
      as [[-> | ->]|[(j & c & Hfree & ->)|(j & c & c' & Hfree & ->)]].
  - done.
  - by apply with_dir_lookup_Some.
  - rewrite lookup_insert_ne by (intros <-; congruence).
    by apply with_dir_lookup_Some.
  - rewrite lookup_insert_ne.
    + rewrite lookup_insert_ne by (intros <-; congruence).
      by apply with_dir_lookup_Some.
    + intros <-. by rewrite PyStrFacts.endswith_app in Hpng.
Qed.

Lemma build_keeps_dir_usable fuel batch_files name overwrite w :
  dir_usable host w →
  dir_usable host
    (build_face_checkpoint_and_save host fuel batch_files name overwrite w).2.
Proof.
  intros Hok c.
  destruct (build_face_checkpoint_and_save _ _ _ _ _ _) as [r w'] eqn:Hb.
  cbn [snd].
  apply build_anatomy in Hb
      as [[_ [-> | ->]]|[(j & ? & ? & ? & _ & ->)
                        |(j & ? & ? & ? & ? & _ & ->)]].
  - apply Hok.
  - by rewrite with_dir_lookup_dir.
  - rewrite lookup_insert_ne by apply PathFacts.child_ne_dir.
    by rewrite with_dir_lookup_dir.
  - rewrite lookup_insert_ne.
    + rewrite lookup_insert_ne by apply PathFacts.child_ne_dir.
      by rewrite with_dir_lookup_dir.
    + unfold candidate_path. rewrite !PyStrFacts.app_assoc.
      apply PathFacts.child_ne_dir.
Qed.

Lemma startswith_app_nonempty s t pre :
  s ≠ "" → String.length pre ≤ 1 →
  PyStr.startswith (s +:+ t) pre = PyStr.startswith s pre.
Proof.
  intros Hs Hpre. destruct s as [|c s]; [done|].
  destruct pre as [|a [|b pre]]; [done| |simpl in Hpre; lia].
  simpl. by rewrite !andb_true_r.
Qed.

(** X22. With no wildcard character of [glob] in the path of the managed
    directory, a checkpoint the workflow has written appears in the listing
    that follows exactly when its name does not start with a dot: with a
    name like [.face] the file [.face.safetensors] is saved and never
    listed. *)
Theorem build_then_listed fuel batch_files (name : string) w faces face pv
    e g a :
  swapper_get_faces_from_img_files host (default [] batch_files) (files w)
  = Returned faces →
  swapper_blend_faces host faces = Returned (Some face) →
  truthy (Some face) = true →
  (render_preview host face w).1 = Returned pv →
  face !! "embedding" = Some e →
  face !! "gender" = Some g →
  face !! "age" = Some a →
  glob_has_magic dir = false →
  dir_usable host w →
  size (files w) < fuel →
  ∃ j names,
    first_free host (files w) (checkpoint_name name) j ∧
    (get_face_checkpoints host
       (build_face_checkpoint_and_save host fuel batch_files name false w).2).1
    = Returned ("None" :: names) ∧
    (candidate (checkpoint_name name) j ∈ names ↔
     PyStr.startswith (checkpoint_name name) "." = false).
Proof.
  intros H1 H2 Ht Hpv He Hg Ha _ Hok Hfuel.
  pose proof (CandidateFacts.checkpoint_name_no_sep name) as Hname.
  destruct (first_free_exists host (files w) (checkpoint_name name))
    as (j & Hj & Hfree).
  pose proof (build_keeps_dir_usable fuel batch_files name false w Hok) as Hok'.
  destruct (ListingFacts.get_face_checkpoints_listing host _ Hok')
    as (names & Hres & _ & _ & Hnames).
  exists j, names. split_and!; [done|done|].
  rewrite Hnames. unfold listed.
  assert (is_Some
            (files
               (build_face_checkpoint_and_save host fuel batch_files name
                  false w).2
               !! (dir +:+ "/" +:+ candidate (checkpoint_name name) j)))
    as Hsome.
  { destruct (build_face_checkpoint_and_save _ _ _ _ _ _) as [r w'] eqn:Hb.
    cbn [snd].
    eapply (build_writes_at host _ _ _ _ _ _ _ _ _ _ _ j) in Hb as [_ Hfile];
      try done.
    - intros w0 Hfs. apply select_file_path_unique; [|done| |lia].
      + by apply (dir_usable_files host w0 w).
      + by rewrite Hfs.
    - destruct Hfree as [_ ->]. done. }
  assert (candidate (checkpoint_name name) j ≠ "") as Hne.
  { intros Heq. apply (f_equal String.length) in Heq.
    destruct j; unfold candidate in Heq;
      rewrite ?PyStrFacts.length_app in Heq; simpl in Heq; lia. }
  assert (PyStr.startswith (candidate (checkpoint_name name) j) "."
          = PyStr.startswith (checkpoint_name name) ".") as Hdot.
  { destruct j; unfold candidate; apply startswith_app_nonempty;
      try (simpl; lia); apply SanitizeFacts.checkpoint_name_nonempty. }
  rewrite Hdot. split.
  - by intros (_ & _ & _ & ? & _).
  - intros ?. split_and!; try done.
    + by apply CandidateFacts.candidate_no_sep.
    + left. apply CandidateFacts.candidate_current.
Qed.

(** X23. A checkpoint the workflow has written can be loaded by its listed
    name: [load_face] on the file name of the candidate gives the three
    persisted fields of the blended face. *)
Theorem build_then_load fuel batch_files (name : string) w faces face pv
    e g a :
  swapper_get_faces_from_img_files host (default [] batch_files) (files w)
  = Returned faces →
  swapper_blend_faces host faces = Returned (Some face) →
  truthy (Some face) = true →
  (render_preview host face w).1 = Returned pv →
  face !! "embedding" = Some e →
  face !! "gender" = Some g →
  face !! "age" = Some a →
  dir_usable host w →
  size (files w) < fuel →
  ∃ j,
    first_free host (files w) (checkpoint_name name) j ∧
    (load_face host (candidate (checkpoint_name name) j)
       (build_face_checkpoint_and_save host fuel batch_files name false w).2).1
    = Returned (Some (persisted_face e g a)).
Proof.
  intros H1 H2 Ht Hpv He Hg Ha Hok Hfuel.
  pose proof (CandidateFacts.checkpoint_name_no_sep name) as Hname.
  destruct (first_free_exists host (files w) (checkpoint_name name))
    as (j & Hj & Hfree).
  exists j. split; [done|].
  pose proof (build_keeps_dir_usable fuel batch_files name false w Hok) as Hok'.
  destruct (build_face_checkpoint_and_save _ _ _ _ _ _) as [r w'] eqn:Hb.
  cbn [snd] in *.
  eapply (build_writes_at host _ _ _ _ _ _ _ _ _ _ _ j) in Hb as [_ Hfile];
    try done; cycle 1.
  { intros w0 Hfs. apply select_file_path_unique; [|done| |lia].
    - by apply (dir_usable_files host w0 w).
    - by rewrite Hfs. }
  { destruct Hfree as [_ ->]. done. }
  assert (matching_checkpoint host (candidate (checkpoint_name name) j) w'
          = (Returned (Some (path (checkpoint_name name) j)), with_dir host w'))
    as Hm.
  { apply matching_checkpoint_with_ext; [done| |].
    - by apply CandidateFacts.candidate_no_sep.
    - by rewrite CandidateFacts.candidate_current. }
  rewrite (load_face_current host _ _ _ _ (checkpoint_tensors e g a) Hm).
  - cbn [fst]. by rewrite loaded_fields.
  - apply path_current.
  - by apply with_dir_lookup_Some.
Qed.

End BuildExtras.

(** ** What survives a save and a load *)

Section RoundTripExtras.

Context {ndarray PILImage : Type}.
Variable host : Host ndarray PILImage.
Implicit Types w : world ndarray PILImage.
Implicit Types face : Face ndarray.

(** X24. When [save_face] returns, the file it wrote holds exactly the
    three tensors [embedding], [gender] and [age], and [load_face], under a
    name that resolves to the file, returns a descriptor with exactly these
    three fields: no other field of the saved descriptor survives. *)
Theorem save_load_three_fields face (filename name : string) w :
  (save_face face filename w).1 = Returned () →
  PyStr.endswith filename ".safetensors" = true →
  (matching_checkpoint host name (save_face face filename w).2).1
  = Returned (Some filename) →
  (∃ tensors,
      files (save_face face filename w).2 !! filename
      = Some (File (Safetensors tensors)) ∧
      dom tensors = {["embedding"; "age"; "gender"]}) ∧
  ∃ loaded,
    (load_face host name (save_face face filename w).2).1
    = Returned (Some loaded) ∧
    dom loaded = {["embedding"; "age"; "gender"]}.
Proof.
  intros Hsave Hext.
  destruct (save_face_cases face filename w)
    as [(e & g & a & He & Hg & Ha & Hdir)|(x & Hx & _)]; [|congruence].
  rewrite (save_face_returns _ _ _ _ _ _ He Hg Ha Hdir). cbn [fst snd].
  set (w1 := World _ _). intros Hres. split.
  - exists (checkpoint_tensors e g a). split; [apply lookup_insert_eq|].
    unfold checkpoint_tensors. rewrite !dom_insert_L, dom_singleton_L.
    set_solver.
  - destruct (matching_checkpoint host name w1) as [r w2] eqn:Hm.
    cbn [fst] in Hres. subst r.
    assert (files w2 !! filename
            = Some (File (Safetensors (checkpoint_tensors e g a)))) as Hfile.
    { destruct (matching_checkpoint_world host _ _ _ _ Hm) as [-> | ->].
      - apply lookup_insert_eq.
      - apply with_dir_lookup_Some, lookup_insert_eq. }
    rewrite (load_face_current host _ _ _ _ _ Hm Hext Hfile). cbn [fst].
    eexists. split; [done|]. by rewrite loaded_fields, loaded_dom.
Qed.

End RoundTripExtras.

(** ** The further statements at work on the small installation *)

Lemma sanitize_name_fixed_iff_witness : sanitize_name "alpha.v2" = "alpha.v2".
Proof.
  apply (proj2 (sanitize_name_fixed_iff "alpha.v2")). split; run.
Defined.

Lemma checkpoint_name_wellformed_witness :
  checkpoint_name "My Face" = sanitize_name "My Face".
Proof.
  exact (proj2 (proj2 (proj2 (proj2 (checkpoint_name_wellformed "My Face"))))
           ltac:(run)).
Defined.

Lemma get_checkpoint_path_creates_once_witness :
  (get_checkpoint_path Demo.host Scenes.fresh_world).1
  = Returned "/sd/models/faceswaplab/faces" ∧
  files (get_checkpoint_path Demo.host Scenes.fresh_world).2
    !! "/sd/models/faceswaplab/faces" = Some Dir.
Proof.
  destruct (get_checkpoint_path_creates_once Demo.host Scenes.fresh_world
              ltac:(intros a c _; run))
    as (_ & Hret & Hdir & _).
  split; [exact Hret|exact Hdir].
Defined.

Lemma blocked_directory_raises_witness :
  load_face Demo.host "alpha" Scenes.blocked_world
  = (Raised (FileExistsError "/sd/models/faceswaplab/faces"),
     Scenes.blocked_world).
Proof.
  exact (proj2 (proj2 (proj2
           (blocked_directory_raises Demo.host Scenes.blocked_world
              (Blob "not a directory") "alpha" ltac:(run) ltac:(run))))).
Defined.

Lemma matching_checkpoint_idempotent_witness :
  matching_checkpoint Demo.host
    "/sd/models/faceswaplab/faces/alpha.safetensors" Scenes.fresh_world
  = (Returned (Some "/sd/models/faceswaplab/faces/alpha.safetensors"),
     Scenes.fresh_world).
Proof.
  exact (proj2 (matching_checkpoint_idempotent Demo.host "alpha" Demo.world0
                  "/sd/models/faceswaplab/faces/alpha.safetensors" ltac:(run))
           Scenes.fresh_world).
Defined.

Lemma matching_checkpoint_effect_witness :
  (matching_checkpoint Demo.host "alpha" Scenes.blocked_world).2
  = Scenes.blocked_world.
Proof.
  exact (proj2 (proj2 (proj2 (proj2
           (matching_checkpoint_effect Demo.host "alpha" Scenes.blocked_world)))
           (FileExistsError "/sd/models/faceswaplab/faces") ltac:(run))).
Defined.

Lemma save_face_missing_key_witness :
  ∃ k,
    k ∈ ["embedding"; "gender"; "age"] ∧ Scenes.ageless_face !! k = None ∧
    (save_face Scenes.ageless_face
       "/sd/models/faceswaplab/faces/gamma.safetensors" Demo.world0).1
    = Raised (KeyError k) ∧
    files (save_face Scenes.ageless_face
             "/sd/models/faceswaplab/faces/gamma.safetensors" Demo.world0).2
    = files Demo.world0 ∧
    log (save_face Scenes.ageless_face
           "/sd/models/faceswaplab/faces/gamma.safetensors" Demo.world0).2
    = log Demo.world0 ++ [(ERROR, "Failed to save checkpoint %s")].
Proof.
  apply (save_face_missing_key Scenes.ageless_face
           "/sd/models/faceswaplab/faces/gamma.safetensors" Demo.world0).
  right; right. run.
Defined.

Lemma load_face_missing_file_witness :
  (load_face Demo.host "ghost.safetensors" Demo.world0).1
  = Raised (FileNotFoundError "/sd/models/faceswaplab/faces/ghost.safetensors").
Proof.
  exact (proj1 (load_face_missing_file Demo.host "ghost.safetensors"
                  Demo.world0 "/sd/models/faceswaplab/faces/ghost.safetensors"
                  ltac:(run) ltac:(run) ltac:(run))).
Defined.

Lemma load_face_writes_only_legacy_witness :
  files (load_face Demo.host "alpha" Demo.world0).2 = files Demo.world0 ∨
  files (load_face Demo.host "alpha" Demo.world0).2
  = files (with_dir Demo.host Demo.world0).
Proof.
  exact (load_face_writes_only_legacy Demo.host "alpha" Demo.world0
           ltac:(intros p Hp; vm_compute in Hp; simplify_eq; reflexivity)).
Defined.

Lemma load_face_legacy_missing_key_witness :
  ∃ k,
    k ∈ ["embedding"; "gender"; "age"] ∧ Scenes.ageless_face !! k = None ∧
    (load_face Demo.host "old" Scenes.ageless_legacy_world).1
    = Raised (KeyError k) ∧
    (files (load_face Demo.host "old" Scenes.ageless_legacy_world).2
     = files Scenes.ageless_legacy_world ∨
     files (load_face Demo.host "old" Scenes.ageless_legacy_world).2
     = files (with_dir Demo.host Scenes.ageless_legacy_world)).
Proof.
  apply (load_face_legacy_missing_key Demo.host "old"
           Scenes.ageless_legacy_world "/sd/models/faceswaplab/faces/old.pkl"
           Scenes.ageless_face); [run|run|run|right; right; run].
Defined.

Lemma load_face_legacy_replaces_all_witness :
  (load_face Demo.host "/data/old.pkl.bak.pkl" Scenes.archive_world).1
  = Returned (Some Demo.face) ∧
  files (load_face Demo.host "/data/old.pkl.bak.pkl" Scenes.archive_world).2
    !! "/data/old.safetensors.bak.safetensors"
  = Some (File (Safetensors (checkpoint_tensors [3; -1; 4]%Z [0%Z] [30%Z]))) ∧
  files (load_face Demo.host "/data/old.pkl.bak.pkl" Scenes.archive_world).2
    !! "/data/old.pkl.bak.safetensors"
  = files Scenes.archive_world !! "/data/old.pkl.bak.safetensors".
Proof.
  exact (load_face_legacy_replaces_all Demo.host "/data/old.pkl.bak.pkl"
           "/data/old" ".bak" Scenes.archive_world Demo.face
           [3; -1; 4]%Z [0%Z] [30%Z]
           ltac:(run) ltac:(run) ltac:(run) ltac:(run) ltac:(run) ltac:(run)
           ltac:(run) ltac:(run) ltac:(run)).
Defined.

Lemma load_face_second_load_is_migrated_witness :
  (load_face Demo.host "old" Demo.legacy_world).1 = Returned (Some Demo.face) ∧
  (load_face Demo.host "old" (load_face Demo.host "old" Demo.legacy_world).2).1
  = Returned (Some (persisted_face [3; -1; 4]%Z [0%Z] [30%Z])).
Proof.
  exact (load_face_second_load_is_migrated Demo.host "old" Demo.legacy_world
           Demo.face [3; -1; 4]%Z [0%Z] [30%Z]
           ltac:(intros c; run) ltac:(run) ltac:(run) ltac:(run) ltac:(run)
           ltac:(run) ltac:(run) ltac:(run) ltac:(run)).
Defined.

Lemma get_face_checkpoints_empty_witness :
  (get_face_checkpoints Demo.host Scenes.fresh_world).1 = Returned ["None"].
Proof.
  exact (get_face_checkpoints_empty Demo.host Scenes.fresh_world
           ltac:(run) ltac:(intros c; run)
           ltac:(intros n [[x Hx] _]; unfold Scenes.fresh_world in Hx;
                 cbn [files] in Hx; by rewrite lookup_empty in Hx)).
Defined.

Lemma get_face_checkpoints_names_witness :
  ∃ names,
    (get_face_checkpoints Demo.host Scenes.hidden_world).1
    = Returned ("None" :: names) ∧
    ("None" ∉ names) ∧
    ∀ n, n ∈ names →
         (PyStr.endswith n ".safetensors" = true ∨
          PyStr.endswith n ".pkl" = true) ∧
         PyStr.endswith n ".png" = false ∧
         PyStr.startswith n "." = false.
Proof.
  exact (get_face_checkpoints_names Demo.host Scenes.hidden_world
           ltac:(intros c; run)).
Defined.

Lemma build_success_files_witness :
  ∃ j e g a,
    files
      (build_face_checkpoint_and_save Demo.host 10 (Some ["a.png"]) "alpha"
         false Demo.world0).2
      !! candidate_path Demo.host (checkpoint_name "alpha") j
    = Some (File (Safetensors (checkpoint_tensors e g a))) ∧
    files
      (build_face_checkpoint_and_save Demo.host 10 (Some ["a.png"]) "alpha"
         false Demo.world0).2
      !! (candidate_path Demo.host (checkpoint_name "alpha") j +:+ ".png")
    = Some (File (Picture "woman")).
Proof.
  exact (build_success_files Demo.host 10 (Some ["a.png"]) "alpha" false
           Demo.world0 "woman" ltac:(run)).
Defined.

Lemma build_missing_gender_witness :
  build_face_checkpoint_and_save Scenes.genderless_host 10 None "alpha" false
    Demo.world0
  = (Returned None,
     World (files Demo.world0)
           (log Demo.world0 ++ [(INFO, "Build %s %s");
                                (ERROR, "Failed to build checkpoint %s")])).
Proof.
  exact (build_missing_gender Scenes.genderless_host 10 None "alpha" false
           Demo.world0 [] {["embedding" := [3; -1; 4]%Z]}
           ltac:(run) ltac:(run) ltac:(run) ltac:(run)).
Defined.

Lemma build_missing_reference_witness :
  build_face_checkpoint_and_save Demo.host 10 (Some ["a.png"]) "alpha" false
    Scenes.fresh_world
  = (Returned None,
     World (files Scenes.fresh_world)
           (log Scenes.fresh_world ++ [(INFO, "Build %s %s");
                                       (ERROR, "Failed to build checkpoint %s")])).
Proof.
  exact (build_missing_reference Demo.host 10 (Some ["a.png"]) "alpha" false
           Scenes.fresh_world [Demo.face] Demo.face [0%Z]
           ltac:(run) ltac:(run) ltac:(run) ltac:(run) ltac:(run)).
Defined.

Lemma blind_dir_usable : dir_usable Scenes.blind_host Demo.world0.
Proof. intros c. run. Qed.

Lemma build_without_target_face_witness :
  ∃ j,
    first_free Scenes.blind_host (files Demo.world0) (checkpoint_name "alpha") j ∧
    (build_face_checkpoint_and_save Scenes.blind_host 10 (Some ["a.png"])
       "alpha" false Demo.world0).1
    = Returned None ∧
    files (build_face_checkpoint_and_save Scenes.blind_host 10 (Some ["a.png"])
             "alpha" false Demo.world0).2
    = <[candidate_path Scenes.blind_host (checkpoint_name "alpha") j :=
          File (Safetensors (checkpoint_tensors [3; -1; 4]%Z [0%Z] [30%Z]))]>
        (files (with_dir Scenes.blind_host Demo.world0)).
Proof.
  exact (build_without_target_face Scenes.blind_host 10 (Some ["a.png"])
           "alpha" Demo.world0 [Demo.face] Demo.face
           [3; -1; 4]%Z [0%Z] [30%Z] "woman" [] []
           ltac:(run) ltac:(run) ltac:(run) ltac:(run) ltac:(run) ltac:(run)
           ltac:(run) ltac:(run) ltac:(run) ltac:(run) blind_dir_usable
           ltac:(run)).
Defined.

Lemma build_unique_keeps_existing_witness :
  files
    (build_face_checkpoint_and_save Demo.host 10 (Some ["a.png"]) "alpha"
       false Demo.world0).2
    !! "/sd/models/faceswaplab/faces/alpha.safetensors"
  = Some (File (Blob "a")).
Proof.
  exact (build_unique_keeps_existing Demo.host 10 (Some ["a.png"]) "alpha"
           Demo.world0 "/sd/models/faceswaplab/faces/alpha.safetensors"
           (File (Blob "a")) ltac:(run) ltac:(run)).
Defined.

Lemma build_then_listed_witness :
  ∃ j names,
    first_free Demo.host (files Demo.world0) (checkpoint_name "alpha") j ∧
    (get_face_checkpoints Demo.host
       (build_face_checkpoint_and_save Demo.host 10 (Some ["a.png"]) "alpha"
          false Demo.world0).2).1
    = Returned ("None" :: names) ∧
    (candidate (checkpoint_name "alpha") j ∈ names ↔
     PyStr.startswith (checkpoint_name "alpha") "." = false).
Proof.
  exact (build_then_listed Demo.host 10 (Some ["a.png"]) "alpha" Demo.world0
           [Demo.face] Demo.face (Some "woman") [3; -1; 4]%Z [0%Z] [30%Z]
           ltac:(run) ltac:(run) ltac:(run) ltac:(run) ltac:(run) ltac:(run)
           ltac:(run) ltac:(run) demo_dir_usable ltac:(run)).
Defined.

Lemma build_then_load_witness :
  (load_face Demo.host "alpha_2.safetensors"
     (build_face_checkpoint_and_save Demo.host 10 (Some ["a.png"]) "alpha"
        false Demo.world0).2).1
  = Returned (Some (persisted_face [3; -1; 4]%Z [0%Z] [30%Z])).
Proof.
  destruct (build_then_load Demo.host 10 (Some ["a.png"]) "alpha" Demo.world0
              [Demo.face] Demo.face (Some "woman") [3; -1; 4]%Z [0%Z] [30%Z]
              ltac:(run) ltac:(run) ltac:(run) ltac:(run) ltac:(run)
              ltac:(run) ltac:(run) demo_dir_usable ltac:(run))
    as (j & Hfree & Hload).
  rewrite (first_free_unique _ _ _ _ _ Hfree demo_first_free_alpha) in Hload.
  exact Hload.
Defined.

Lemma save_load_three_fields_witness :
  (∃ tensors,
      files (save_face Demo.face
               "/sd/models/faceswaplab/faces/gamma.safetensors" Demo.world0).2
        !! "/sd/models/faceswaplab/faces/gamma.safetensors"
      = Some (File (Safetensors tensors)) ∧
      dom tensors = {["embedding"; "age"; "gender"]}) ∧
  ∃ loaded,
    (load_face Demo.host "gamma"
       (save_face Demo.face "/sd/models/faceswaplab/faces/gamma.safetensors"
          Demo.world0).2).1
    = Returned (Some loaded) ∧
    dom loaded = {["embedding"; "age"; "gender"]}.
Proof.
  exact (save_load_three_fields Demo.host Demo.face
           "/sd/models/faceswaplab/faces/gamma.safetensors" "gamma"
           Demo.world0 ltac:(run) ltac:(run) ltac:(run)).
Defined.
